(** * A shallow embedding of the dxgkrnl host-communication layer

    Sources: drivers/hv/dxgkrnl/dxgvmbus.c, dxgadapter.c and misc.c.
    Each section below embeds the C functions the properties are about;
    machine integers are [Z] with their width written out, kernel objects
    are records, and stateful code is written with explicit state passing
    and an event trace of the observable actions (lock operations, host
    RPCs, handle-table updates, reference-count releases). *)

From Stdlib Require Import ZArith Lia Bool.
From stdpp Require Import base list.

Open Scope Z_scope.

(* ------------------------------------------------------------------ *)
(** ** Linux errno values used by the driver *)

Module Errno.
Definition EPERM := 1.
Definition ENOENT := 2.
Definition EBADF := 9.
Definition EAGAIN := 11.
Definition ENOMEM := 12.
Definition EACCES := 13.
Definition EEXIST := 17.
Definition ENODEV := 19.
Definition EINVAL := 22.
Definition EOVERFLOW := 75.
Definition EPROTOTYPE := 91.
Definition EOPNOTSUPP := 95.
Definition EINPROGRESS := 115.
End Errno.

Import Errno.

(** A 32-bit C [int] read from an unsigned literal, as [((int)(0x...L))]. *)
Definition to_s32 (x : Z) : Z :=
  let m := x mod 2 ^ 32 in if m <? 2 ^ 31 then m else m - 2 ^ 32.

(** [DXG_MAX_VM_BUS_PACKET_SIZE] (dxgvmbus.h). *)
Definition DXG_MAX_VM_BUS_PACKET_SIZE := 1024 * 128.

(* ------------------------------------------------------------------ *)
(** ** Status translation: [ntstatus2int] (dxgvmbus.c) *)

Module Status.

(** The host's NTSTATUS codes (the Windows status values, declared in
    dxgkrnl.h as [((int)(0x...L))]). *)
Definition STATUS_OBJECT_NAME_COLLISION := to_s32 0xC0000035.
Definition STATUS_NO_MEMORY := to_s32 0xC0000017.
Definition STATUS_INVALID_PARAMETER := to_s32 0xC000000D.
Definition STATUS_OBJECT_NAME_INVALID := to_s32 0xC0000033.
Definition STATUS_OBJECT_NAME_NOT_FOUND := to_s32 0xC0000034.
Definition STATUS_TIMEOUT := to_s32 0x00000102.
Definition STATUS_BUFFER_TOO_SMALL := to_s32 0xC0000023.
Definition STATUS_DEVICE_REMOVED := to_s32 0xC00002B6.
Definition STATUS_ACCESS_DENIED := to_s32 0xC0000022.
Definition STATUS_NOT_SUPPORTED := to_s32 0xC00000BB.
Definition STATUS_ILLEGAL_INSTRUCTION := to_s32 0xC000001D.
Definition STATUS_INVALID_HANDLE := to_s32 0xC0000008.
Definition STATUS_GRAPHICS_ALLOCATION_BUSY := to_s32 0xC01E0002.
Definition STATUS_OBJECT_TYPE_MISMATCH := to_s32 0xC0000024.
Definition STATUS_NOT_IMPLEMENTED := to_s32 0xC0000002.

(** [NT_SUCCESS(status)]: [status.v >= 0]. *)
Definition NT_SUCCESS (v : Z) : bool := 0 <=? v.

(** [int ntstatus2int(struct ntstatus status)]; the [switch] is a chain
    of comparisons in the order of its [case] labels. *)
Definition ntstatus2int (v : Z) : Z :=
  if NT_SUCCESS v then v
  else if v =? STATUS_OBJECT_NAME_COLLISION then - EEXIST
  else if v =? STATUS_NO_MEMORY then - ENOMEM
  else if v =? STATUS_INVALID_PARAMETER then - EINVAL
  else if v =? STATUS_OBJECT_NAME_INVALID then - ENOENT
  else if v =? STATUS_OBJECT_NAME_NOT_FOUND then - ENOENT
  else if v =? STATUS_TIMEOUT then - EAGAIN
  else if v =? STATUS_BUFFER_TOO_SMALL then - EOVERFLOW
  else if v =? STATUS_DEVICE_REMOVED then - ENODEV
  else if v =? STATUS_ACCESS_DENIED then - EACCES
  else if v =? STATUS_NOT_SUPPORTED then - EPERM
  else if v =? STATUS_ILLEGAL_INSTRUCTION then - EOPNOTSUPP
  else if v =? STATUS_INVALID_HANDLE then - EBADF
  else if v =? STATUS_GRAPHICS_ALLOCATION_BUSY then - EINPROGRESS
  else if v =? STATUS_OBJECT_TYPE_MISMATCH then - EPROTOTYPE
  else if v =? STATUS_NOT_IMPLEMENTED then - EPERM
  else - EINVAL.

(** The local error kinds named by the specification's status table, with
    the errno each one is reported as. *)
Inductive error_kind :=
  | AlreadyExists | OutOfMemory | InvalidArgument | NotFound | WouldBlock
  | Overflow | NoSuchDevice | PermissionDenied | Unsupported | NotSupported
  | BadHandle | InProgress | TypeMismatch.

Definition errno_of_kind (k : error_kind) : Z :=
  match k with
  | AlreadyExists => EEXIST | OutOfMemory => ENOMEM
  | InvalidArgument => EINVAL | NotFound => ENOENT
  | WouldBlock => EAGAIN | Overflow => EOVERFLOW
  | NoSuchDevice => ENODEV | PermissionDenied => EACCES
  | Unsupported => EPERM | NotSupported => EOPNOTSUPP
  | BadHandle => EBADF | InProgress => EINPROGRESS
  | TypeMismatch => EPROTOTYPE
  end.

(** The specification's table of named host statuses (second component:
    the local error kind the status must be translated to). *)
Definition status_table : list (Z * error_kind) :=
  [(STATUS_OBJECT_NAME_COLLISION, AlreadyExists);
   (STATUS_NO_MEMORY, OutOfMemory);
   (STATUS_INVALID_PARAMETER, InvalidArgument);
   (STATUS_OBJECT_NAME_NOT_FOUND, NotFound);
   (STATUS_OBJECT_NAME_INVALID, NotFound);
   (STATUS_TIMEOUT, WouldBlock);
   (STATUS_BUFFER_TOO_SMALL, Overflow);
   (STATUS_DEVICE_REMOVED, NoSuchDevice);
   (STATUS_ACCESS_DENIED, PermissionDenied);
   (STATUS_NOT_SUPPORTED, Unsupported);
   (STATUS_NOT_IMPLEMENTED, Unsupported);
   (STATUS_ILLEGAL_INSTRUCTION, NotSupported);
   (STATUS_INVALID_HANDLE, BadHandle);
   (STATUS_GRAPHICS_ALLOCATION_BUSY, InProgress);
   (STATUS_OBJECT_TYPE_MISMATCH, TypeMismatch)].

End Status.

(* ------------------------------------------------------------------ *)
(** ** Wide-string copy: [wcsncpy] (misc.c)

    Memory is a function from (signed) index to the stored [u16]; the
    destination write [dest[i] = v] is a pointwise update. *)

Module WStr.

Definition mem := Z -> Z.

Definition upd (m : mem) (i v : Z) : mem :=
  fun j => if j =? i then v else m j.

(** The [for] loop: returns the final value of [i] and the destination.
    [fuel] bounds the iterations; the loop runs at most [n] times. *)
Fixpoint copy_loop (fuel : nat) (dest src : mem) (i n : Z) : Z * mem :=
  match fuel with
  | O => (i, dest)
  | S fuel' =>
      if i <? n then
        let dest' := upd dest i (src i) in
        if src i =? 0 then (i + 1, dest')
        else copy_loop fuel' dest' src (i + 1) n
      else (i, dest)
  end.

(** [u16 *wcsncpy(u16 *dest, const u16 *src, size_t n)] *)
Definition wcsncpy (dest src : mem) (n : Z) : mem :=
  let '(i, d) := copy_loop (Z.to_nat n) dest src 0 n in
  upd d (i - 1) 0.

End WStr.

(* ------------------------------------------------------------------ *)
(** ** Asynchronous send with retry: [dxgvmb_send_async_msg] (dxgvmbus.c)

    The transport's [vmbus_sendpacket] is an oracle: its result at the
    k-th attempt (counting from 0). The observable actions are the send
    attempts and the [usleep_range] calls. *)

Module Async.

Inductive event := EvSend (attempt : nat) | EvSleep (min_us max_us : Z).

(** The [do { ... } while (ret == -EAGAIN && try_count < 5000)] loop;
    [fuel] bounds the iterations (the loop runs at most 5000 times). *)
Fixpoint retry_loop (fuel : nat) (sendpacket : nat -> Z) (try_count : nat)
    (tr : list event) : Z * list event :=
  match fuel with
  | O => (- EAGAIN, tr)
  | S fuel' =>
      let ret := sendpacket try_count in
      let tr := tr ++ [EvSend try_count] in
      if ret =? - EAGAIN then
        let tr := tr ++ [EvSleep 1000 2000] in
        let try_count := S try_count in
        if Nat.ltb try_count 5000 then retry_loop fuel' sendpacket try_count tr
        else (ret, tr)
      else (ret, tr)
  end.

(** [int dxgvmb_send_async_msg(channel, command, cmd_size)];
    [adapter_channel] is [channel->adapter != NULL]. *)
Definition dxgvmb_send_async_msg (adapter_channel : bool) (cmd_size : Z)
    (sendpacket : nat -> Z) : Z * list event :=
  if DXG_MAX_VM_BUS_PACKET_SIZE <? cmd_size then (- EINVAL, [])
  else if adapter_channel then (- EINVAL, [])
  else retry_loop 5000 sendpacket 0 [].

End Async.

(* ------------------------------------------------------------------ *)
(** ** Transport channel: request correlation (dxgvmbus.c)

    [struct dxgvmbuspacket] objects live in a heap indexed by address;
    the channel's [packet_list_head] is the list of the addresses of the
    pending packets, in list order. [packet_request_id] is the channel's
    [atomic64_t] counter. Packets sent to the host are recorded in
    [ch_sent] as (transaction id, command size). *)

Module Channel.

Record packet := {
  request_id : Z;
  buffer : list Z;          (* the caller's result buffer, [u8] values *)
  buffer_length : Z;        (* u32 *)
  status : Z;
  completed : bool          (* [complete(&packet->wait)] was called *)
}.

Record channel := {
  packet_request_id : Z;    (* atomic64, read as u64 *)
  heap : list packet;
  packet_list : list nat;
  ch_sent : list (Z * Z)
}.

(** A VM bus packet descriptor: [desc->trans_id] and the payload, whose
    length is [hv_pkt_datalen(desc)]. *)
Record descriptor := { trans_id : Z; data : list Z }.

Definition set_packet_list (ch : channel) (l : list nat) : channel :=
  {| packet_request_id := packet_request_id ch; heap := heap ch;
     packet_list := l; ch_sent := ch_sent ch |}.

Definition set_heap (ch : channel) (h : list packet) : channel :=
  {| packet_request_id := packet_request_id ch; heap := h;
     packet_list := packet_list ch; ch_sent := ch_sent ch |}.

(** [list_for_each_entry] looking for [desc->trans_id == entry->request_id];
    returns the first matching address. *)
Fixpoint find_packet (h : list packet) (l : list nat) (id : Z) : option nat :=
  match l with
  | [] => None
  | a :: l' =>
      match h !! a with
      | Some p => if request_id p =? id then Some a else find_packet h l' id
      | None => find_packet h l' id
      end
  end.

(** [list_del] of the entry at address [a]. *)
Fixpoint list_del (a : nat) (l : list nat) : list nat :=
  match l with
  | [] => []
  | b :: l' => if Nat.eqb a b then l' else b :: list_del a l'
  end.

(** The effect of the completion on the packet found: the size check, the
    [memcpy] of [buffer_length] bytes, and [complete(&packet->wait)]. *)
Definition complete_packet (p : packet) (payload : list Z) : packet :=
  let packet_length := Z.of_nat (length payload) in
  let '(buf, st) :=
    if buffer_length p =? 0 then (buffer p, status p)
    else if packet_length <? buffer_length p then (buffer p, - EOVERFLOW)
    else (take (Z.to_nat (buffer_length p)) payload, status p) in
  {| request_id := request_id p; buffer := buf;
     buffer_length := buffer_length p; status := st; completed := true |}.

(** [void process_completion_packet(channel, desc)]; the second component
    is [false] when no packet matched ("did not find packet to complete"). *)
Definition process_completion_packet (ch : channel) (desc : descriptor)
    : channel * bool :=
  match find_packet (heap ch) (packet_list ch) (trans_id desc) with
  | Some a =>
      let ch1 := set_packet_list ch (list_del a (packet_list ch)) in
      match heap ch !! a with
      | Some p => (set_heap ch1 (<[a := complete_packet p (data desc)]> (heap ch)), true)
      | None => (ch1, true)
      end
  | None => (ch, false)
  end.

(** The part of [dxgvmb_send_sync_msg] that runs before the caller blocks:
    the size check, the packet allocation ([alloc_ok] is the result of
    [kmem_cache_alloc]), [atomic64_inc_return], the insertion in the
    pending list and [vmbus_sendpacket] (whose result is [send_ret]).
    Returns [inl ret] when the call returns without waiting, and [inr a]
    when it waits for the completion of the packet at address [a]. *)
Definition send_sync_begin (ch : channel) (cmd_size : Z) (result : list Z)
    (result_size : Z) (alloc_ok : bool) (send_ret : Z)
    : (Z + nat) * channel :=
  if (DXG_MAX_VM_BUS_PACKET_SIZE <? cmd_size)
     || (DXG_MAX_VM_BUS_PACKET_SIZE <? result_size) then (inl (- EINVAL), ch)
  else if negb alloc_ok then (inl (- ENOMEM), ch)
  else
    let id := (packet_request_id ch + 1) mod 2 ^ 64 in
    let p := {| request_id := id; buffer := result; buffer_length := result_size;
                status := 0; completed := false |} in
    let a := length (heap ch) in
    let ch1 := {| packet_request_id := id; heap := heap ch ++ [p];
                  packet_list := packet_list ch ++ [a];
                  ch_sent := ch_sent ch ++ [(id, cmd_size)] |} in
    if negb (send_ret =? 0) then
      (inl send_ret, set_packet_list ch1 (list_del a (packet_list ch1)))
    else (inr a, ch1).

(** The channel after [dxgvmbuschannel_init]. *)
Definition channel_init : channel :=
  {| packet_request_id := 0; heap := []; packet_list := []; ch_sent := [] |}.

(** Interleavings of callers' [send_sync] calls and of the receive path:
    [reach ch n] holds for every channel state reachable from
    [channel_init] by [n] calls of [send_sync] and any number of
    completions. *)
Inductive reach : channel -> nat -> Prop :=
  | reach_init : reach channel_init 0
  | reach_begin ch n cmd_size result result_size send_ret r ch' :
      reach ch n ->
      send_sync_begin ch cmd_size result result_size true send_ret = (r, ch') ->
      reach ch' (S n)
  | reach_complete ch n desc :
      reach ch n -> reach (process_completion_packet ch desc).1 n.

End Channel.

(* ------------------------------------------------------------------ *)
(** ** Size budget of a batch allocation create:
    [dxgvmb_send_create_allocation] (dxgvmbus.c), up to the point where
    the command is built and sent. *)

Module CreateAllocSize.

Section Sizes.
(** [sizeof] of the wire structures declared in dxgvmbus.h. *)
Variables (sz_createallocation sz_createallocation_allocinfo
           sz_createallocation_return sz_allocinfo_return : Z).

(** The fields of [struct d3dkmt_createallocation] the size budget reads;
    [alloc_info] holds the [priv_drv_data_size] of each of the
    [args->alloc_count] entries of the [alloc_info] array. *)
Record args := {
  private_runtime_data_size : Z;   (* u32 *)
  priv_drv_data_size : Z;          (* u32 *)
  alloc_info : list Z              (* u32 each *)
}.

Definition alloc_count (a : args) : Z := Z.of_nat (length (alloc_info a)).

Inductive outcome :=
  | CA_Error (ret : Z)                       (* returned before any host contact *)
  | CA_Continue (cmd_size result_size : Z).  (* goes on to build and send *)

(** The [for] loop summing the per-allocation private data sizes into the
    [u32 priv_drv_data_size]; [None] is the [-EOVERFLOW] exit. *)
Fixpoint sum_priv (l : list Z) (acc : Z) : option Z :=
  match l with
  | [] => Some acc
  | s :: l' =>
      if DXG_MAX_VM_BUS_PACKET_SIZE <=? s then None
      else
        let acc := (acc + s) mod 2 ^ 32 in
        if DXG_MAX_VM_BUS_PACKET_SIZE <=? acc then None
        else sum_priv l' acc
  end.

(** [vzalloc_ok] is the result of [vzalloc(result_size)]. The size
    expressions are evaluated in 64 bits and stored in [u32] variables,
    hence the reduction modulo 2^32. *)
Definition send_create_allocation_sizes (a : args) (vzalloc_ok : bool) : outcome :=
  if (DXG_MAX_VM_BUS_PACKET_SIZE <=? private_runtime_data_size a)
     || (DXG_MAX_VM_BUS_PACKET_SIZE <=? priv_drv_data_size a)
  then CA_Error (- EOVERFLOW)
  else
    match sum_priv (alloc_info a) 0 with
    | None => CA_Error (- EOVERFLOW)
    | Some priv =>
        let result_size :=
          (sz_createallocation_return
           + ((alloc_count a - 1) mod 2 ^ 32) * sz_allocinfo_return
           + priv) mod 2 ^ 32 in
        if negb vzalloc_ok then CA_Error (- ENOMEM)
        else
          let priv := (priv + priv_drv_data_size a) mod 2 ^ 32 in
          let cmd_size :=
            (sz_createallocation
             + alloc_count a * sz_createallocation_allocinfo
             + private_runtime_data_size a + priv) mod 2 ^ 32 in
          if DXG_MAX_VM_BUS_PACKET_SIZE <? cmd_size then CA_Error (- EOVERFLOW)
          else CA_Continue cmd_size result_size
    end.

(** The aggregated size of the command: header, per-allocation array,
    runtime private data, global and per-allocation driver private data. *)
Definition aggregated_size (a : args) : Z :=
  sz_createallocation + alloc_count a * sz_createallocation_allocinfo
  + private_runtime_data_size a + priv_drv_data_size a
  + fold_right Z.add 0 (alloc_info a).

End Sizes.

(** Arguments of a create with [n] allocations and no private data. *)
Definition zeros_args (n : nat) : args :=
  {| private_runtime_data_size := 0; priv_drv_data_size := 0; alloc_info := replicate n 0 |}.

End CreateAllocSize.

(* ------------------------------------------------------------------ *)
(** ** Object graph: adapter, process-adapter bindings, devices, contexts,
    allocations and resources (dxgadapter.c)

    Objects live in arenas indexed by id ([w_devices], [w_allocs],
    [w_resources]); the intrusive lists of the C code are lists of ids.
    The world holds one adapter. Reference counts ([kref]) are integers;
    each [kref_get]/[kref_put] is also recorded in the trace together
    with the object that takes or drops the reference. *)

Module Graph.

Inductive objstate := DXGOBJECTSTATE_CREATED | DXGOBJECTSTATE_ACTIVE
                    | DXGOBJECTSTATE_DESTROYED.

Definition objstate_eqb (a b : objstate) : bool :=
  match a, b with
  | DXGOBJECTSTATE_CREATED, DXGOBJECTSTATE_CREATED
  | DXGOBJECTSTATE_ACTIVE, DXGOBJECTSTATE_ACTIVE
  | DXGOBJECTSTATE_DESTROYED, DXGOBJECTSTATE_DESTROYED => true
  | _, _ => false
  end.

Inductive adapter_state := DXGADAPTER_STATE_WAITING | DXGADAPTER_STATE_ACTIVE
                         | DXGADAPTER_STATE_STOPPED.

Definition adapter_active (s : adapter_state) : bool :=
  match s with DXGADAPTER_STATE_ACTIVE => true | _ => false end.

Inductive hmgrentry_type := HMGRENTRY_TYPE_DXGDEVICE | HMGRENTRY_TYPE_DXGCONTEXT
                          | HMGRENTRY_TYPE_DXGALLOCATION | HMGRENTRY_TYPE_DXGRESOURCE.

Definition hmgrentry_type_eqb (a b : hmgrentry_type) : bool :=
  match a, b with
  | HMGRENTRY_TYPE_DXGDEVICE, HMGRENTRY_TYPE_DXGDEVICE
  | HMGRENTRY_TYPE_DXGCONTEXT, HMGRENTRY_TYPE_DXGCONTEXT
  | HMGRENTRY_TYPE_DXGALLOCATION, HMGRENTRY_TYPE_DXGALLOCATION
  | HMGRENTRY_TYPE_DXGRESOURCE, HMGRENTRY_TYPE_DXGRESOURCE => true
  | _, _ => false
  end.

(** [struct dxgkvmb_command_destroyallocation] as sent to the host. *)
Record destroy_cmd := {
  dc_device : Z;
  dc_resource : Z;
  dc_alloc_count : Z;
  dc_allocations : list Z;
  dc_assume_not_in_use : bool
}.

(** Who takes or drops a reference. *)
Inductive ref_origin :=
  | ByContext (ctx : nat) | ByAlloc (a : nat) | ByResource (r : nat)
  | ByDevice (d : nat) | BySharedResource (s : nat) | ByCaller.

Inductive event :=
  | EvDevLock (d : nat) | EvDevUnlock (d : nat)              (* device_lock, write *)
  | EvAllocListLock (d : nat) | EvAllocListUnlock (d : nat)
  | EvCtxListLock (d : nat) | EvCtxListUnlock (d : nat)
  | EvHtLock (p : nat) | EvHtUnlock (p : nat)                (* handle table, excl *)
  | EvAdapterLock | EvAdapterUnlock                          (* core_lock, write *)
  | EvAdapterLockShared | EvAdapterUnlockShared              (* core_lock, read *)
  | EvProcessAdapterLock | EvProcessAdapterUnlock
  | EvDeviceListLock (pa : nat) | EvDeviceListUnlock (pa : nat)
  | EvDeviceStop (d : nat)                                   (* dxgdevice_stop *)
  | EvReleasePages (a : nat) | EvUnmapIospace (a : nat)
  | EvAssignHandle (p : nat) (t : hmgrentry_type) (h : Z)
  | EvFreeHandle (p : nat) (t : hmgrentry_type) (h : Z)
  | EvRpcDestroyDevice (h : Z)
  | EvRpcDestroyAllocation (cmd : option destroy_cmd)       (* None: no message *)
  | EvRpcCloseAdapter
  | EvChannelDestroy
  | EvGpadlTeardown (a : nat)
  | EvFreeAlloc (a : nat)                                    (* vfree(alloc) *)
  | EvGetAdapter (o : ref_origin) | EvPutAdapter (o : ref_origin)
  | EvGetDevice (d : nat) (o : ref_origin) | EvPutDevice (d : nat) (o : ref_origin)
  | EvGetResource (r : nat) (o : ref_origin) | EvPutResource (r : nat) (o : ref_origin)
  | EvPutContext (c : nat)
  | EvFreeDevice (d : nat) | EvFreeResource (r : nat).

Record context := {
  ctx_id : nat;
  ctx_handle : Z;
  ctx_hwqueues : list nat
}.

Record device := {
  d_process : nat;
  d_adapter_info : nat;          (* index in [w_padapters] *)
  d_has_adapter : bool;          (* device->adapter != NULL *)
  d_state : objstate;
  d_kref : Z;
  d_handle_valid : bool;
  d_handle : Z;
  d_contexts : list context;     (* context_list_head *)
  d_allocs : list nat;           (* alloc_list_head *)
  d_resources : list nat;        (* resource_list_head *)
  d_syncobjs : list nat;         (* syncobj_list_head *)
  d_pqueues : list nat           (* pqueue_list_head *)
}.

Record alloc := {
  al_process : nat;
  al_owner : option nat;         (* owner.device or owner.resource *)
  al_resource_owner : bool;
  al_in_list : bool;             (* alloc_list_entry.next != NULL *)
  al_handle_valid : bool;
  al_handle : Z;                 (* alloc_handle.v *)
  al_pages : bool;               (* pages != NULL *)
  al_cpu_mapped : bool;
  al_gpadl : Z
}.

Record resource := {
  rs_device : nat;
  rs_process : nat;
  rs_destroyed : bool;           (* bit 0 of resource->flags *)
  rs_kref : Z;
  rs_handle_valid : bool;
  rs_handle : Z;
  rs_allocs : list nat;          (* alloc_list_head *)
  rs_in_list : bool;             (* resource_list_entry.next != NULL *)
  rs_shared_owner : option nat
}.

(** [struct dxgprocess_adapter]: the binding of a process to the adapter. *)
Record padapter := {
  pa_process : nat;
  pa_devices : list nat          (* device_list_head *)
}.

Record world := {
  w_adapter_state : adapter_state;
  w_stopping_adapter : bool;
  w_adapter_kref : Z;
  w_padapters : list padapter;   (* adapter_process_list_head *)
  w_devices : list device;
  w_allocs : list alloc;
  w_resources : list resource;
  w_next_ctx : nat;
  w_htables : list (list (hmgrentry_type * Z));   (* per process *)
  w_trace : list event
}.

Global Instance device_inhabited : Inhabited device :=
  populate {| d_process := 0; d_adapter_info := 0; d_has_adapter := false;
              d_state := DXGOBJECTSTATE_CREATED; d_kref := 0;
              d_handle_valid := false; d_handle := 0; d_contexts := [];
              d_allocs := []; d_resources := []; d_syncobjs := [];
              d_pqueues := [] |}.
Global Instance alloc_inhabited : Inhabited alloc :=
  populate {| al_process := 0; al_owner := None; al_resource_owner := false;
              al_in_list := false; al_handle_valid := false; al_handle := 0;
              al_pages := false; al_cpu_mapped := false; al_gpadl := 0 |}.
Global Instance resource_inhabited : Inhabited resource :=
  populate {| rs_device := 0; rs_process := 0; rs_destroyed := false;
              rs_kref := 0; rs_handle_valid := false; rs_handle := 0;
              rs_allocs := []; rs_in_list := false; rs_shared_owner := None |}.
Global Instance padapter_inhabited : Inhabited padapter :=
  populate {| pa_process := 0; pa_devices := [] |}.

(** *** A state monad over the world *)

Definition M (A : Type) : Type := world -> A * world.

Global Instance M_ret : MRet M := fun A x w => (x, w).
Global Instance M_bind : MBind M :=
  fun A B f m w => let '(x, w') := m w in f x w'.

Definition get : M world := fun w => (w, w).
Definition put (w : world) : M unit := fun _ => (tt, w).

Definition skip : M unit := mret tt.

Fixpoint iter {A} (f : A -> M unit) (l : list A) : M unit :=
  match l with
  | [] => skip
  | x :: l' => f x ;; iter f l'
  end.

Definition modify (f : world -> world) : M unit := fun w => (tt, f w).

Definition mk_world s st k pas ds als rs nc hts tr : world :=
  {| w_adapter_state := s; w_stopping_adapter := st; w_adapter_kref := k;
     w_padapters := pas; w_devices := ds; w_allocs := als; w_resources := rs;
     w_next_ctx := nc; w_htables := hts; w_trace := tr |}.

Definition emit (e : event) : M unit :=
  modify (fun w => mk_world (w_adapter_state w) (w_stopping_adapter w)
    (w_adapter_kref w) (w_padapters w) (w_devices w) (w_allocs w)
    (w_resources w) (w_next_ctx w) (w_htables w) (w_trace w ++ [e])).

Definition set_adapter_state (s : adapter_state) : M unit :=
  modify (fun w => mk_world s (w_stopping_adapter w)
    (w_adapter_kref w) (w_padapters w) (w_devices w) (w_allocs w)
    (w_resources w) (w_next_ctx w) (w_htables w) (w_trace w)).

Definition set_stopping_adapter (b : bool) : M unit :=
  modify (fun w => mk_world (w_adapter_state w) b
    (w_adapter_kref w) (w_padapters w) (w_devices w) (w_allocs w)
    (w_resources w) (w_next_ctx w) (w_htables w) (w_trace w)).

Definition add_adapter_kref (n : Z) : M unit :=
  modify (fun w => mk_world (w_adapter_state w) (w_stopping_adapter w)
    (w_adapter_kref w + n) (w_padapters w) (w_devices w) (w_allocs w)
    (w_resources w) (w_next_ctx w) (w_htables w) (w_trace w)).

Definition map_padapters (f : list padapter -> list padapter) : M unit :=
  modify (fun w => mk_world (w_adapter_state w) (w_stopping_adapter w)
    (w_adapter_kref w) (f (w_padapters w)) (w_devices w) (w_allocs w)
    (w_resources w) (w_next_ctx w) (w_htables w) (w_trace w)).

Definition map_devices (f : list device -> list device) : M unit :=
  modify (fun w => mk_world (w_adapter_state w) (w_stopping_adapter w)
    (w_adapter_kref w) (w_padapters w) (f (w_devices w)) (w_allocs w)
    (w_resources w) (w_next_ctx w) (w_htables w) (w_trace w)).

Definition map_allocs (f : list alloc -> list alloc) : M unit :=
  modify (fun w => mk_world (w_adapter_state w) (w_stopping_adapter w)
    (w_adapter_kref w) (w_padapters w) (w_devices w) (f (w_allocs w))
    (w_resources w) (w_next_ctx w) (w_htables w) (w_trace w)).

Definition map_resources (f : list resource -> list resource) : M unit :=
  modify (fun w => mk_world (w_adapter_state w) (w_stopping_adapter w)
    (w_adapter_kref w) (w_padapters w) (w_devices w) (w_allocs w)
    (f (w_resources w)) (w_next_ctx w) (w_htables w) (w_trace w)).

Definition set_next_ctx (n : nat) : M unit :=
  modify (fun w => mk_world (w_adapter_state w) (w_stopping_adapter w)
    (w_adapter_kref w) (w_padapters w) (w_devices w) (w_allocs w)
    (w_resources w) n (w_htables w) (w_trace w)).

Definition map_htables (f : list (list (hmgrentry_type * Z)) ->
                            list (list (hmgrentry_type * Z))) : M unit :=
  modify (fun w => mk_world (w_adapter_state w) (w_stopping_adapter w)
    (w_adapter_kref w) (w_padapters w) (w_devices w) (w_allocs w)
    (w_resources w) (w_next_ctx w) (f (w_htables w)) (w_trace w)).

(** Object access by id. *)
Definition dev (d : nat) : M device := fun w => (w_devices w !!! d, w).
Definition alc (a : nat) : M alloc := fun w => (w_allocs w !!! a, w).
Definition res (r : nat) : M resource := fun w => (w_resources w !!! r, w).

Definition upd_dev (d : nat) (f : device -> device) : M unit :=
  map_devices (fun l => <[d := f (l !!! d)]> l).
Definition upd_alloc (a : nat) (f : alloc -> alloc) : M unit :=
  map_allocs (fun l => <[a := f (l !!! a)]> l).
Definition upd_res (r : nat) (f : resource -> resource) : M unit :=
  map_resources (fun l => <[r := f (l !!! r)]> l).

(** Field updates. *)
Definition mk_device (x : device) st k hv cs als rs sos : device :=
  {| d_process := d_process x; d_adapter_info := d_adapter_info x;
     d_has_adapter := d_has_adapter x; d_state := st; d_kref := k;
     d_handle_valid := hv; d_handle := d_handle x; d_contexts := cs;
     d_allocs := als; d_resources := rs; d_syncobjs := sos;
     d_pqueues := d_pqueues x |}.

Definition dev_state (s : objstate) (x : device) : device :=
  mk_device x s (d_kref x) (d_handle_valid x) (d_contexts x) (d_allocs x)
    (d_resources x) (d_syncobjs x).
Definition dev_kref (n : Z) (x : device) : device :=
  mk_device x (d_state x) (d_kref x + n) (d_handle_valid x) (d_contexts x)
    (d_allocs x) (d_resources x) (d_syncobjs x).
Definition dev_handle_valid (b : bool) (x : device) : device :=
  mk_device x (d_state x) (d_kref x) b (d_contexts x) (d_allocs x)
    (d_resources x) (d_syncobjs x).
Definition dev_contexts (f : list context -> list context) (x : device) : device :=
  mk_device x (d_state x) (d_kref x) (d_handle_valid x) (f (d_contexts x))
    (d_allocs x) (d_resources x) (d_syncobjs x).
Definition dev_allocs (f : list nat -> list nat) (x : device) : device :=
  mk_device x (d_state x) (d_kref x) (d_handle_valid x) (d_contexts x)
    (f (d_allocs x)) (d_resources x) (d_syncobjs x).
Definition dev_resources (f : list nat -> list nat) (x : device) : device :=
  mk_device x (d_state x) (d_kref x) (d_handle_valid x) (d_contexts x)
    (d_allocs x) (f (d_resources x)) (d_syncobjs x).
Definition dev_syncobjs (f : list nat -> list nat) (x : device) : device :=
  mk_device x (d_state x) (d_kref x) (d_handle_valid x) (d_contexts x)
    (d_allocs x) (d_resources x) (f (d_syncobjs x)).
Definition dev_adapter_info (i : nat) (x : device) : device :=
  {| d_process := d_process x; d_adapter_info := i;
     d_has_adapter := d_has_adapter x; d_state := d_state x; d_kref := d_kref x;
     d_handle_valid := d_handle_valid x; d_handle := d_handle x;
     d_contexts := d_contexts x; d_allocs := d_allocs x;
     d_resources := d_resources x; d_syncobjs := d_syncobjs x;
     d_pqueues := d_pqueues x |}.

Definition mk_alloc (x : alloc) inl hv h pg cm gp : alloc :=
  {| al_process := al_process x; al_owner := al_owner x;
     al_resource_owner := al_resource_owner x; al_in_list := inl;
     al_handle_valid := hv; al_handle := h; al_pages := pg;
     al_cpu_mapped := cm; al_gpadl := gp |}.

Definition alloc_in_list (b : bool) (x : alloc) : alloc :=
  mk_alloc x b (al_handle_valid x) (al_handle x) (al_pages x) (al_cpu_mapped x) (al_gpadl x).
Definition alloc_handle_valid (b : bool) (x : alloc) : alloc :=
  mk_alloc x (al_in_list x) b (al_handle x) (al_pages x) (al_cpu_mapped x) (al_gpadl x).
Definition alloc_handle (h : Z) (x : alloc) : alloc :=
  mk_alloc x (al_in_list x) (al_handle_valid x) h (al_pages x) (al_cpu_mapped x) (al_gpadl x).
Definition alloc_pages (b : bool) (x : alloc) : alloc :=
  mk_alloc x (al_in_list x) (al_handle_valid x) (al_handle x) b (al_cpu_mapped x) (al_gpadl x).
Definition alloc_cpu_mapped (b : bool) (x : alloc) : alloc :=
  mk_alloc x (al_in_list x) (al_handle_valid x) (al_handle x) (al_pages x) b (al_gpadl x).
Definition alloc_gpadl (g : Z) (x : alloc) : alloc :=
  mk_alloc x (al_in_list x) (al_handle_valid x) (al_handle x) (al_pages x) (al_cpu_mapped x) g.

Definition mk_res (x : resource) ds k hv h als inl so : resource :=
  {| rs_device := rs_device x; rs_process := rs_process x; rs_destroyed := ds;
     rs_kref := k; rs_handle_valid := hv; rs_handle := h; rs_allocs := als;
     rs_in_list := inl; rs_shared_owner := so |}.

Definition res_destroyed (b : bool) (x : resource) : resource :=
  mk_res x b (rs_kref x) (rs_handle_valid x) (rs_handle x) (rs_allocs x) (rs_in_list x) (rs_shared_owner x).
Definition res_kref (n : Z) (x : resource) : resource :=
  mk_res x (rs_destroyed x) (rs_kref x + n) (rs_handle_valid x) (rs_handle x) (rs_allocs x) (rs_in_list x) (rs_shared_owner x).
Definition res_handle_valid (b : bool) (x : resource) : resource :=
  mk_res x (rs_destroyed x) (rs_kref x) b (rs_handle x) (rs_allocs x) (rs_in_list x) (rs_shared_owner x).
Definition res_handle (h : Z) (x : resource) : resource :=
  mk_res x (rs_destroyed x) (rs_kref x) (rs_handle_valid x) h (rs_allocs x) (rs_in_list x) (rs_shared_owner x).
Definition res_allocs (f : list nat -> list nat) (x : resource) : resource :=
  mk_res x (rs_destroyed x) (rs_kref x) (rs_handle_valid x) (rs_handle x) (f (rs_allocs x)) (rs_in_list x) (rs_shared_owner x).
Definition res_in_list (b : bool) (x : resource) : resource :=
  mk_res x (rs_destroyed x) (rs_kref x) (rs_handle_valid x) (rs_handle x) (rs_allocs x) b (rs_shared_owner x).
Definition res_shared_owner (so : option nat) (x : resource) : resource :=
  mk_res x (rs_destroyed x) (rs_kref x) (rs_handle_valid x) (rs_handle x) (rs_allocs x) (rs_in_list x) so.

(** *** The per-process handle table (hmgr.c, not among the sources)

    Modelled from the spec: the handle table is an external id -> object
    map; [hmgrtable_assign_handle] either registers the (type, handle)
    entry or fails (its outcome is the oracle [ok]), and
    [hmgrtable_free_handle] removes the entry. *)

Definition entry_eqb (e1 e2 : hmgrentry_type * Z) : bool :=
  hmgrentry_type_eqb e1.1 e2.1 && (e1.2 =? e2.2).

Definition hmgrtable_free_handle (p : nat) (t : hmgrentry_type) (h : Z) : M unit :=
  emit (EvFreeHandle p t h) ;;
  map_htables (fun hts =>
    <[p := List.filter (fun e => negb (entry_eqb e (t, h))) (hts !!! p)]> hts).

Definition hmgrtable_assign_handle (ok : bool) (p : nat) (t : hmgrentry_type)
    (h : Z) : M Z :=
  if ok then
    emit (EvAssignHandle p t h) ;;
    map_htables (fun hts => <[p := (hts !!! p) ++ [(t, h)]]> hts) ;;
    mret 0
  else mret (- EINVAL).

Definition hmgrtable_free_handle_safe (p : nat) (t : hmgrentry_type) (h : Z)
    : M unit :=
  emit (EvHtLock p) ;; hmgrtable_free_handle p t h ;; emit (EvHtUnlock p).

(** *** Reference counts *)

Definition kref_get_adapter (o : ref_origin) : M unit :=
  emit (EvGetAdapter o) ;; add_adapter_kref 1.

(** [kref_put(&adapter->adapter_kref, dxgadapter_release)] *)
Definition kref_put_adapter (o : ref_origin) : M unit :=
  emit (EvPutAdapter o) ;; add_adapter_kref (-1).

Definition kref_get_device (d : nat) (o : ref_origin) : M unit :=
  emit (EvGetDevice d o) ;; upd_dev d (dev_kref 1).

(** [kref_put(&device->device_kref, dxgdevice_release)]; the release
    function frees the device. *)
Definition kref_put_device (d : nat) (o : ref_origin) : M unit :=
  emit (EvPutDevice d o) ;; upd_dev d (dev_kref (-1)) ;;
  x ← dev d ;
  if d_kref x =? 0 then emit (EvFreeDevice d) else skip.

Definition kref_get_resource (r : nat) (o : ref_origin) : M unit :=
  emit (EvGetResource r o) ;; upd_res r (res_kref 1).

(** [kref_put(&resource->resource_kref, dxgresource_release)] *)
Definition kref_put_resource (r : nat) (o : ref_origin) : M unit :=
  emit (EvPutResource r o) ;; upd_res r (res_kref (-1)) ;;
  x ← res r ;
  if rs_kref x =? 0 then emit (EvFreeResource r) else skip.

(** *** Adapter locks *)

(** [dxgadapter_acquire_lock_shared]: [true] is the return value 0. *)
Definition dxgadapter_acquire_lock_shared : M bool :=
  emit EvAdapterLockShared ;;
  w ← get ;
  if adapter_active (w_adapter_state w) then mret true
  else emit EvAdapterUnlockShared ;; mret false.

(** [dxgadapter_acquire_lock_exclusive]: [true] is the return value 0. *)
Definition dxgadapter_acquire_lock_exclusive : M bool :=
  emit EvAdapterLock ;;
  w ← get ;
  if adapter_active (w_adapter_state w) then mret true
  else emit EvAdapterUnlock ;; mret false.

(** *** Host RPCs (dxgvmbus.c); only the request is observed. *)

Definition dxgvmb_send_destroy_device (h : Z) : M unit :=
  emit (EvRpcDestroyDevice h).

Definition dxgvmb_send_destroy_allocation (cmd : destroy_cmd) : M unit :=
  emit (EvRpcDestroyAllocation (Some cmd)).

Definition dxgvmb_send_close_adapter : M unit := emit EvRpcCloseAdapter.

(** *** Allocations *)

(** [dxgallocation_stop] *)
Definition dxgallocation_stop (a : nat) : M unit :=
  x ← alc a ;
  (if al_pages x then emit (EvReleasePages a) ;; upd_alloc a (alloc_pages false)
   else skip) ;;
  emit (EvHtLock (al_process x)) ;;
  x ← alc a ;
  (if al_cpu_mapped x then
     emit (EvUnmapIospace a) ;; upd_alloc a (alloc_cpu_mapped false)
   else skip) ;;
  emit (EvHtUnlock (al_process x)).

(** [dxgallocation_free_handle] *)
Definition dxgallocation_free_handle (a : nat) : M unit :=
  x ← alc a ;
  emit (EvHtLock (al_process x)) ;;
  (if al_handle_valid x then
     hmgrtable_free_handle (al_process x) HMGRENTRY_TYPE_DXGALLOCATION (al_handle x) ;;
     upd_alloc a (alloc_handle_valid false)
   else skip) ;;
  emit (EvHtUnlock (al_process x)).

(** [dxgresource_remove_alloc] *)
Definition dxgresource_remove_alloc (r a : nat) : M unit :=
  x ← alc a ;
  if al_in_list x then
    upd_res r (res_allocs (Channel.list_del a)) ;; upd_alloc a (alloc_in_list false)
  else skip.

(** [dxgdevice_remove_alloc] *)
Definition dxgdevice_remove_alloc (d a : nat) : M unit :=
  x ← alc a ;
  if al_in_list x then
    upd_dev d (dev_allocs (Channel.list_del a)) ;; upd_alloc a (alloc_in_list false) ;;
    kref_put_device d (ByAlloc a)
  else skip.

(** [dxgallocation_destroy]; [owner.device] is set for every allocation
    owned by a device. *)
Definition dxgallocation_destroy (a : nat) : M unit :=
  dxgallocation_stop a ;;
  x ← alc a ;
  (if al_resource_owner x then
     match al_owner x with Some r => dxgresource_remove_alloc r a | None => skip end
   else
     match al_owner x with Some d => dxgdevice_remove_alloc d a | None => skip end) ;;
  dxgallocation_free_handle a ;;
  x ← alc a ;
  (if negb (al_handle x =? 0) && negb (al_resource_owner x) then
     match al_owner x with
     | Some d =>
         y ← dev d ;
         dxgvmb_send_destroy_allocation
           {| dc_device := d_handle y; dc_resource := 0; dc_alloc_count := 1;
              dc_allocations := [al_handle x]; dc_assume_not_in_use := false |}
     | None => skip
     end
   else skip) ;;
  x ← alc a ;
  (if negb (al_gpadl x =? 0) then
     emit (EvGpadlTeardown a) ;; upd_alloc a (alloc_gpadl 0)
   else skip) ;;
  emit (EvFreeAlloc a).

(** *** Resources *)

(** [dxgresource_free_handle] *)
Definition dxgresource_free_handle (r : nat) : M unit :=
  x ← res r ;
  (if rs_handle_valid x then
     hmgrtable_free_handle_safe (rs_process x) HMGRENTRY_TYPE_DXGRESOURCE (rs_handle x) ;;
     upd_res r (res_handle_valid false)
   else skip) ;;
  x ← res r ;
  iter dxgallocation_free_handle (rs_allocs x).

(** [dxgdevice_remove_resource] *)
Definition dxgdevice_remove_resource (d r : nat) : M unit :=
  x ← res r ;
  if rs_in_list x then
    upd_dev d (dev_resources (Channel.list_del r)) ;; upd_res r (res_in_list false) ;;
    kref_put_device d (ByResource r)
  else skip.

(** [dxgsharedresource_remove_resource]: the shared resource drops its
    reference on the resource. *)
Definition dxgsharedresource_remove_resource (s r : nat) : M unit :=
  upd_res r (res_shared_owner None) ;; kref_put_resource r (BySharedResource s).

(** [dxgresource_destroy] *)
Definition dxgresource_destroy (r : nat) : M unit :=
  x ← res r ;
  let destroyed := rs_destroyed x in
  upd_res r (res_destroyed true) ;;
  (if negb destroyed then
     dxgresource_free_handle r ;;
     x ← res r ;
     (if negb (rs_handle x =? 0) then
        y ← dev (rs_device x) ;
        dxgvmb_send_destroy_allocation
          {| dc_device := d_handle y; dc_resource := rs_handle x;
             dc_alloc_count := 0; dc_allocations := [];
             dc_assume_not_in_use := false |} ;;
        upd_res r (res_handle 0)
      else skip) ;;
     x ← res r ;
     iter dxgallocation_destroy (rs_allocs x) ;;
     dxgdevice_remove_resource (rs_device x) r ;;
     x ← res r ;
     match rs_shared_owner x with
     | Some s => dxgsharedresource_remove_resource s r ;; upd_res r (res_shared_owner None)
     | None => skip
     end
   else skip) ;;
  kref_put_resource r ByCaller.

(** *** Contexts *)

(** [dxgdevice_remove_context] *)
Definition dxgdevice_remove_context (d : nat) (c : context) : M unit :=
  upd_dev d (dev_contexts (List.filter (fun c' => negb (Nat.eqb (ctx_id c') (ctx_id c))))).

(** [dxgcontext_destroy(process, context)], called with the device's
    context list lock held; [context->device] is the device [d] (set by
    [dxgcontext_create]). [dxghwqueue_destroy] is a placeholder. *)
Definition dxgcontext_destroy (p d : nat) (c : context) : M unit :=
  (if negb (ctx_handle c =? 0) then
     hmgrtable_free_handle_safe p HMGRENTRY_TYPE_DXGCONTEXT (ctx_handle c)
   else skip) ;;
  dxgdevice_remove_context d c ;;
  kref_put_device d (ByContext (ctx_id c)) ;;
  iter (fun _ => skip) (ctx_hwqueues c) ;;
  emit (EvPutContext (ctx_id c)).

(** [dxgdevice_add_context] *)
Definition dxgdevice_add_context (d : nat) (c : context) : M unit :=
  emit (EvCtxListLock d) ;;
  upd_dev d (dev_contexts (fun l => l ++ [c])) ;;
  emit (EvCtxListUnlock d).

(** [dxgcontext_create(device)]; [vzalloc_ok] is the result of the
    allocation of the context object. *)
Definition dxgcontext_create (d : nat) (vzalloc_ok : bool) : M (option nat) :=
  if negb vzalloc_ok then mret None
  else
    w ← get ;
    let c := w_next_ctx w in
    set_next_ctx (S c) ;;
    kref_get_device d (ByContext c) ;;
    dxgdevice_add_context d {| ctx_id := c; ctx_handle := 0; ctx_hwqueues := [] |} ;;
    mret (Some c).

(** *** Devices *)

(** [dxgdevice_stop]; [dxgpagingqueue_stop] and [dxgsyncobject_stop] are
    placeholders. *)
Definition dxgdevice_stop (d : nat) : M unit :=
  emit (EvDeviceStop d) ;;
  emit (EvAllocListLock d) ;;
  x ← dev d ;
  iter dxgallocation_stop (d_allocs x) ;;
  emit (EvAllocListUnlock d) ;;
  emit (EvHtLock (d_process x)) ;;
  emit (EvHtUnlock (d_process x)).

(** [dxgprocess_adapter_add_device]: looks up the binding of the process
    to the adapter and appends the device to its device list. *)
Definition dxgprocess_adapter_add_device (p d : nat) : M Z :=
  emit EvProcessAdapterLock ;;
  w ← get ;
  match list_find (fun pa => pa_process pa = p) (w_padapters w) with
  | None => emit EvProcessAdapterUnlock ;; mret (- EINVAL)
  | Some (i, pa) =>
      emit (EvDeviceListLock i) ;;
      map_padapters (fun l => <[i := {| pa_process := pa_process pa;
                                         pa_devices := pa_devices pa ++ [d] |}]> l) ;;
      upd_dev d (dev_adapter_info i) ;;
      emit (EvDeviceListUnlock i) ;;
      emit EvProcessAdapterUnlock ;;
      mret 0
  end.

(** [dxgprocess_adapter_remove_device] *)
Definition dxgprocess_adapter_remove_device (d : nat) : M unit :=
  x ← dev d ;
  let i := d_adapter_info x in
  emit (EvDeviceListLock i) ;;
  map_padapters (fun l =>
    let pa := l !!! i in
    <[i := {| pa_process := pa_process pa;
              pa_devices := Channel.list_del d (pa_devices pa) |}]> l) ;;
  emit (EvDeviceListUnlock i).

(** [dxgdevice_create(adapter, process)]; [vzalloc_ok] is the result of
    the allocation of the device object, which gets the next free id. *)
Definition dxgdevice_create (p : nat) (vzalloc_ok : bool) : M (option nat) :=
  if negb vzalloc_ok then mret None
  else
    w ← get ;
    let d := length (w_devices w) in
    map_devices (fun l => l ++
      [{| d_process := p; d_adapter_info := 0; d_has_adapter := true;
          d_state := DXGOBJECTSTATE_CREATED; d_kref := 1;
          d_handle_valid := false; d_handle := 0; d_contexts := [];
          d_allocs := []; d_resources := []; d_syncobjs := [];
          d_pqueues := [] |}]) ;;
    kref_get_adapter (ByDevice d) ;;
    ret ← dxgprocess_adapter_add_device p d ;
    if ret <? 0 then kref_put_device d ByCaller ;; mret None
    else mret (Some d).

(** [dxgdevice_destroy]. The syncobject and paging queue destructors are
    placeholders. *)
Definition dxgdevice_destroy (d : nat) : M unit :=
  x ← dev d ;
  let p := d_process x in
  emit (EvDevLock d) ;;
  x ← dev d ;
  (if objstate_eqb (d_state x) DXGOBJECTSTATE_ACTIVE then
     upd_dev d (dev_state DXGOBJECTSTATE_DESTROYED) ;;
     dxgdevice_stop d ;;
     emit (EvAllocListLock d) ;;
     x ← dev d ;
     iter (fun s => upd_dev d (dev_syncobjs (Channel.list_del s)) ;;
                    emit (EvAllocListUnlock d) ;;
                    emit (EvAllocListLock d)) (d_syncobjs x) ;;
     x ← dev d ;
     iter dxgallocation_destroy (d_allocs x) ;;
     x ← dev d ;
     iter dxgresource_destroy (d_resources x) ;;
     emit (EvAllocListUnlock d) ;;
     emit (EvCtxListLock d) ;;
     x ← dev d ;
     iter (dxgcontext_destroy p d) (d_contexts x) ;;
     emit (EvCtxListUnlock d) ;;
     emit (EvHtLock p) ;;
     x ← dev d ;
     device_handle ←
       (if d_handle_valid x then
          hmgrtable_free_handle p HMGRENTRY_TYPE_DXGDEVICE (d_handle x) ;;
          upd_dev d (dev_handle_valid false) ;;
          mret (d_handle x)
        else mret 0 : M Z) ;
     emit (EvHtUnlock p) ;;
     (if negb (device_handle =? 0) then
        emit (EvDevUnlock d) ;;
        acquired ← dxgadapter_acquire_lock_shared ;
        (if (acquired : bool) then
           dxgvmb_send_destroy_device device_handle ;; emit EvAdapterUnlockShared
         else skip) ;;
        emit (EvDevLock d)
      else skip)
   else skip) ;;
  (* cleanup: *)
  x ← dev d ;
  (if d_has_adapter x then
     dxgprocess_adapter_remove_device d ;; kref_put_adapter (ByDevice d)
   else skip) ;;
  emit (EvDevUnlock d) ;;
  kref_put_device d ByCaller.

(** *** Adapter stop *)

(** [dxgprocess_adapter_stop] of the [i]-th binding of the adapter. *)
Definition dxgprocess_adapter_stop (i : nat) : M unit :=
  w ← get ;
  emit (EvDeviceListLock i) ;;
  iter dxgdevice_stop (pa_devices (w_padapters w !!! i)) ;;
  emit (EvDeviceListUnlock i).

(** [dxgadapter_stop] *)
Definition dxgadapter_stop : M unit :=
  emit EvAdapterLock ;;
  w ← get ;
  let adapter_stopped := w_stopping_adapter w in
  (if negb adapter_stopped then set_stopping_adapter true else skip) ;;
  emit EvAdapterUnlock ;;
  if adapter_stopped then skip
  else
    emit EvProcessAdapterLock ;;
    w ← get ;
    iter dxgprocess_adapter_stop (seq 0 (length (w_padapters w))) ;;
    emit EvProcessAdapterUnlock ;;
    acquired ← dxgadapter_acquire_lock_exclusive ;
    (if (acquired : bool) then dxgvmb_send_close_adapter ;; emit EvAdapterUnlock else skip) ;;
    emit EvChannelDestroy ;;
    set_adapter_state DXGADAPTER_STATE_STOPPED.

(** *** Batch allocation create: the local phase after the host created
    the allocations ([process_allocation_handles] and
    [create_local_allocations], dxgvmbus.c) *)

(** The fields of [struct d3dkmt_createallocation] the local phase reads. *)
Record createalloc_args := {
  ca_create_resource : bool;     (* args->flags.create_resource *)
  ca_device : Z;                 (* args->device *)
  ca_resource : Z                (* args->resource *)
}.

(** The host's [dxgkvmb_command_createallocation_return]: the resource
    handle and the handle of each allocation. *)
Record createalloc_return := {
  cr_resource : Z;
  cr_allocations : list Z
}.

(** The outcomes of the steps whose code is outside the object graph:
    [init_message] of the destroy command, [copy_to_user] of the resource
    handle and of the global share, the result of the per-allocation part
    of the loop ([create_existing_sysmem] and the [copy_to_user] calls,
    negative on failure), and [hmgrtable_assign_handle]. *)
Record createalloc_env := {
  init_message_ok : bool;
  copy_resource_ok : bool;
  alloc_step : nat -> Z;
  assign_ok : hmgrentry_type -> Z -> bool;
  copy_global_share_ok : bool
}.

(** The allocation loop of [process_allocation_handles]: [ret] holds the
    last value returned by [hmgrtable_assign_handle]. *)
Fixpoint assign_alloc_handles (env : createalloc_env) (p : nat)
    (l : list (nat * Z)) (ret : Z) : M Z :=
  match l with
  | [] => mret ret
  | (a, h) :: l' =>
      r ← hmgrtable_assign_handle (assign_ok env HMGRENTRY_TYPE_DXGALLOCATION h)
            p HMGRENTRY_TYPE_DXGALLOCATION h ;
      if r <? 0 then mret r
      else
        upd_alloc a (alloc_handle h) ;; upd_alloc a (alloc_handle_valid true) ;;
        assign_alloc_handles env p l' r
  end.

(** [process_allocation_handles] *)
Definition process_allocation_handles (env : createalloc_env) (p : nat)
    (args : createalloc_args) (result : createalloc_return)
    (dxgalloc : list nat) (resource : option nat) : M Z :=
  emit (EvHtLock p) ;;
  ret ← (if ca_create_resource args then
           r ← hmgrtable_assign_handle
                 (assign_ok env HMGRENTRY_TYPE_DXGRESOURCE (cr_resource result))
                 p HMGRENTRY_TYPE_DXGRESOURCE (cr_resource result) ;
           (if r <? 0 then skip
            else match resource with
                 | Some rr => upd_res rr (res_handle (cr_resource result)) ;;
                              upd_res rr (res_handle_valid true)
                 | None => skip
                 end) ;;
           mret r
         else mret 0 : M Z) ;
  ret ← assign_alloc_handles env p (combine dxgalloc (cr_allocations result)) ret ;
  emit (EvHtUnlock p) ;;
  mret ret.

(** The per-allocation loop of [create_local_allocations]: the first
    failing step, if any. *)
Fixpoint first_failing_step (step : nat -> Z) (i k : nat) : option Z :=
  match k with
  | O => None
  | S k' => if step i <? 0 then Some (step i) else first_failing_step step (S i) k'
  end.

(** The [cleanup:] block of [create_local_allocations]; [msg] is the
    prepared destroy command ([None] when [init_message] failed and
    [msg.hdr] is NULL). *)
Definition create_local_allocations_cleanup (d : nat) (args : createalloc_args)
    (resource : option nat) (dxgalloc : list nat) (msg : option destroy_cmd)
    (ret : Z) : M Z :=
  if ret <? 0 then
    emit (EvAllocListLock d) ;;
    iter dxgallocation_free_handle dxgalloc ;;
    (match resource with
     | Some r => if ca_create_resource args then dxgresource_free_handle r else skip
     | None => skip
     end) ;;
    emit (EvAllocListUnlock d) ;;
    emit (EvRpcDestroyAllocation msg) ;;
    emit (EvAllocListLock d) ;;
    iter (fun a => upd_alloc a (alloc_handle 0) ;; dxgallocation_destroy a) dxgalloc ;;
    (match resource with
     | Some r =>
         if ca_create_resource args then
           kref_get_resource r ByCaller ;; dxgresource_destroy r
         else skip
     | None => skip
     end) ;;
    emit (EvAllocListUnlock d) ;;
    mret ret
  else mret ret.

(** The destroy command [create_local_allocations] prepares. *)
Definition destroy_buffer (args : createalloc_args) (result : createalloc_return)
    (alloc_count : nat) : destroy_cmd :=
  {| dc_device := ca_device args; dc_resource := ca_resource args;
     dc_alloc_count := Z.of_nat alloc_count;
     dc_allocations := take alloc_count (cr_allocations result);
     dc_assume_not_in_use := true |}.

(** [create_local_allocations(process, device, args, ..., result, resource,
    dxgalloc, destroy_buffer_size)]; [dxgalloc] holds the
    [args->alloc_count] allocation objects. *)
Definition create_local_allocations (env : createalloc_env) (p d : nat)
    (args : createalloc_args) (result : createalloc_return)
    (resource : option nat) (dxgalloc : list nat) : M Z :=
  let alloc_count := length dxgalloc in
  if negb (init_message_ok env) then
    create_local_allocations_cleanup d args resource dxgalloc None (- ENOMEM)
  else
    let msg := destroy_buffer args result alloc_count in
    ret ← (if ca_create_resource args && negb (copy_resource_ok env) then mret (- EINVAL)
           else
             match first_failing_step (alloc_step env) 0 alloc_count with
             | Some r => mret r
             | None =>
                 ret ← process_allocation_handles env p args result dxgalloc resource ;
                 if ret <? 0 then mret ret
                 else if copy_global_share_ok env then mret 0 else mret (- EINVAL)
             end : M Z) ;
    create_local_allocations_cleanup d args resource dxgalloc (Some msg) ret.

End Graph.

(* ------------------------------------------------------------------ *)
(** ** Relations and event classes for the object-graph properties *)

Module GraphSpecs.
Import Graph.

(** [keeps R m]: every run of [m] relates the world before to the world
    after by [R]. *)
Definition keeps (R : world -> world -> Prop) {A} (m : M A) : Prop :=
  forall w, R w (m w).2.

(** The flag [stopping_adapter] only changes in [dxgadapter_stop]. *)
Definition same_stopping (w w' : world) : Prop :=
  w_stopping_adapter w' = w_stopping_adapter w.

(** A device of process 0 bound to the adapter through binding 0. *)
Definition example_device (st : objstate) (hv : bool) (h : Z) (cs : list context) : device :=
  {| d_process := 0; d_adapter_info := 0; d_has_adapter := true; d_state := st;
     d_kref := 1 + Z.of_nat (length cs); d_handle_valid := hv; d_handle := h;
     d_contexts := cs; d_allocs := []; d_resources := []; d_syncobjs := [];
     d_pqueues := [] |}.

(** An active adapter, with two references, and one device [0]. *)
Definition example_world (x : device) : world :=
  mk_world DXGADAPTER_STATE_ACTIVE false 2 [{| pa_process := 0; pa_devices := [0%nat] |}]
    [x] [] [] 0 [[(HMGRENTRY_TYPE_DXGDEVICE, d_handle x)]] [].

(** Events that belong to the teardown of a device's host handle. *)
Definition device_teardown_event (e : event) : bool :=
  match e with
  | EvRpcDestroyDevice _ | EvFreeHandle _ HMGRENTRY_TYPE_DXGDEVICE _ => true
  | _ => false
  end.

Definition device_unlock_event (e : event) : bool :=
  match e with EvDevUnlock _ => true | _ => false end.

(** The phases of [dxgdevice_destroy] before the handle is freed: no
    device-handle teardown, no device unlock, the adapter state and the
    handle fields of every device unchanged. *)
Definition before_handle_free (w w' : world) : Prop :=
  (exists tr, w_trace w' = w_trace w ++ tr /\
     Forall (fun e => device_teardown_event e || device_unlock_event e = false) tr) /\
  w_adapter_state w' = w_adapter_state w /\
  (forall e, d_handle_valid (w_devices w' !!! e) = d_handle_valid (w_devices w !!! e) /\
             d_handle (w_devices w' !!! e) = d_handle (w_devices w !!! e)).

(** The phases after: no device-handle teardown. *)
Definition no_teardown (w w' : world) : Prop :=
  exists tr, w_trace w' = w_trace w ++ tr /\
     Forall (fun e => device_teardown_event e = false) tr.

Definition adapter_ref_event (e : event) : bool :=
  match e with EvGetAdapter _ | EvPutAdapter _ => true | _ => false end.

Definition context_ref_event (d : nat) (e : event) : bool :=
  match e with
  | EvGetDevice d' (ByContext _) | EvPutDevice d' (ByContext _) => Nat.eqb d' d
  | _ => false
  end.

(** The references a device holds on its adapter, and the ones its
    contexts hold on device [d]. *)
Definition parent_ref_event (d : nat) (e : event) : bool :=
  adapter_ref_event e || context_ref_event d e.

Definition ref_frame (P : event -> bool) (w w' : world) : Prop :=
  (exists tr, w_trace w' = w_trace w ++ tr /\ Forall (fun e => P e = false) tr) /\
  w_adapter_kref w' = w_adapter_kref w /\
  (forall e, d_has_adapter (w_devices w' !!! e) = d_has_adapter (w_devices w !!! e)).

Definition ref_frame_ctx (P : event -> bool) (w w' : world) : Prop :=
  ref_frame P w w' /\
  (forall e, d_contexts (w_devices w' !!! e) = d_contexts (w_devices w !!! e)).

End GraphSpecs.

(* ------------------------------------------------------------------ *)
(** ** Lock-order tracking of the debug build (misc.c) *)

Module LockOrder.
Import WStr.

Section LockOrder.

(** [DXGK_MAX_LOCK_DEPTH] (dxgkrnl.h). *)
Variable DXGK_MAX_LOCK_DEPTH : Z.

(** [struct dxgthreadinfo]; [freed] records the [kfree] of the object.
    [lock_info] holds the [lock_order] of the array
    [lock_info[DXGK_MAX_LOCK_DEPTH]] as a function of the index: the
    entries outside [0 .. DXGK_MAX_LOCK_DEPTH) stand for accesses out of
    the array's bounds, which the C code does not guard against; the
    properties below only rely on entries inside the array. *)
Record dxgthreadinfo := mk_info {
  thread : nat;
  refcount : Z;
  lock_held : bool;
  current_lock_index : Z;
  lock_info : mem;
  freed : bool
}.

#[global] Instance dxgthreadinfo_inhabited : Inhabited dxgthreadinfo :=
  populate (mk_info 0 0 false 0 (fun _ => 0) false).

(** The objects are numbered by allocation; [thread_info_list] holds the
    numbers of the listed objects, head first; [dxg_memory_threadinfo] is
    [dxg_memory[DXGMEM_THREADINFO]]; [asserts] counts the failed
    [DXGKRNL_ASSERT]s. *)
Record lstate := mk_lstate {
  infos : list dxgthreadinfo;
  thread_info_list : list nat;
  dxg_memory_threadinfo : Z;
  asserts : nat
}.

Definition set_info (p : nat) (f : dxgthreadinfo -> dxgthreadinfo) (s : lstate) : lstate :=
  {| infos := <[p := f (infos s !!! p)]> (infos s);
     thread_info_list := thread_info_list s;
     dxg_memory_threadinfo := dxg_memory_threadinfo s;
     asserts := asserts s |}.

Definition with_refcount (r : Z) (t : dxgthreadinfo) : dxgthreadinfo :=
  {| thread := thread t; refcount := r; lock_held := lock_held t;
     current_lock_index := current_lock_index t; lock_info := lock_info t;
     freed := freed t |}.

Definition with_index (n : Z) (t : dxgthreadinfo) : dxgthreadinfo :=
  {| thread := thread t; refcount := refcount t; lock_held := lock_held t;
     current_lock_index := n; lock_info := lock_info t; freed := freed t |}.

Definition with_lock_info (li : mem) (t : dxgthreadinfo) : dxgthreadinfo :=
  {| thread := thread t; refcount := refcount t; lock_held := lock_held t;
     current_lock_index := current_lock_index t; lock_info := li;
     freed := freed t |}.

Definition with_freed (t : dxgthreadinfo) : dxgthreadinfo :=
  {| thread := thread t; refcount := refcount t; lock_held := lock_held t;
     current_lock_index := current_lock_index t; lock_info := lock_info t;
     freed := true |}.

(** [DXGKRNL_ASSERT(b)] *)
Definition dxgkrnl_assert (b : bool) (s : lstate) : lstate :=
  if b then s
  else {| infos := infos s; thread_info_list := thread_info_list s;
          dxg_memory_threadinfo := dxg_memory_threadinfo s;
          asserts := S (asserts s) |}.

Definition set_memory (v : Z) (s : lstate) : lstate :=
  {| infos := infos s; thread_info_list := thread_info_list s;
     dxg_memory_threadinfo := v; asserts := asserts s |}.

Definition set_list (l : list nat) (s : lstate) : lstate :=
  {| infos := infos s; thread_info_list := l;
     dxg_memory_threadinfo := dxg_memory_threadinfo s; asserts := asserts s |}.

(** [dxgmem_addalloc(NULL, DXGMEM_THREADINFO)] *)
Definition dxgmem_addalloc (s : lstate) : lstate :=
  set_memory (dxg_memory_threadinfo s + 1) s.

(** [dxgmem_remalloc(NULL, DXGMEM_THREADINFO)]: a zero counter is
    reported and left as it is. *)
Definition dxgmem_remalloc (s : lstate) : lstate :=
  if dxg_memory_threadinfo s =? 0 then s
  else set_memory (dxg_memory_threadinfo s - 1) s.

(** The [list_for_each_entry] lookup of the current thread. *)
Fixpoint find_thread (is : list dxgthreadinfo) (l : list nat) (cur : nat) : option nat :=
  match l with
  | [] => None
  | p :: l' => if Nat.eqb (thread (is !!! p)) cur then Some p else find_thread is l' cur
  end.

(** [dxglockorder_get_thread] for the thread [cur]; [kzalloc_ok] is the
    result of the allocation of a new object. [None] is NULL. *)
Definition dxglockorder_get_thread (cur : nat) (kzalloc_ok : bool) (s : lstate)
    : option nat * lstate :=
  match find_thread (infos s) (thread_info_list s) cur with
  | Some p => (Some p, set_info p (fun t => with_refcount (refcount t + 1) t) s)
  | None =>
      if kzalloc_ok then
        let p := length (infos s) in
        let s1 := dxgmem_addalloc
          {| infos := infos s ++ [mk_info cur 0 false 0 (fun _ => 0) false];
             thread_info_list := p :: thread_info_list s;
             dxg_memory_threadinfo := dxg_memory_threadinfo s;
             asserts := asserts s |} in
        (Some p, set_info p (fun t => with_refcount (refcount t + 1) t) s1)
      else (None, s)
  end.

(** [dxglockorder_put_thread(info)] for a non-NULL [info]. *)
Definition dxglockorder_put_thread (p : nat) (s : lstate) : lstate :=
  let t := infos s !!! p in
  if refcount t <=? 0 then dxgkrnl_assert false s
  else
    let s1 := set_info p (with_refcount (refcount t - 1)) s in
    if refcount t - 1 =? 0 then
      let s2 := dxgkrnl_assert (current_lock_index t =? 0) s1 in
      let s3 := if lock_held t then s2
                else set_list (Channel.list_del p (thread_info_list s2)) s2 in
      dxgmem_remalloc (set_info p with_freed s3)
    else s1.

(** [dxglockorder_acquire(order)]; [None] is the dereference of a NULL
    thread info. *)
Definition dxglockorder_acquire (cur : nat) (kzalloc_ok : bool) (order : Z)
    (s : lstate) : option lstate :=
  match dxglockorder_get_thread cur kzalloc_ok s with
  | (None, _) => None
  | (Some p, s1) =>
      let t := infos s1 !!! p in
      let index := current_lock_index t in
      let s2 := dxgkrnl_assert (negb (index =? DXGK_MAX_LOCK_DEPTH)) s1 in
      let s3 := if negb (index =? 0)
                then dxgkrnl_assert (negb (lock_info t (index - 1) <=? order)) s2
                else s2 in
      let s4 := set_info p (fun t =>
                  with_index (current_lock_index t + 1)
                    (with_lock_info (upd (lock_info t) index order) t)) s3 in
      Some (dxglockorder_put_thread p s4)
  end.

(** [memmove(&li[dst], &li[src], n * sizeof(li[0]))] *)
Definition memmove (m : mem) (dst src n : Z) : mem :=
  fun j => if (dst <=? j) && (j <? dst + n) then m (src + (j - dst)) else m j.

(** [for (i = index; i >= 0; i--) if (li[i].lock_order == order) break;] *)
Fixpoint find_order (fuel : nat) (li : mem) (order i : Z) : Z :=
  match fuel with
  | O => i
  | S f => if i <? 0 then i
           else if li i =? order then i
           else find_order f li order (i - 1)
  end.

(** [dxglockorder_release(order)] *)
Definition dxglockorder_release (cur : nat) (kzalloc_ok : bool) (order : Z)
    (s : lstate) : option lstate :=
  match dxglockorder_get_thread cur kzalloc_ok s with
  | (None, _) => None
  | (Some p, s1) =>
      let t := infos s1 !!! p in
      let index := current_lock_index t - 1 in
      let s2 := set_info p (with_index index) s1 in
      let s3 := dxgkrnl_assert (negb (index <? 0)) s2 in
      let li := lock_info t in
      let i := find_order (Z.to_nat (index + 1)) li order index in
      let li' := if 0 <=? i then memmove li i index (index - i) else li in
      let s4 := dxgkrnl_assert (negb (i <? 0)) s3 in
      let s5 := set_info p (with_lock_info (upd li' index 0)) s4 in
      Some (dxglockorder_put_thread p s5)
  end.

End LockOrder.

(** The lock orders recorded for the object [p]: [lock_info[0 ..
    current_lock_index)]. *)
Definition held (s : lstate) (p : nat) : list Z :=
  let t := infos s !!! p in
  map (fun j => lock_info t (Z.of_nat j)) (seq 0 (Z.to_nat (current_lock_index t))).

(** The object [p] records a well-formed stack: orders non-negative and
    strictly decreasing from the bottom, zero entries above the top. *)
Definition well_formed (s : lstate) (p : nat) : Prop :=
  let t := infos s !!! p in
  0 <= current_lock_index t /\
  (forall j, 0 <= j -> j + 1 < current_lock_index t ->
     lock_info t (j + 1) < lock_info t j) /\
  (forall j, 0 <= j < current_lock_index t -> 0 <= lock_info t j) /\
  (forall j, current_lock_index t <= j -> lock_info t j = 0).

(** [well_formed] within the array [lock_info[M]], [M] being
    [DXGK_MAX_LOCK_DEPTH]: the index is at most [M] and the entries above
    the top are zero only inside the array. *)
Definition well_formed_in (M : Z) (s : lstate) (p : nat) : Prop :=
  let t := infos s !!! p in
  0 <= current_lock_index t <= M /\
  (forall j, 0 <= j -> j + 1 < current_lock_index t ->
     lock_info t (j + 1) < lock_info t j) /\
  (forall j, 0 <= j < current_lock_index t -> 0 <= lock_info t j) /\
  (forall j, current_lock_index t <= j < M -> lock_info t j = 0).

(** The count of failed assertions after an assertion on [b]. *)
Definition bump (b : bool) (n : nat) : nat := if b then n else S n.

(** Two thread-info objects with the same fields and the same recorded
    lock orders. *)
Definition same_info (a b : dxgthreadinfo) : Prop :=
  thread a = thread b /\ refcount a = refcount b /\ lock_held a = lock_held b /\
  current_lock_index a = current_lock_index b /\
  (forall j, lock_info a j = lock_info b j) /\ freed a = freed b.

(** Example state: the thread [7] with the object [0] holding the orders
    30, 20, 10. *)
Definition ex_lock_info : mem :=
  fun j => if j =? 0 then 30 else if j =? 1 then 20 else if j =? 2 then 10 else 0.

Definition ex_lstate : lstate :=
  {| infos := [mk_info 7 1 false 3 ex_lock_info false];
     thread_info_list := [0%nat]; dxg_memory_threadinfo := 1; asserts := 0 |}.


End LockOrder.

(* ------------------------------------------------------------------ *)
(** ** The private-data copy of a batch allocation create (dxgvmbus.c) *)

Module CopyPrivateData.
Import Errno CreateAllocSize.

Section Copy.
(** [sizeof] of [struct dxgkvmb_command_createallocation], of
    [struct dxgkvmb_command_createallocation_allocinfo] and of
    [struct d3dkmt_createstandardallocation]. *)
Variables (sz_createallocation sz_createallocation_allocinfo
           sz_createstandardallocation : Z).
(** [copy_from_user] into the command at byte offset [dest] of [n]
    bytes: the number of bytes it could not copy. *)
Variable copy_from_user : Z -> Z -> Z.

(** The outcome of [copy_private_data]: its return value, the value it
    leaves in [args->priv_drv_data_size], the final [private_data_dest]
    (as an offset from [command]), the byte ranges [(offset, length)]
    of the command it copies into, in order, and the header bit
    [command->flags.existing_sysmem] it leaves. *)
Record copy_result := {
  cp_ret : Z;
  cp_priv_drv_data_size : Z;
  cp_dest : Z;
  cp_writes : list (Z * Z);
  cp_existing_sysmem : bool
}.

(** The [for] loop over [args->alloc_count] entries, [l] being the
    [priv_drv_data_size] of the entries from [i] on: each iteration fills
    the [i]-th [alloc_info] entry and copies the entry's private data. *)
Fixpoint copy_alloc_loop (l : list Z) (i dest : Z) (writes : list (Z * Z))
    : Z * Z * list (Z * Z) :=
  match l with
  | [] => (0, dest, writes)
  | s :: l' =>
      let writes := writes ++ [(sz_createallocation + i * sz_createallocation_allocinfo,
                                sz_createallocation_allocinfo)] in
      if negb (s =? 0) then
        let writes := writes ++ [(dest, s)] in
        if negb (copy_from_user dest s =? 0) then (- EINVAL, dest, writes)
        else copy_alloc_loop l' (i + 1) (dest + s) writes
      else copy_alloc_loop l' (i + 1) dest writes
  end.

(** [copy_private_data(args, command, input_alloc_info, standard_alloc)];
    [standard_allocation] is [args->flags.standard_allocation],
    [existing_sysmem] is [command->flags.existing_sysmem] on entry (the
    caller copied [args->flags] into [command->flags]) and [sysmem0] is
    [input_alloc_info[0].sysmem != NULL]. *)
Definition copy_private_data (a : args) (standard_allocation existing_sysmem sysmem0 : bool)
    : copy_result :=
  let dest := sz_createallocation + alloc_count a * sz_createallocation_allocinfo in
  let '(ret, dest, writes) :=
    if negb (private_runtime_data_size a =? 0) then
      let writes := [(dest, private_runtime_data_size a)] in
      if negb (copy_from_user dest (private_runtime_data_size a) =? 0)
      then (- EINVAL, dest, writes)
      else (0, dest + private_runtime_data_size a, writes)
    else (0, dest, []) in
  if negb (ret =? 0) then
    {| cp_ret := ret; cp_priv_drv_data_size := priv_drv_data_size a;
       cp_dest := dest; cp_writes := writes; cp_existing_sysmem := existing_sysmem |}
  else
  let '(ret, priv, dest, writes) :=
    if standard_allocation then
      (0, sz_createstandardallocation, dest + sz_createstandardallocation,
       writes ++ [(dest, sz_createstandardallocation)])
    else if negb (priv_drv_data_size a =? 0) then
      let writes := writes ++ [(dest, priv_drv_data_size a)] in
      if negb (copy_from_user dest (priv_drv_data_size a) =? 0)
      then (- EINVAL, priv_drv_data_size a, dest, writes)
      else (0, priv_drv_data_size a, dest + priv_drv_data_size a, writes)
    else (0, priv_drv_data_size a, dest, writes) in
  if negb (ret =? 0) then
    {| cp_ret := ret; cp_priv_drv_data_size := priv; cp_dest := dest;
       cp_writes := writes; cp_existing_sysmem := existing_sysmem |}
  else
    let existing_sysmem := if sysmem0 then true else existing_sysmem in
    let '(ret, dest, writes) := copy_alloc_loop (alloc_info a) 0 dest writes in
    {| cp_ret := ret; cp_priv_drv_data_size := priv; cp_dest := dest;
       cp_writes := writes; cp_existing_sysmem := existing_sysmem |}.

End Copy.

(** Example arguments: 1000 bytes of runtime data, three allocations with
    10, 0 and 20 bytes of private data, and 1000 or 0 bytes of global
    private driver data. *)
Definition ex_args : args :=
  {| private_runtime_data_size := 1000; priv_drv_data_size := 1000;
     alloc_info := [10; 0; 20] |}.

Definition ex_args_nopriv : args :=
  {| private_runtime_data_size := 1000; priv_drv_data_size := 0;
     alloc_info := [10; 0; 20] |}.

End CopyPrivateData.

(* ------------------------------------------------------------------ *)
(** ** Message buffers and three senders (dxgvmbus.c): [init_message],
    [init_message_res], [free_message], [dxgvmb_send_create_context],
    [dxgvmb_send_destroy_context] and [dxgvmb_send_get_stdalloc_data].
    The transport and the host are oracles: the result of each send and
    the values the host writes into the result buffer. *)

Module Messages.
Import Errno Status.

(** [VMBUSMESSAGEONSTACK] *)
Definition VMBUSMESSAGEONSTACK := 64.

(** Where [msg->hdr] points: NULL, the [msg_on_stack] buffer of the
    message, or the buffer returned by the [k]-th call of [vzalloc]. *)
Inductive buffer := BufNull | BufStack | BufHeap (k : nat).

(** [&dxgglobal->channel] or [&adapter->channel]. *)
Inductive chan := GlobalChannel | AdapterChannel.

(** The commands sent to the host by the functions below. *)
Inductive command :=
  | CmdCreateContext
  | CmdDestroyContext (h : Z)
  | CmdGetStdAllocData.

(** The destinations of the [memcpy]s of [dxgvmb_send_get_stdalloc_data]. *)
Inductive copy_dst := ToPrivAllocData | ToPrivResData.

(** Observable actions: a successful [vzalloc(n)] returning the buffer
    [k], [vfree] of the buffer [k], a synchronous send of a command of
    [msg_size] bytes with a result buffer of [result_size] bytes, and a
    [memcpy] of [n] bytes from the offset [src] of the result. *)
Inductive event :=
  | EvVzalloc (k : nat) (n : Z)
  | EvVfree (k : nat)
  | EvSend (c : command) (msg_size result_size : Z)
  | EvMemcpy (d : copy_dst) (src n : Z).

(** The number of [vzalloc] calls made so far and the trace. *)
Record mstate := mk_mstate { vzalloc_calls : nat; trace : list event }.

(** [struct dxgvmbusmsg]; [msg_offset] is [msg->msg - msg->hdr]. *)
Record dxgvmbusmsg := {
  hdr : buffer;
  msg_offset : Z;
  size : Z;
  channel : chan
}.

(** [struct dxgvmbusmsgres]; [res_offset] is [msg->res - msg->hdr]. *)
Record dxgvmbusmsgres := {
  rhdr : buffer;
  rmsg_offset : Z;
  rsize : Z;
  res_size : Z;
  res_offset : Z;
  rchannel : chan
}.

(** [struct dxgvmbusmsg msg = {.hdr = NULL};] *)
Definition msg_null : dxgvmbusmsg :=
  {| hdr := BufNull; msg_offset := 0; size := 0; channel := GlobalChannel |}.

(** [struct dxgvmbusmsgres msg = {.hdr = NULL};] *)
Definition msgres_null : dxgvmbusmsgres :=
  {| rhdr := BufNull; rmsg_offset := 0; rsize := 0; res_size := 0; res_offset := 0;
     rchannel := GlobalChannel |}.

Definition emit (e : event) (s : mstate) : mstate :=
  {| vzalloc_calls := vzalloc_calls s; trace := trace s ++ [e] |}.

(** [sizeof(struct ntstatus)]: the 32-bit status returned by the host. *)
Definition sizeof_ntstatus : Z := 4.

Section Messages.

(** [sizeof(struct dxgvmb_ext_header)]. *)
Variable sz_ext_header : Z.
(** [dxgglobal->vmbus_ver >= DXGK_VMBUS_INTERFACE_VERSION] and
    [dxgglobal->async_msg_enabled]. *)
Variables (use_ext_header async_msg_enabled : bool).
(** The outcome of the [k]-th call of [vzalloc]. *)
Variable vzalloc_ok : nat -> bool.
(** [sizeof] of [struct dxgkvmb_command_createcontextvirtual],
    [struct dxgkvmb_command_destroycontext],
    [struct dxgkvmb_command_getstandardallocprivdata] and
    [struct dxgkvmb_command_getstandardallocprivdata_return]. *)
Variables (sz_createcontextvirtual sz_destroycontext sz_getstdalloc
           sz_getstdalloc_return : Z).

(** [vzalloc(n)]: the number of the buffer, or [None] for NULL. *)
Definition vzalloc (n : Z) (s : mstate) : option nat * mstate :=
  let k := vzalloc_calls s in
  let s1 := {| vzalloc_calls := S k; trace := trace s |} in
  if vzalloc_ok k then (Some k, emit (EvVzalloc k n) s1) else (None, s1).

(** [init_message(msg, adapter, process, size)]; [adapter] is
    [adapter != NULL]. *)
Definition init_message (m : dxgvmbusmsg) (adapter : bool) (sz : Z) (s : mstate)
    : Z * dxgvmbusmsg * mstate :=
  let sz := if use_ext_header then (sz + sz_ext_header) mod 2 ^ 32 else sz in
  let '(h, s) :=
    if sz <=? VMBUSMESSAGEONSTACK then (Some BufStack, s)
    else let '(r, s) := vzalloc sz s in (option_map BufHeap r, s) in
  match h with
  | None =>
      (- ENOMEM, {| hdr := BufNull; msg_offset := msg_offset m; size := sz;
                    channel := channel m |}, s)
  | Some h =>
      (0, {| hdr := h; msg_offset := if use_ext_header then sz_ext_header else 0;
             size := sz;
             channel := if adapter && negb async_msg_enabled then AdapterChannel
                        else GlobalChannel |}, s)
  end.

(** [init_message_res(msg, adapter, process, size, result_size)]: [~7]
    is the [int] -8, converted to [unsigned int]. *)
Definition init_message_res (m : dxgvmbusmsgres) (sz result_size : Z) (s : mstate)
    : Z * dxgvmbusmsgres * mstate :=
  let sz := if use_ext_header then (sz + sz_ext_header) mod 2 ^ 32 else sz in
  let rs := (res_size m + Z.land ((result_size + 7) mod 2 ^ 32) (2 ^ 32 - 8)) mod 2 ^ 32 in
  let total := (sz + rs) mod 2 ^ 32 in
  match vzalloc total s with
  | (None, s) =>
      (- ENOMEM, {| rhdr := BufNull; rmsg_offset := rmsg_offset m; rsize := sz;
                    res_size := rs; res_offset := res_offset m;
                    rchannel := rchannel m |}, s)
  | (Some k, s) =>
      (0, {| rhdr := BufHeap k; rmsg_offset := if use_ext_header then sz_ext_header else 0;
             rsize := sz; res_size := rs; res_offset := sz;
             rchannel := if async_msg_enabled then GlobalChannel else AdapterChannel |}, s)
  end.

(** [free_message(msg, process)]. *)
Definition free_message (m : dxgvmbusmsg) (s : mstate) : mstate :=
  match hdr m with
  | BufHeap k => emit (EvVfree k) s
  | _ => s
  end.

(** [free_message((struct dxgvmbusmsg * )&msg, process)] on a
    [struct dxgvmbusmsgres]: its [hdr] is never the [msg_on_stack] of a
    [struct dxgvmbusmsg], so any non-NULL buffer is freed. *)
Definition free_message_res (m : dxgvmbusmsgres) (s : mstate) : mstate :=
  match rhdr m with
  | BufHeap k => emit (EvVfree k) s
  | _ => s
  end.

(** [dxgvmb_send_destroy_context(adapter, process, h)]; the result of
    [dxgvmb_send_sync_msg_ntstatus] is [send_ret]; its result buffer is a
    [struct ntstatus] ([sizeof(status)], a 32-bit status). *)
Definition dxgvmb_send_destroy_context (send_ret h : Z) (s : mstate) : Z * mstate :=
  let '(ret, m, s) := init_message msg_null true sz_destroycontext s in
  if negb (ret =? 0) then (ret, free_message m s)
  else
    let s := emit (EvSend (CmdDestroyContext h) (size m) sizeof_ntstatus) s in
    (send_ret, free_message m s).

(** [dxgvmb_send_create_context(adapter, process, args)], returning
    [context.v]. The user copies return [copy_from_user_ret] and
    [copy_to_user_ret]; the send returns [send_ret] and, when it
    succeeds, the host's [command->context] is [host_context]; the
    compensating destroy's send returns [destroy_ret]. *)
Definition dxgvmb_send_create_context (priv_drv_data_size : Z)
    (copy_from_user_ret send_ret host_context copy_to_user_ret destroy_ret : Z)
    (s : mstate) : Z * mstate :=
  if DXG_MAX_VM_BUS_PACKET_SIZE <? priv_drv_data_size then (0, free_message msg_null s)
  else
    let cmd_size := (sz_createcontextvirtual + priv_drv_data_size - 1) mod 2 ^ 32 in
    let '(ret, m, s) := init_message msg_null true cmd_size s in
    if negb (ret =? 0) then (0, free_message m s)
    else if negb (priv_drv_data_size =? 0) && negb (copy_from_user_ret =? 0)
    then (0, free_message m s)
    else
      let s := emit (EvSend CmdCreateContext (size m) cmd_size) s in
      if send_ret <? 0 then (0, free_message m s)
      else
        let context := host_context in
        if negb (priv_drv_data_size =? 0) && negb (copy_to_user_ret =? 0) then
          let '(_, s) := dxgvmb_send_destroy_context destroy_ret context s in
          (0, free_message m s)
        else (context, free_message m s).

(** [dxgvmb_send_get_stdalloc_data(device, alloctype, alloc_data,
    physical_adapter_index, alloc_priv_driver_size, priv_alloc_data,
    res_priv_data_size, priv_res_data)]; [gdisurface] is
    [alloctype == _D3DKMDT_STANDARDALLOCATION_GDISURFACE],
    [priv_alloc_data] and [priv_res_data] are the non-NULL tests of the
    pointers. The send returns [send_ret]; the host's result holds
    [status], [priv_driver_data_size] and [priv_driver_resource_size].
    Returns the result and the final [*alloc_priv_driver_size] and
    [*res_priv_data_size]. *)
Definition dxgvmb_send_get_stdalloc_data (gdisurface priv_alloc_data priv_res_data : bool)
    (alloc_priv_driver_size res_priv_data_size : Z)
    (send_ret status host_priv_size host_res_size : Z) (s : mstate)
    : Z * Z * Z * mstate :=
  let result_size := sz_getstdalloc_return in
  let result_size :=
    if priv_alloc_data then (result_size + alloc_priv_driver_size) mod 2 ^ 32
    else result_size in
  let result_size :=
    if priv_res_data then (result_size + res_priv_data_size) mod 2 ^ 32
    else result_size in
  let '(ret, m, s) := init_message_res msgres_null sz_getstdalloc result_size s in
  let cleanup ret a r s := (ret, a, r, free_message_res m s) in
  if negb (ret =? 0) then cleanup ret alloc_priv_driver_size res_priv_data_size s
  else if negb gdisurface then cleanup ret alloc_priv_driver_size res_priv_data_size s
  else
    let s := emit (EvSend CmdGetStdAllocData (rsize m) (res_size m)) s in
    if send_ret <? 0 then cleanup send_ret alloc_priv_driver_size res_priv_data_size s
    else
      let ret := ntstatus2int status in
      if ret <? 0 then cleanup ret alloc_priv_driver_size res_priv_data_size s
      else if negb (alloc_priv_driver_size =? 0)
              && negb (host_priv_size =? alloc_priv_driver_size)
      then cleanup ret alloc_priv_driver_size res_priv_data_size s
      else if negb (res_priv_data_size =? 0)
              && negb (host_res_size =? res_priv_data_size)
      then cleanup ret alloc_priv_driver_size res_priv_data_size s
      else
        let s := if priv_alloc_data
                 then emit (EvMemcpy ToPrivAllocData sz_getstdalloc_return host_priv_size) s
                 else s in
        let s := if priv_res_data
                 then emit (EvMemcpy ToPrivResData (sz_getstdalloc_return + host_priv_size)
                              host_res_size) s
                 else s in
        cleanup ret host_priv_size host_res_size s.

End Messages.

(** The buffers allocated and freed, and the commands sent, in a trace. *)
Fixpoint allocated (tr : list event) : list nat :=
  match tr with
  | [] => []
  | EvVzalloc k _ :: tr' => k :: allocated tr'
  | _ :: tr' => allocated tr'
  end.

Fixpoint freed (tr : list event) : list nat :=
  match tr with
  | [] => []
  | EvVfree k :: tr' => k :: freed tr'
  | _ :: tr' => freed tr'
  end.

Fixpoint sent (tr : list event) : list command :=
  match tr with
  | [] => []
  | EvSend c _ _ :: tr' => c :: sent tr'
  | _ :: tr' => sent tr'
  end.

Fixpoint copies (tr : list event) : list (copy_dst * Z * Z) :=
  match tr with
  | [] => []
  | EvMemcpy d src n :: tr' => (d, src, n) :: copies tr'
  | _ :: tr' => copies tr'
  end.

(** An example state: no [vzalloc] call yet, an empty trace; and an
    allocator that always succeeds. *)
Definition ex_mstate : mstate := mk_mstate 0 [].

Definition vzalloc_always : nat -> bool := fun _ => true.

End Messages.


(* ================================================================== *)
(** * Properties *)

(* ------------------------------------------------------------------ *)
(** ** [wcsncpy] *)

Module WStrFacts.
Import WStr.

Ltac zcase :=
  simpl;
  repeat match goal with
  | |- context [?x =? ?y] => destruct (Z.eqb_spec x y)
  | |- context [?x <=? ?y] => destruct (Z.leb_spec x y)
  | |- context [?x <? ?y] => destruct (Z.ltb_spec x y)
  end; simpl; try lia; try congruence.

(** The loop stops right after the first null of [src] in [[i, n)]. *)
Lemma copy_loop_null (fuel : nat) (dest src : mem) (i n k : Z) :
  i <= k < n -> src k = 0 -> (forall j, i <= j < k -> src j <> 0) ->
  n - i <= Z.of_nat fuel ->
  (copy_loop fuel dest src i n).1 = k + 1 /\
  forall j, (copy_loop fuel dest src i n).2 j =
            if (i <=? j) && (j <=? k) then src j else dest j.
Proof.
  revert dest i. induction fuel as [|fuel IH]; intros dest i Hk Hz Hnz Hf.
  - lia.
  - simpl. destruct (Z.ltb_spec i n); [|lia].
    destruct (Z.eqb_spec (src i) 0) as [E|E].
    + assert (i = k) by (destruct (Z.eq_dec i k); [auto|];
                          exfalso; apply (Hnz i); [lia|auto]).
      subst k. split; [reflexivity|]. intros j. unfold upd. zcase.
    + assert (i < k) by (destruct (Z.eq_dec i k); [subst; congruence|lia]).
      destruct (IH (upd dest i (src i)) (i + 1)) as [H1 H2]; try lia.
      * intros j Hj. apply Hnz. lia.
      * split; [exact H1|]. intros j. rewrite H2. unfold upd. zcase.
Qed.

(** Without a null in [[i, n)] the loop copies all of it and ends at [n]. *)
Lemma copy_loop_nonull (fuel : nat) (dest src : mem) (i n : Z) :
  i <= n -> (forall j, i <= j < n -> src j <> 0) ->
  n - i <= Z.of_nat fuel ->
  (copy_loop fuel dest src i n).1 = n /\
  forall j, (copy_loop fuel dest src i n).2 j =
            if (i <=? j) && (j <? n) then src j else dest j.
Proof.
  revert dest i. induction fuel as [|fuel IH]; intros dest i Hi Hnz Hf.
  - simpl. assert (i = n) by lia. subst. split; [reflexivity|].
    intros j. zcase.
  - simpl. destruct (Z.ltb_spec i n).
    + destruct (Z.eqb_spec (src i) 0) as [E|E].
      { exfalso. apply (Hnz i); [lia|exact E]. }
      destruct (IH (upd dest i (src i)) (i + 1)) as [H1 H2]; try lia.
      * intros j Hj. apply Hnz. lia.
      * split; [exact H1|]. intros j. rewrite H2. unfold upd. zcase.
    + assert (i = n) by lia. subst. split; [reflexivity|]. intros j. zcase.
Qed.

(** C10: for a count [1 <= n <= INT_MAX] ([i] is an [int]), [wcsncpy]
    leaves [dest] null-terminated within its first [n] elements. If the
    first null of [src] is at [k < n], [dest] equals [src] on [[0, k]];
    if [src] has no null among its first [n] elements, [dest] equals
    [src] on [[0, n-1)] and holds a null at [n-1]. Every other element of
    [dest] is unchanged. *)
Theorem wcsncpy_spec (dest src : mem) (n : Z) (Hn : 1 <= n <= 2 ^ 31 - 1) :
  (forall k, 0 <= k < n -> src k = 0 -> (forall j, 0 <= j < k -> src j <> 0) ->
   forall j, wcsncpy dest src n j =
             if (0 <=? j) && (j <=? k) then src j else dest j) /\
  ((forall j, 0 <= j < n -> src j <> 0) ->
   forall j, wcsncpy dest src n j =
             if (0 <=? j) && (j <? n - 1) then src j
             else if j =? n - 1 then 0 else dest j).
Proof.
  unfold wcsncpy.
  destruct (copy_loop (Z.to_nat n) dest src 0 n) as [i d] eqn:E.
  split.
  - intros k Hk Hz Hnz j.
    destruct (copy_loop_null (Z.to_nat n) dest src 0 n k) as [H1 H2];
      try lia; auto.
    rewrite E in H1, H2. simpl in H1, H2. subst i.
    unfold upd. rewrite H2. zcase. replace j with k by lia. congruence.
  - intros Hnz j.
    destruct (copy_loop_nonull (Z.to_nat n) dest src 0 n) as [H1 H2];
      try lia; auto.
    rewrite E in H1, H2. simpl in H1, H2. subst i.
    unfold upd. rewrite H2. zcase.
Qed.

Lemma wcsncpy_spec_witness :
  (1 <= 4 <= 2 ^ 31 - 1) /\
  wcsncpy (fun _ => 7) (fun j => if j =? 2 then 0 else 65) 4 1 = 65 /\
  wcsncpy (fun _ => 7) (fun _ => 65) 4 3 = 0.
Proof.
  assert (Hn : 1 <= 4 <= 2 ^ 31 - 1) by lia.
  destruct (wcsncpy_spec (fun _ => 7) (fun j => if j =? 2 then 0 else 65) 4 Hn)
    as [HA _].
  destruct (wcsncpy_spec (fun _ => 7) (fun _ => 65) 4 Hn) as [_ HB].
  split; [exact Hn|split].
  - rewrite (HA 2); [reflexivity|lia|reflexivity|].
    intros j Hj. destruct (Z.eqb_spec j 2); [lia|discriminate].
  - rewrite HB; [reflexivity|]. intros j _. discriminate.
Defined.

End WStrFacts.

(* ------------------------------------------------------------------ *)
(** ** [dxgvmb_send_async_msg] *)

Module AsyncFacts.
Import Async.

(** Attempts [t .. t+m-1] all report ring full: the loop gives up with the
    transient error after sleeping once per attempt. *)
Lemma retry_loop_all_full (m : nat) (sp : nat -> Z) (t : nat) (tr : list event) :
  (1 <= m)%nat -> (t + m = 5000)%nat ->
  (forall j, (t <= j < t + m)%nat -> sp j = - EAGAIN) ->
  retry_loop m sp t tr =
  (- EAGAIN, tr ++ flat_map (fun k => [EvSend k; EvSleep 1000 2000]) (seq t m)).
Proof.
  revert t tr. induction m as [|m IH]; intros t tr Hm Ht Hsp; [lia|].
  simpl. rewrite (Hsp t) by lia. rewrite Z.eqb_refl.
  destruct (Nat.ltb_spec (S t) 5000).
  - rewrite IH by (try lia; intros j Hj; apply Hsp; lia).
    rewrite <- !app_assoc. reflexivity.
  - assert (m = 0%nat) by lia. subst m. simpl.
    rewrite <- !app_assoc. reflexivity.
Qed.

(** The first attempt [k] whose result is not ring full ends the loop
    with that result, right after the attempt. *)
Lemma retry_loop_stops (m : nat) (sp : nat -> Z) (t : nat) (tr : list event) (k : nat) :
  (t + m = 5000)%nat -> (t <= k < t + m)%nat ->
  (forall j, (t <= j < k)%nat -> sp j = - EAGAIN) -> sp k <> - EAGAIN ->
  retry_loop m sp t tr =
  (sp k, tr ++ flat_map (fun j => [EvSend j; EvSleep 1000 2000]) (seq t (k - t))
            ++ [EvSend k]).
Proof.
  revert t tr. induction m as [|m IH]; intros t tr Ht Hk Hsp Hne; [lia|].
  simpl. destruct (Nat.eq_dec t k) as [->|Htk].
  - destruct (Z.eqb_spec (sp k) (- EAGAIN)); [contradiction|].
    rewrite Nat.sub_diag. reflexivity.
  - rewrite (Hsp t) by lia. rewrite Z.eqb_refl.
    destruct (Nat.ltb_spec (S t) 5000); [|lia].
    rewrite (IH (S t)) by (try lia; intros j Hj; apply Hsp; lia).
    replace (k - t)%nat with (S (k - S t)) by lia. simpl.
    rewrite <- !app_assoc. reflexivity.
Qed.

(** C8: for a command that fits in a packet, sent on the global channel:
    if every attempt reports ring full ([-EAGAIN]), the send makes exactly
    5000 attempts, each followed by a [usleep_range(1000, 2000)], and then
    returns [-EAGAIN]; if attempt [k < 5000] is the first whose result is
    not [-EAGAIN], the send returns that result right after attempt [k],
    without sleeping or retrying again. *)
Theorem send_async_retry (cmd_size : Z) (sp : nat -> Z)
    (Hsz : cmd_size <= DXG_MAX_VM_BUS_PACKET_SIZE) :
  ((forall j, (j < 5000)%nat -> sp j = - EAGAIN) ->
   dxgvmb_send_async_msg false cmd_size sp =
   (- EAGAIN, flat_map (fun j => [EvSend j; EvSleep 1000 2000]) (seq 0 5000))) /\
  (forall k, (k < 5000)%nat ->
   (forall j, (j < k)%nat -> sp j = - EAGAIN) -> sp k <> - EAGAIN ->
   dxgvmb_send_async_msg false cmd_size sp =
   (sp k, flat_map (fun j => [EvSend j; EvSleep 1000 2000]) (seq 0 k) ++ [EvSend k])).
Proof.
  unfold dxgvmb_send_async_msg.
  destruct (Z.ltb_spec DXG_MAX_VM_BUS_PACKET_SIZE cmd_size); [lia|].
  split.
  - intros Hall. rewrite retry_loop_all_full by (try lia; intros j Hj; apply Hall; lia).
    reflexivity.
  - intros k Hk Hbefore Hk'.
    rewrite (retry_loop_stops 5000 sp 0 [] k) by (try lia; auto; intros j Hj; apply Hbefore; lia).
    rewrite Nat.sub_0_r. reflexivity.
Qed.

Lemma send_async_retry_witness :
  64 <= DXG_MAX_VM_BUS_PACKET_SIZE /\
  (dxgvmb_send_async_msg false 64 (fun _ => - EAGAIN)).1 = - EAGAIN /\
  dxgvmb_send_async_msg false 64 (fun j => if Nat.eqb j 2 then 0 else - EAGAIN) =
  (0, [EvSend 0; EvSleep 1000 2000; EvSend 1; EvSleep 1000 2000; EvSend 2]).
Proof.
  assert (Hsz : 64 <= DXG_MAX_VM_BUS_PACKET_SIZE) by (unfold DXG_MAX_VM_BUS_PACKET_SIZE; lia).
  destruct (send_async_retry 64 (fun _ => - EAGAIN) Hsz) as [HA _].
  destruct (send_async_retry 64 (fun j => if Nat.eqb j 2 then 0 else - EAGAIN) Hsz)
    as [_ HB].
  split; [exact Hsz|split].
  - rewrite HA; [reflexivity|]. intros; reflexivity.
  - rewrite (HB 2%nat); [reflexivity|lia| |discriminate].
    intros j Hj. destruct (Nat.eqb_spec j 2); [lia|reflexivity].
Defined.

End AsyncFacts.

(* ------------------------------------------------------------------ *)
(** ** [ntstatus2int] *)

Module StatusFacts.
Import Status.

(** C7: [STATUS_TIMEOUT] (0x00000102) is not negative, so [NT_SUCCESS]
    accepts it and [ntstatus2int] returns it unchanged (258): the
    [case STATUS_TIMEOUT: return -EAGAIN] label is never reached and a host
    timeout is not translated to WouldBlock ([-EAGAIN]). *)
Theorem ntstatus2int_timeout_not_wouldblock :
  NT_SUCCESS STATUS_TIMEOUT = true /\
  ntstatus2int STATUS_TIMEOUT = 258 /\
  ntstatus2int STATUS_TIMEOUT <> - errno_of_kind WouldBlock.
Proof.
  vm_compute. split; [reflexivity|split; [reflexivity|discriminate]].
Qed.

(** The rest of the table holds: non-negative statuses are returned
    unchanged, every failure status of the table other than
    [STATUS_TIMEOUT] is translated to the errno of its error kind, and
    every other negative status to [-EINVAL]. *)
Theorem ntstatus2int_table :
  (forall v, 0 <= v -> ntstatus2int v = v) /\
  (forall s k, In (s, k) status_table -> s <> STATUS_TIMEOUT ->
               ntstatus2int s = - errno_of_kind k) /\
  (forall v, v < 0 -> (forall s k, In (s, k) status_table -> v <> s) ->
             ntstatus2int v = - EINVAL).
Proof.
  split; [|split].
  - intros v Hv. unfold ntstatus2int, NT_SUCCESS.
    destruct (Z.leb_spec 0 v); [reflexivity|lia].
  - intros s k Hin Hne. simpl in Hin.
    repeat (destruct Hin as [Hin|Hin]; [injection Hin as <- <-; try (exfalso; apply Hne; reflexivity); vm_compute; reflexivity|]).
    contradiction.
  - intros v Hv Hnot. unfold ntstatus2int, NT_SUCCESS.
    destruct (Z.leb_spec 0 v); [lia|].
    assert (Hs : forall s k, In (s, k) status_table -> (v =? s) = false)
      by (intros s k Hin; apply Z.eqb_neq; exact (Hnot s k Hin)).
    rewrite (Hs STATUS_OBJECT_NAME_COLLISION AlreadyExists),
      (Hs STATUS_NO_MEMORY OutOfMemory), (Hs STATUS_INVALID_PARAMETER InvalidArgument),
      (Hs STATUS_OBJECT_NAME_INVALID NotFound), (Hs STATUS_OBJECT_NAME_NOT_FOUND NotFound),
      (Hs STATUS_BUFFER_TOO_SMALL Overflow), (Hs STATUS_DEVICE_REMOVED NoSuchDevice),
      (Hs STATUS_ACCESS_DENIED PermissionDenied), (Hs STATUS_NOT_SUPPORTED Unsupported),
      (Hs STATUS_ILLEGAL_INSTRUCTION NotSupported), (Hs STATUS_INVALID_HANDLE BadHandle),
      (Hs STATUS_GRAPHICS_ALLOCATION_BUSY InProgress),
      (Hs STATUS_OBJECT_TYPE_MISMATCH TypeMismatch),
      (Hs STATUS_NOT_IMPLEMENTED Unsupported)
      by (simpl; tauto).
    assert (Ht : (v =? STATUS_TIMEOUT) = false)
      by (apply Z.eqb_neq; unfold STATUS_TIMEOUT; vm_compute to_s32; lia).
    rewrite Ht. reflexivity.
Qed.

End StatusFacts.

(* ------------------------------------------------------------------ *)
(** ** Channel: request correlation and the completion size check *)

Module ChannelFacts.
Import Channel.

(** *** [list_del] *)

Lemma list_del_sublist (a : nat) (l : list nat) : list_del a l `sublist_of` l.
Proof.
  induction l as [|b l IH]; simpl; [constructor|].
  destruct (Nat.eqb_spec a b); [apply sublist_cons, reflexivity|].
  apply sublist_skip, IH.
Qed.

Lemma list_del_not_elem (a : nat) (l : list nat) : a ∉ l -> list_del a l = l.
Proof.
  induction l as [|b l IH]; intros Ha; simpl; [reflexivity|].
  apply not_elem_of_cons in Ha as [Hab Hl].
  destruct (Nat.eqb_spec a b); [contradiction|]. f_equal. auto.
Qed.

Lemma elem_of_list_del (a b : nat) (l : list nat) :
  NoDup l -> b ∈ list_del a l <-> b ∈ l /\ b <> a.
Proof.
  induction l as [|c l IH]; intros Hnd; simpl.
  - rewrite elem_of_nil. tauto.
  - apply NoDup_cons in Hnd as [Hc Hnd].
    destruct (Nat.eqb_spec a c) as [->|Hac].
    + rewrite elem_of_cons. split.
      * intros Hb. split; [right; exact Hb|]. intros ->. contradiction.
      * intros [[->|Hb] Hne]; [contradiction|exact Hb].
    + rewrite !elem_of_cons, IH by exact Hnd. split.
      * intros [->|[Hb Hne]]; [split; [left; reflexivity|congruence]|tauto].
      * intros [[->|Hb] Hne]; [left; reflexivity|right; tauto].
Qed.

Lemma list_del_comm (a b : nat) (l : list nat) :
  list_del a (list_del b l) = list_del b (list_del a l).
Proof.
  induction l as [|c l IH]; simpl; [reflexivity|].
  destruct (Nat.eqb_spec b c) as [->|Hbc];
  destruct (Nat.eqb_spec a c) as [->|Hac]; simpl.
  - reflexivity.
  - rewrite Nat.eqb_refl. reflexivity.
  - rewrite Nat.eqb_refl. reflexivity.
  - destruct (Nat.eqb_spec a c); [contradiction|].
    destruct (Nat.eqb_spec b c); [contradiction|]. rewrite IH. reflexivity.
Qed.

(** *** [find_packet] *)

Lemma find_packet_some (h : list packet) (l : list nat) (id : Z) (a : nat) :
  find_packet h l id = Some a ->
  a ∈ l /\ exists p, h !! a = Some p /\ request_id p = id.
Proof.
  induction l as [|b l IH]; simpl; [discriminate|].
  destruct (h !! b) as [p|] eqn:Hb.
  - destruct (Z.eqb_spec (request_id p) id).
    + intros [= ->]. split; [left|exists p; auto].
    + intros Hf. destruct (IH Hf) as [Hin Hp]. split; [right; exact Hin|exact Hp].
  - intros Hf. destruct (IH Hf) as [Hin Hp]. split; [right; exact Hin|exact Hp].
Qed.

Lemma find_packet_none (h : list packet) (l : list nat) (id : Z) :
  (forall a p, a ∈ l -> h !! a = Some p -> request_id p <> id) ->
  find_packet h l id = None.
Proof.
  induction l as [|b l IH]; intros Hno; simpl; [reflexivity|].
  destruct (h !! b) as [p|] eqn:Hb.
  - destruct (Z.eqb_spec (request_id p) id) as [E|_].
    + exfalso. apply (Hno b p); [left|exact Hb|exact E].
    + apply IH. intros a q Ha. apply Hno. right. exact Ha.
  - apply IH. intros a q Ha. apply Hno. right. exact Ha.
Qed.

(** A pending packet with the searched id is found. *)
Lemma find_packet_found (h : list packet) (l : list nat) (id : Z) (a : nat) (p : packet) :
  a ∈ l -> h !! a = Some p -> request_id p = id -> find_packet h l id <> None.
Proof.
  intros Hin Ha Hid. induction l as [|c l IH]; simpl.
  - apply elem_of_nil in Hin. contradiction.
  - apply elem_of_cons in Hin as [->|Hin].
    + rewrite Ha, Hid, Z.eqb_refl. discriminate.
    + destruct (h !! c) as [pc|]; [destruct (_ =? _)|];
        [discriminate|apply IH, Hin|apply IH, Hin].
Qed.

(** The search only depends on which addresses hold a matching packet. *)
Lemma find_packet_ext (h h' : list packet) (l : list nat) (id : Z) :
  (forall b, (exists p, h !! b = Some p /\ request_id p = id) <->
             (exists p, h' !! b = Some p /\ request_id p = id)) ->
  find_packet h l id = find_packet h' l id.
Proof.
  intros Hm. induction l as [|b l IH]; simpl; [reflexivity|].
  specialize (Hm b).
  destruct (h !! b) as [p|] eqn:Hb; destruct (h' !! b) as [p'|] eqn:Hb'.
  - destruct (Z.eqb_spec (request_id p) id) as [E|E];
    destruct (Z.eqb_spec (request_id p') id) as [E'|E']; try reflexivity.
    + exfalso. destruct Hm as [H1 _]. destruct H1 as [x [[= <-] Hx]];
        [exists p; auto|contradiction].
    + exfalso. destruct Hm as [_ H1]. destruct H1 as [x [[= <-] Hx]];
        [exists p'; auto|contradiction].
    + exact IH.
  - destruct (Z.eqb_spec (request_id p) id) as [E|E]; [|exact IH].
    exfalso. destruct Hm as [H1 _]. destruct H1 as [x [Hx _]];
      [exists p; auto|discriminate].
  - destruct (Z.eqb_spec (request_id p') id) as [E|E]; [|exact IH].
    exfalso. destruct Hm as [_ H1]. destruct H1 as [x [Hx _]];
      [exists p'; auto|discriminate].
  - exact IH.
Qed.

(** Removing an entry whose packet does not match leaves the search
    result unchanged. *)
Lemma find_packet_skip (h : list packet) (l : list nat) (id : Z) (a : nat) :
  (forall p, h !! a = Some p -> request_id p <> id) ->
  find_packet h (list_del a l) id = find_packet h l id.
Proof.
  intros Ha. induction l as [|b l IH]; simpl; [reflexivity|].
  destruct (Nat.eqb_spec a b) as [->|Hab].
  - destruct (h !! b) as [p|] eqn:Hb; [|reflexivity].
    destruct (Z.eqb_spec (request_id p) id) as [E|_]; [|reflexivity].
    exfalso. exact (Ha p eq_refl E).
  - simpl. destruct (h !! b) as [p|]; [destruct (Z.eqb_spec (request_id p) id)|];
      [reflexivity| |]; exact IH.
Qed.

(** *** The invariant of the reachable channel states *)

Lemma complete_packet_request_id (p : packet) (payload : list Z) :
  request_id (complete_packet p payload) = request_id p.
Proof.
  unfold complete_packet.
  destruct (buffer_length p =? 0); [reflexivity|].
  destruct (_ <? _); reflexivity.
Qed.

(** The invariant: the counter is the number of packets ever allocated
    (modulo 2^64), the packet allocated [a]-th holds request id [a + 1]
    (modulo 2^64), and the pending list is a duplicate-free list of
    allocated packets. *)
Lemma reach_inv (ch : channel) (n : nat) :
  reach ch n ->
  packet_request_id ch = Z.of_nat (length (heap ch)) mod 2 ^ 64 /\
  (length (heap ch) <= n)%nat /\
  (forall a p, heap ch !! a = Some p -> request_id p = (Z.of_nat a + 1) mod 2 ^ 64) /\
  NoDup (packet_list ch) /\
  (forall a, a ∈ packet_list ch -> (a < length (heap ch))%nat).
Proof.
  induction 1 as [|ch n cmd_size result result_size send_ret r ch' Hr IH Hb
                  |ch n desc Hr IH].
  - simpl. split; [reflexivity|]. split; [lia|]. split; [intros a p Hp; discriminate|].
    split; [constructor|]. intros a Ha. apply elem_of_nil in Ha. contradiction.
  - destruct IH as (Hid & Hlen & Hreq & Hnd & Hbound).
    unfold send_sync_begin in Hb.
    destruct (_ || _).
    { injection Hb as <- <-. repeat split; auto; lia. }
    simpl in Hb.
    set (len := length (heap ch)) in *.
    assert (Hid' : (packet_request_id ch + 1) mod 2 ^ 64 = (Z.of_nat len + 1) mod 2 ^ 64)
      by (rewrite Hid, Z.add_mod_idemp_l by lia; reflexivity).
    assert (Hlen' : length (heap ch ++ [{| request_id := (packet_request_id ch + 1) mod 2 ^ 64;
                     buffer := result; buffer_length := result_size;
                     status := 0; completed := false |}]) = S len)
      by (rewrite length_app; simpl; lia).
    assert (Hreq' : forall a p,
      (heap ch ++ [{| request_id := (packet_request_id ch + 1) mod 2 ^ 64;
                     buffer := result; buffer_length := result_size;
                     status := 0; completed := false |}]) !! a = Some p ->
      request_id p = (Z.of_nat a + 1) mod 2 ^ 64).
    { intros a p Hp. apply lookup_app_Some in Hp as [Hp|[Hge Hp]]; [exact (Hreq a p Hp)|].
      destruct (a - length (heap ch))%nat as [|k] eqn:Ek; [|destruct k; discriminate].
      injection Hp as <-. simpl. rewrite Hid'. do 3 f_equal. lia. }
    assert (Hnd' : NoDup (packet_list ch ++ [len])).
    { apply NoDup_app. split; [exact Hnd|]. split; [|apply NoDup_singleton].
      intros x Hx Hx'. apply list_elem_of_singleton in Hx'. subst x.
      specialize (Hbound _ Hx). lia. }
    assert (Hbound' : forall a, a ∈ packet_list ch ++ [len] -> (a < S len)%nat).
    { intros a Ha. apply elem_of_app in Ha as [Ha|Ha].
      - specialize (Hbound _ Ha). lia.
      - apply list_elem_of_singleton in Ha. lia. }
    destruct (negb (send_ret =? 0)); injection Hb as <- <-; simpl.
    + rewrite Hlen'. split; [rewrite Hid'; f_equal; lia|]. split; [lia|].
      split; [exact Hreq'|]. split.
      * eapply sublist_NoDup; [exact Hnd'|apply list_del_sublist].
      * intros a Ha. apply Hbound'. eapply elem_of_sublist; [exact Ha|apply list_del_sublist].
    + rewrite Hlen'. split; [rewrite Hid'; f_equal; lia|]. split; [lia|].
      split; [exact Hreq'|]. split; [exact Hnd'|exact Hbound'].
  - destruct IH as (Hid & Hlen & Hreq & Hnd & Hbound).
    unfold process_completion_packet.
    destruct (find_packet (heap ch) (packet_list ch) (trans_id desc)) as [a|]; [|simpl; auto].
    assert (Hnd' : NoDup (list_del a (packet_list ch)))
      by (eapply sublist_NoDup; [exact Hnd|apply list_del_sublist]).
    assert (Hsub : forall b, b ∈ list_del a (packet_list ch) -> b ∈ packet_list ch)
      by (intros b Hb; eapply elem_of_sublist; [exact Hb|apply list_del_sublist]).
    destruct (heap ch !! a) as [p|] eqn:Ha; simpl.
    + rewrite length_insert. split; [exact Hid|]. split; [exact Hlen|].
      split; [|split; [exact Hnd'|intros b Hb; apply Hbound, Hsub, Hb]].
      intros b q Hq. rewrite list_lookup_insert in Hq.
      destruct (decide (a = b /\ (a < length (heap ch))%nat)) as [[<- _]|_].
      * injection Hq as <-. rewrite complete_packet_request_id. exact (Hreq a p Ha).
      * exact (Hreq b q Hq).
    + split; [exact Hid|]. split; [exact Hlen|]. split; [exact Hreq|].
      split; [exact Hnd'|intros b Hb; apply Hbound, Hsub, Hb].
Qed.

(** Allocated packets carry distinct request ids as long as fewer than
    2^64 requests have been issued. *)
Lemma reach_ids_distinct (ch : channel) (n : nat) :
  reach ch n -> Z.of_nat n < 2 ^ 64 ->
  forall a b p q, heap ch !! a = Some p -> heap ch !! b = Some q ->
  request_id p = request_id q -> a = b.
Proof.
  intros Hr Hn a b p q Ha Hb E.
  destruct (reach_inv ch n Hr) as (_ & Hlen & Hreq & _).
  pose proof (lookup_lt_Some _ _ _ Ha). pose proof (lookup_lt_Some _ _ _ Hb).
  rewrite (Hreq a p Ha), (Hreq b q Hb) in E.
  rewrite !Z.mod_small in E by lia. lia.
Qed.

(** [<[i:=x]>] at distinct indices commute. *)
Lemma insert_insert_ne {A} (l : list A) (i j : nat) (x y : A) :
  i <> j -> <[i := x]> (<[j := y]> l) = <[j := y]> (<[i := x]> l).
Proof.
  intros Hij. apply list_eq. intros k.
  rewrite !list_lookup_insert, !length_insert.
  repeat destruct (decide _); try reflexivity; exfalso; intuition congruence.
Qed.

(** A completion leaves the search for any other transaction id as it was. *)
Lemma process_completion_find_other (ch : channel) (desc : descriptor) (id : Z) :
  trans_id desc <> id ->
  find_packet (heap (process_completion_packet ch desc).1)
              (packet_list (process_completion_packet ch desc).1) id =
  find_packet (heap ch) (packet_list ch) id.
Proof.
  intros Hne. unfold process_completion_packet.
  destruct (find_packet (heap ch) (packet_list ch) (trans_id desc)) as [a|] eqn:F;
    [|reflexivity].
  destruct (find_packet_some _ _ _ _ F) as [_ [p [Ha Hp]]].
  rewrite Ha. simpl.
  rewrite (find_packet_ext _ (heap ch)).
  - apply find_packet_skip. intros q Hq. rewrite Ha in Hq. injection Hq as <-. congruence.
  - intros b. rewrite list_lookup_insert.
    destruct (decide (a = b /\ (a < length (heap ch))%nat)) as [[<- _]|_]; [|reflexivity].
    split; intros [q [Hq Hid]].
    + injection Hq as <-. rewrite complete_packet_request_id in Hid. congruence.
    + rewrite Ha in Hq. injection Hq as <-. congruence.
Qed.

(** A completion matching no pending packet changes nothing. *)
Lemma process_completion_none (ch : channel) (desc : descriptor) :
  find_packet (heap ch) (packet_list ch) (trans_id desc) = None ->
  process_completion_packet ch desc = (ch, false).
Proof. intros F. unfold process_completion_packet. rewrite F. reflexivity. Qed.

(** What a completion does once its packet is found. *)
Lemma process_completion_found (ch : channel) (desc : descriptor) (a : nat) (p : packet) :
  find_packet (heap ch) (packet_list ch) (trans_id desc) = Some a ->
  heap ch !! a = Some p ->
  process_completion_packet ch desc =
  ({| packet_request_id := packet_request_id ch;
      heap := <[a := complete_packet p (data desc)]> (heap ch);
      packet_list := list_del a (packet_list ch);
      ch_sent := ch_sent ch |}, true).
Proof.
  intros F Ha. unfold process_completion_packet. rewrite F. simpl. rewrite Ha.
  reflexivity.
Qed.

(** C2: in every channel state reachable by fewer than 2^64 [send_sync]
    calls and any interleaving of completions: the pending packets form a
    duplicate-free list and carry distinct request ids; a completion whose
    transaction id is the request id of a pending packet removes exactly
    that packet from the pending list and completes only that packet
    (every other packet is left as it was); a completion matching no
    pending packet changes nothing (it is only logged); and two completions
    with distinct transaction ids give the same channel in either order. *)
Theorem completion_matched_by_request_id (ch : channel) (n : nat)
    (Hr : reach ch n) (Hn : Z.of_nat n < 2 ^ 64) :
  NoDup (packet_list ch) /\
  (forall a b p q, heap ch !! a = Some p -> heap ch !! b = Some q ->
                   request_id p = request_id q -> a = b) /\
  (forall desc a p, a ∈ packet_list ch -> heap ch !! a = Some p ->
     request_id p = trans_id desc ->
     process_completion_packet ch desc =
       ({| packet_request_id := packet_request_id ch;
           heap := <[a := complete_packet p (data desc)]> (heap ch);
           packet_list := list_del a (packet_list ch);
           ch_sent := ch_sent ch |}, true) /\
     (forall b, b ∈ list_del a (packet_list ch) <-> b ∈ packet_list ch /\ b <> a) /\
     (forall b, b <> a ->
        heap (process_completion_packet ch desc).1 !! b = heap ch !! b)) /\
  (forall desc, (forall a p, a ∈ packet_list ch -> heap ch !! a = Some p ->
                             request_id p <> trans_id desc) ->
     process_completion_packet ch desc = (ch, false)) /\
  (forall d1 d2, trans_id d1 <> trans_id d2 ->
     (process_completion_packet (process_completion_packet ch d1).1 d2).1 =
     (process_completion_packet (process_completion_packet ch d2).1 d1).1).
Proof.
  destruct (reach_inv ch n Hr) as (_ & _ & _ & Hnd & _).
  pose proof (reach_ids_distinct ch n Hr Hn) as Hdist.
  split; [exact Hnd|]. split; [exact Hdist|]. split; [|split].
  - intros desc a p Hin Ha Hid.
    destruct (find_packet (heap ch) (packet_list ch) (trans_id desc)) as [b|] eqn:F.
    + destruct (find_packet_some _ _ _ _ F) as [_ [q [Hb Hq]]].
      assert (b = a) as -> by (apply (Hdist b a q p Hb Ha); congruence).
      rewrite (process_completion_found ch desc a p F Ha).
      split; [reflexivity|]. split.
      * intros b. apply elem_of_list_del, Hnd.
      * intros b Hne. simpl. apply list_lookup_insert_ne. congruence.
    + exfalso. exact (find_packet_found _ _ _ a p Hin Ha Hid F).
  - intros desc Hno. unfold process_completion_packet.
    rewrite find_packet_none by exact Hno. reflexivity.
  - intros d1 d2 Hne.
    pose proof (process_completion_find_other ch d1 (trans_id d2) Hne) as F12.
    pose proof (process_completion_find_other ch d2 (trans_id d1) (not_eq_sym Hne)) as F21.
    destruct (find_packet (heap ch) (packet_list ch) (trans_id d1)) as [a1|] eqn:E1;
    destruct (find_packet (heap ch) (packet_list ch) (trans_id d2)) as [a2|] eqn:E2.
    + destruct (find_packet_some _ _ _ _ E1) as [_ [p1 [H1 Hp1]]].
      destruct (find_packet_some _ _ _ _ E2) as [_ [p2 [H2 Hp2]]].
      assert (a1 <> a2) by (intros ->; congruence).
      assert (Hc1 : heap (process_completion_packet ch d1).1 !! a2 = Some p2)
        by (rewrite (process_completion_found ch d1 a1 p1 E1 H1); simpl;
            rewrite list_lookup_insert_ne by congruence; exact H2).
      assert (Hc2 : heap (process_completion_packet ch d2).1 !! a1 = Some p1)
        by (rewrite (process_completion_found ch d2 a2 p2 E2 H2); simpl;
            rewrite list_lookup_insert_ne by congruence; exact H1).
      rewrite (process_completion_found _ d2 a2 p2 F12 Hc1).
      rewrite (process_completion_found _ d1 a1 p1 F21 Hc2).
      rewrite (process_completion_found ch d1 a1 p1 E1 H1).
      rewrite (process_completion_found ch d2 a2 p2 E2 H2).
      simpl. rewrite insert_insert_ne by congruence. rewrite list_del_comm.
      reflexivity.
    + rewrite (process_completion_none ch d2 E2), (process_completion_none _ d2 F12).
      reflexivity.
    + rewrite (process_completion_none ch d1 E1), (process_completion_none _ d1 F21).
      reflexivity.
    + rewrite (process_completion_none ch d1 E1), (process_completion_none ch d2 E2).
      simpl. rewrite (process_completion_none ch d1 E1), (process_completion_none ch d2 E2).
      reflexivity.
Qed.

Lemma completion_matched_by_request_id_witness :
  let ch1 := (send_sync_begin channel_init 16 [0; 0] 2 true 0).2 in
  let ch2 := (send_sync_begin ch1 16 [0; 0] 2 true 0).2 in
  reach ch2 2 /\ Z.of_nat 2 < 2 ^ 64 /\ NoDup (packet_list ch2) /\
  (process_completion_packet
     (process_completion_packet ch2 {| trans_id := 1; data := [5; 6] |}).1
     {| trans_id := 2; data := [7; 8] |}).1 =
  (process_completion_packet
     (process_completion_packet ch2 {| trans_id := 2; data := [7; 8] |}).1
     {| trans_id := 1; data := [5; 6] |}).1.
Proof.
  intros ch1 ch2.
  assert (Hr : reach ch2 2).
  { apply (reach_begin ch1 1 16 [0; 0] 2 0 (inr 1%nat)); [|reflexivity].
    apply (reach_begin channel_init 0 16 [0; 0] 2 0 (inr 0%nat));
      [apply reach_init|reflexivity]. }
  assert (Hn : Z.of_nat 2 < 2 ^ 64) by lia.
  destruct (completion_matched_by_request_id ch2 2 Hr Hn) as (Hnd & _ & _ & _ & Hc).
  split; [exact Hr|]. split; [exact Hn|]. split; [exact Hnd|].
  apply Hc. discriminate.
Defined.

(** C3 (as amended): when the found packet expects a non-empty result
    ([buffer_length > 0]), the completion records [-EOVERFLOW] and copies
    nothing exactly when the payload is shorter than [buffer_length];
    otherwise it copies the first [buffer_length] bytes of the payload,
    so exactly [buffer_length] bytes are written, and leaves the status as
    it was. The packet is completed in both cases. *)
Theorem completion_size_check (ch : channel) (desc : descriptor) (a : nat) (p : packet)
    (Hf : find_packet (heap ch) (packet_list ch) (trans_id desc) = Some a)
    (Ha : heap ch !! a = Some p) (Hbl : 0 < buffer_length p) :
  exists p', heap (process_completion_packet ch desc).1 !! a = Some p' /\
    request_id p' = request_id p /\ buffer_length p' = buffer_length p /\
    completed p' = true /\
    (Z.of_nat (length (data desc)) < buffer_length p ->
       status p' = - EOVERFLOW /\ buffer p' = buffer p) /\
    (buffer_length p <= Z.of_nat (length (data desc)) ->
       status p' = status p /\
       buffer p' = take (Z.to_nat (buffer_length p)) (data desc) /\
       length (buffer p') = Z.to_nat (buffer_length p)).
Proof.
  exists (complete_packet p (data desc)).
  rewrite (process_completion_found ch desc a p Hf Ha). simpl.
  rewrite list_lookup_insert_eq by exact (lookup_lt_Some _ _ _ Ha).
  split; [reflexivity|].
  unfold complete_packet.
  destruct (Z.eqb_spec (buffer_length p) 0); [lia|].
  destruct (Z.ltb_spec (Z.of_nat (length (data desc))) (buffer_length p)); simpl.
  - repeat split; auto; lia.
  - repeat split; auto; try lia. rewrite length_take. lia.
Qed.

Lemma completion_size_check_witness :
  let ch1 := (send_sync_begin channel_init 16 [0; 0; 0; 0] 4 true 0).2 in
  let p := {| request_id := 1; buffer := [0; 0; 0; 0]; buffer_length := 4;
              status := 0; completed := false |} in
  let desc := {| trans_id := 1; data := [1; 2] |} in
  find_packet (heap ch1) (packet_list ch1) (trans_id desc) = Some 0%nat /\
  heap ch1 !! 0%nat = Some p /\ 0 < buffer_length p /\
  exists p', heap (process_completion_packet ch1 desc).1 !! 0%nat = Some p' /\
             status p' = - EOVERFLOW.
Proof.
  intros ch1 p desc.
  assert (Hf : find_packet (heap ch1) (packet_list ch1) (trans_id desc) = Some 0%nat)
    by reflexivity.
  assert (Ha : heap ch1 !! 0%nat = Some p) by reflexivity.
  assert (Hbl : 0 < buffer_length p) by (simpl; lia).
  split; [exact Hf|]. split; [exact Ha|]. split; [exact Hbl|].
  destruct (completion_size_check ch1 desc 0 p Hf Ha Hbl)
    as (p' & Hp' & _ & _ & _ & Hov & _).
  exists p'. split; [exact Hp'|]. apply Hov. simpl. lia.
Defined.

(** C3 counterexample: a 4-byte result buffer and an 8-byte payload. The
    sizes differ and the buffer is smaller than the payload, yet no
    overflow is recorded: the status stays 0 and the first 4 bytes are
    copied. *)
Lemma completion_longer_payload_not_overflow :
  let ch1 := (send_sync_begin channel_init 16 [0; 0; 0; 0] 4 true 0).2 in
  heap (process_completion_packet ch1
          {| trans_id := 1; data := [1; 2; 3; 4; 5; 6; 7; 8] |}).1 !! 0%nat =
  Some {| request_id := 1; buffer := [1; 2; 3; 4]; buffer_length := 4;
          status := 0; completed := true |} /\
  0 <> - EOVERFLOW.
Proof. split; [reflexivity|discriminate]. Qed.

End ChannelFacts.

(* ------------------------------------------------------------------ *)
(** ** Size ceilings of [dxgvmb_send_sync_msg] and of a batch allocation
    create *)

Module SizeFacts.
Import Channel CreateAllocSize.

(** The [u32] sum of per-allocation private data sizes does not wrap: each
    step stays below the ceiling. *)
Lemma sum_priv_some (l : list Z) (acc s : Z) :
  0 <= acc < DXG_MAX_VM_BUS_PACKET_SIZE -> Forall (fun x => 0 <= x) l ->
  sum_priv l acc = Some s ->
  s = acc + fold_right Z.add 0 l /\ s < DXG_MAX_VM_BUS_PACKET_SIZE.
Proof.
  assert (Hmax : DXG_MAX_VM_BUS_PACKET_SIZE = 131072) by reflexivity.
  revert acc. induction l as [|x l IH]; intros acc Hacc Hl Hs; simpl in Hs.
  - injection Hs as <-. simpl. lia.
  - apply Forall_cons in Hl as [Hx Hl].
    destruct (Z.leb_spec DXG_MAX_VM_BUS_PACKET_SIZE x); [discriminate|].
    rewrite Z.mod_small in Hs by lia.
    destruct (Z.leb_spec DXG_MAX_VM_BUS_PACKET_SIZE (acc + x)); [discriminate|].
    destruct (IH (acc + x) ltac:(lia) Hl Hs) as [-> Hlt].
    simpl. lia.
Qed.

Lemma sum_priv_zeros n acc :
  0 <= acc < DXG_MAX_VM_BUS_PACKET_SIZE -> sum_priv (replicate n 0) acc = Some acc.
Proof.
  assert (Hmax : DXG_MAX_VM_BUS_PACKET_SIZE = 131072) by reflexivity.
  intros Hacc. induction n as [|n IH]; [reflexivity|]. cbn [replicate sum_priv].
  rewrite Z.add_0_r, Z.mod_small by lia.
  destruct (Z.leb_spec DXG_MAX_VM_BUS_PACKET_SIZE 0); [lia|].
  destruct (Z.leb_spec DXG_MAX_VM_BUS_PACKET_SIZE acc); [lia|]. exact IH.
Qed.

Lemma fold_right_add_zeros n : fold_right Z.add 0 (replicate n 0) = 0.
Proof. induction n as [|n IH]; cbn; [reflexivity|]. rewrite IH. reflexivity. Qed.

Lemma aggregated_size_zeros sca scai n :
  aggregated_size sca scai (zeros_args n) = sca + Z.of_nat n * scai.
Proof.
  unfold aggregated_size, alloc_count, zeros_args.
  cbn [private_runtime_data_size priv_drv_data_size alloc_info].
  rewrite length_replicate, fold_right_add_zeros. lia.
Qed.

(** With [n] allocations and no private data the command size is
    [sca + n * scai] reduced modulo 2^32, and the create goes on whenever
    that reduced value is within the ceiling. *)
Lemma create_sizes_zeros sca scai scr sair n :
  (sca + Z.of_nat n * scai) mod 2 ^ 32 <= DXG_MAX_VM_BUS_PACKET_SIZE ->
  exists rs, send_create_allocation_sizes sca scai scr sair (zeros_args n) true =
             CA_Continue ((sca + Z.of_nat n * scai) mod 2 ^ 32) rs.
Proof.
  intros H. unfold send_create_allocation_sizes, alloc_count, zeros_args.
  cbn [private_runtime_data_size priv_drv_data_size alloc_info].
  replace ((DXG_MAX_VM_BUS_PACKET_SIZE <=? 0) || (DXG_MAX_VM_BUS_PACKET_SIZE <=? 0))
    with false by reflexivity.
  rewrite sum_priv_zeros by (cbv; split; congruence).
  rewrite length_replicate. cbv zeta. cbn [negb].
  replace ((0 + 0) mod 2 ^ 32) with 0 by reflexivity.
  rewrite !Z.add_0_r.
  destruct (Z.ltb_spec DXG_MAX_VM_BUS_PACKET_SIZE ((sca + Z.of_nat n * scai) mod 2 ^ 32)); [lia|].
  eexists. reflexivity.
Qed.

(** C9 (as amended): a synchronous send whose command or result size
    exceeds [DXG_MAX_VM_BUS_PACKET_SIZE] returns [-EINVAL] (InvalidArgument)
    and leaves the channel unchanged: no packet is allocated or registered,
    no request id is consumed and nothing is sent. For a batch allocation
    create (sizes non-negative) whose aggregated command size exceeds the
    ceiling but is below 2^32, the size budget stops before any host
    contact with [-EOVERFLOW] when the result buffer allocation succeeds,
    and with [-EOVERFLOW] or [-ENOMEM] when it fails; whenever the budget
    lets the create go on, the command size is within the ceiling, and it
    is the aggregated size when that size is below 2^32. *)
Theorem size_ceilings
    (sca scai scr sair : Z) (a : args)
    (Hsz : 0 <= sca /\ 0 <= scai)
    (Hargs : 0 <= private_runtime_data_size a /\ 0 <= priv_drv_data_size a /\
             Forall (fun x => 0 <= x) (alloc_info a)) :
  (forall ch cmd_size result result_size alloc_ok send_ret,
     DXG_MAX_VM_BUS_PACKET_SIZE < cmd_size \/
     DXG_MAX_VM_BUS_PACKET_SIZE < result_size ->
     send_sync_begin ch cmd_size result result_size alloc_ok send_ret =
     (inl (- EINVAL), ch)) /\
  (aggregated_size sca scai a < 2 ^ 32 ->
   DXG_MAX_VM_BUS_PACKET_SIZE < aggregated_size sca scai a ->
     send_create_allocation_sizes sca scai scr sair a true = CA_Error (- EOVERFLOW) /\
     (send_create_allocation_sizes sca scai scr sair a false = CA_Error (- EOVERFLOW) \/
      send_create_allocation_sizes sca scai scr sair a false = CA_Error (- ENOMEM))) /\
  (forall vzalloc_ok cmd_size result_size,
     send_create_allocation_sizes sca scai scr sair a vzalloc_ok =
       CA_Continue cmd_size result_size ->
     cmd_size <= DXG_MAX_VM_BUS_PACKET_SIZE /\
     (aggregated_size sca scai a < 2 ^ 32 -> cmd_size = aggregated_size sca scai a)).
Proof.
  assert (Hmax : DXG_MAX_VM_BUS_PACKET_SIZE = 131072) by reflexivity.
  destruct Hargs as (Hrt & Hpr & Hai).
  split.
  { intros ch cmd_size result result_size alloc_ok send_ret Hbig.
    unfold send_sync_begin.
    destruct Hbig as [Hbig|Hbig].
    - apply Z.ltb_lt in Hbig. rewrite Hbig. reflexivity.
    - apply Z.ltb_lt in Hbig. rewrite Hbig, orb_true_r. reflexivity. }
  assert (Hcnt : 0 <= alloc_count a) by (unfold alloc_count; lia).
  assert (Hsum : 0 <= fold_right Z.add 0 (alloc_info a)).
  { clear -Hai. induction Hai; simpl; lia. }
  (* the final check of the command size *)
  assert (Hle : forall vz cmd_size result_size,
    send_create_allocation_sizes sca scai scr sair a vz = CA_Continue cmd_size result_size ->
    cmd_size <= DXG_MAX_VM_BUS_PACKET_SIZE).
  { intros vz cmd_size result_size Hc. unfold send_create_allocation_sizes in Hc.
    destruct (_ || _); [discriminate|]. destruct (sum_priv _ _); [|discriminate].
    destruct vz; [|discriminate]. cbv zeta in Hc. cbn [negb] in Hc.
    match type of Hc with
    | (if ?b then _ else _) = _ => destruct b eqn:E; [discriminate|]
    end.
    injection Hc as <- _. apply Z.ltb_ge in E. exact E. }
  (* the outcome once the per-allocation sizes have been summed *)
  assert (Hgo : aggregated_size sca scai a < 2 ^ 32 -> forall vz,
    send_create_allocation_sizes sca scai scr sair a vz = CA_Error (- EOVERFLOW) \/
    (vz = false /\ send_create_allocation_sizes sca scai scr sair a vz = CA_Error (- ENOMEM)) \/
    (vz = true /\ send_create_allocation_sizes sca scai scr sair a vz =
       (if DXG_MAX_VM_BUS_PACKET_SIZE <? aggregated_size sca scai a
        then CA_Error (- EOVERFLOW)
        else CA_Continue (aggregated_size sca scai a)
               ((scr + ((alloc_count a - 1) mod 2 ^ 32) * sair
                 + fold_right Z.add 0 (alloc_info a)) mod 2 ^ 32)))).
  { intros Hwrap vz. unfold send_create_allocation_sizes.
    destruct (_ || _) eqn:Hb; [left; reflexivity|].
    apply orb_false_iff in Hb as [Hb1 Hb2].
    apply Z.leb_gt in Hb1, Hb2.
    destruct (sum_priv (alloc_info a) 0) as [s|] eqn:Hs; [|left; reflexivity].
    destruct (sum_priv_some (alloc_info a) 0 s ltac:(lia) Hai Hs) as [Hs1 Hs2].
    destruct vz; simpl; [right; right|right; left; split; reflexivity].
    split; [reflexivity|].
    rewrite (Z.mod_small (s + priv_drv_data_size a)) by lia.
    replace (sca + alloc_count a * scai + private_runtime_data_size a +
             (s + priv_drv_data_size a))
      with (aggregated_size sca scai a)
      by (unfold aggregated_size; lia).
    rewrite Z.mod_small by (unfold aggregated_size in *; lia).
    rewrite Hs1, Z.add_0_l. reflexivity. }
  split.
  - intros Hwrap Hbig. apply Z.ltb_lt in Hbig. specialize (Hgo Hwrap).
    split.
    + destruct (Hgo true) as [H|[[? _]|[_ H]]]; [exact H|discriminate|].
      rewrite H, Hbig. reflexivity.
    + destruct (Hgo false) as [H|[[_ H]|[? _]]]; [left; exact H|right; exact H|discriminate].
  - intros vz cmd_size result_size Hc.
    split; [exact (Hle vz cmd_size result_size Hc)|]. intros Hwrap.
    destruct (Hgo Hwrap vz) as [H|[[_ H]|[_ H]]]; rewrite Hc in H; try discriminate.
    destruct (Z.ltb_spec DXG_MAX_VM_BUS_PACKET_SIZE (aggregated_size sca scai a));
      [discriminate|].
    injection H as -> _. reflexivity.
Qed.

Lemma size_ceilings_witness :
  let a := {| private_runtime_data_size := 1000; priv_drv_data_size := 1000;
              alloc_info := [10; 20] |} in
  (0 <= 64 /\ 0 <= 32) /\
  (0 <= private_runtime_data_size a /\ 0 <= priv_drv_data_size a /\
   Forall (fun x => 0 <= x) (alloc_info a)) /\
  aggregated_size 64 32 a < 2 ^ 32 /\
  send_sync_begin channel_init (DXG_MAX_VM_BUS_PACKET_SIZE + 1) [] 0 true 0 =
  (inl (- EINVAL), channel_init) /\
  (forall cmd_size result_size,
     send_create_allocation_sizes 64 32 32 32 a true = CA_Continue cmd_size result_size ->
     cmd_size = aggregated_size 64 32 a).
Proof.
  intros a.
  assert (H1 : 0 <= 64 /\ 0 <= 32) by lia.
  assert (H2 : 0 <= private_runtime_data_size a /\ 0 <= priv_drv_data_size a /\
               Forall (fun x => 0 <= x) (alloc_info a))
    by (simpl; split; [lia|split; [lia|repeat constructor; lia]]).
  assert (H3 : aggregated_size 64 32 a < 2 ^ 32) by (vm_compute; reflexivity).
  destruct (size_ceilings 64 32 32 32 a H1 H2) as (Hs & _ & Hc).
  split; [exact H1|]. split; [exact H2|]. split; [exact H3|]. split.
  - apply Hs. left. lia.
  - intros cmd_size result_size E. exact (proj2 (Hc true cmd_size result_size E) H3).
Defined.

(** C9 counterexample: a batch create with runtime and global private data
    one byte below the ceiling each and one allocation without private
    data has an aggregated size above the ceiling, but when the result
    buffer allocation fails it reports [-ENOMEM], not Overflow; an
    oversized synchronous send reports [-EINVAL], the InvalidArgument
    errno, which is also its answer to unrelated argument errors; and a
    create with 2^27 allocations of 32-byte entries and no private data
    has an aggregated size of 2^32 + 64, far above the ceiling, yet the
    [u32] command size wraps to 64 and the create goes on. *)
Lemma size_ceiling_enomem_and_wrap :
  let a := {| private_runtime_data_size := DXG_MAX_VM_BUS_PACKET_SIZE - 1;
              priv_drv_data_size := DXG_MAX_VM_BUS_PACKET_SIZE - 1;
              alloc_info := [0] |} in
  let a' := zeros_args (Z.to_nat (2 ^ 27)) in
  DXG_MAX_VM_BUS_PACKET_SIZE < aggregated_size 64 32 a /\
  send_create_allocation_sizes 64 32 32 32 a false = CA_Error (- ENOMEM) /\
  - ENOMEM <> - EOVERFLOW /\
  (send_sync_begin channel_init (DXG_MAX_VM_BUS_PACKET_SIZE + 1) [] 0 true 0).1 =
  inl (- EINVAL) /\
  aggregated_size 64 32 a' = 2 ^ 32 + 64 /\
  alloc_count a' < 2 ^ 31 /\
  exists rs, send_create_allocation_sizes 64 32 32 32 a' true = CA_Continue 64 rs.
Proof.
  intros a a'.
  assert (Hn : Z.of_nat (Z.to_nat (2 ^ 27)) = 2 ^ 27) by (apply Z2Nat.id; lia).
  split; [vm_compute; reflexivity|]. split; [vm_compute; reflexivity|].
  split; [vm_compute; discriminate|]. split; [vm_compute; reflexivity|].
  split; [|split].
  - unfold a'. rewrite aggregated_size_zeros, Hn. reflexivity.
  - unfold a', alloc_count, zeros_args. cbn [alloc_info].
    rewrite length_replicate, Hn. reflexivity.
  - destruct (create_sizes_zeros 64 32 32 32 (Z.to_nat (2 ^ 27))) as [rs H].
    { rewrite Hn. vm_compute. discriminate. }
    rewrite Hn in H. exists rs. exact H.
Qed.

End SizeFacts.


(* ------------------------------------------------------------------ *)
(** ** The device object graph: teardown, references, allocation handles *)

Module GraphFacts.
Import Graph GraphSpecs.

(** ** Computations that keep a relation between the world before and after *)

Section Keeps.
Context (R : world -> world -> Prop) `{!PreOrder R}.

Lemma keeps_bind {A B} (m : M A) (f : A -> M B) :
  keeps R m -> (forall x, keeps R (f x)) -> keeps R (mbind f m).
Proof.
  intros Hm Hf w. unfold mbind, M_bind.
  specialize (Hm w). destruct (m w) as [x w1]; simpl in *.
  etransitivity; [exact Hm | apply Hf].
Qed.

Lemma keeps_ret {A} (x : A) : keeps R (mret x).
Proof. intros w. reflexivity. Qed.

Lemma keeps_read {A} (m : M A) : (forall w, (m w).2 = w) -> keeps R m.
Proof. intros Hm w. rewrite Hm. reflexivity. Qed.

Lemma keeps_modify (f : world -> world) : (forall w, R w (f w)) -> keeps R (modify f).
Proof. intros Hf w. apply Hf. Qed.

Lemma keeps_iter {A} (f : A -> M unit) (l : list A) :
  (forall x, keeps R (f x)) -> keeps R (iter f l).
Proof.
  intros Hf. induction l as [| x l IH]; simpl.
  - apply keeps_ret.
  - apply keeps_bind; [apply Hf | intros _; exact IH].
Qed.

End Keeps.

Ltac head_of t := match t with ?f _ => head_of f | _ => t end.

(** Splits a computation into its primitive steps; [prim] closes the
    [modify] steps for the relation at hand. *)
Ltac keeps_by prim :=
  repeat match goal with
  | |- PreOrder _ => exact _
  | |- forall _, _ => intros ?
  | |- keeps _ (mbind _ _) => apply keeps_bind
  | |- keeps _ (iter _ _) => apply keeps_iter
  | |- keeps _ (mret _) => apply keeps_ret
  | |- keeps _ (modify _) => apply keeps_modify; intros ?; prim
  | |- keeps _ (if ?b then _ else _) => destruct b
  | |- keeps _ (match ?o with Some _ => _ | None => _ end) => destruct o
  | |- keeps _ (dev _) => apply keeps_read; [exact _ | reflexivity]
  | |- keeps _ (alc _) => apply keeps_read; [exact _ | reflexivity]
  | |- keeps _ (res _) => apply keeps_read; [exact _ | reflexivity]
  | |- keeps _ get => apply keeps_read; [exact _ | reflexivity]
  | |- keeps _ (let _ := _ in _) => cbv zeta
  | |- keeps _ (match ?x with _ => _ end) => destruct x
  | |- keeps _ ?m => let h := head_of m in progress (unfold h)
  end.

Global Instance same_stopping_preorder : PreOrder same_stopping.
Proof. split; [intros w; reflexivity | intros w1 w2 w3 H1 H2; unfold same_stopping in *; congruence]. Qed.

Lemma dxgprocess_adapter_stop_stopping (i : nat) :
  keeps same_stopping (dxgprocess_adapter_stop i).
Proof. keeps_by ltac:(reflexivity). Qed.

Ltac crunch :=
  repeat progress (unfold dxgprocess_adapter_remove_device, kref_put_adapter,
    kref_put_device, emit, modify, get, dev, upd_dev, map_devices, map_padapters,
    add_adapter_kref, skip, mbind, M_bind, mret, M_ret; cbn).

Ltac dec_tac :=
  repeat match goal with
  | |- context [match ?D with left _ => _ | right _ => _ end] =>
      destruct D; cbn; [| try (exfalso; rewrite ?length_insert in *; lia)]
  end.

Lemma dxgadapter_stop_when_stopping (w : world) :
  w_stopping_adapter w = true ->
  dxgadapter_stop w =
    (tt, mk_world (w_adapter_state w) (w_stopping_adapter w) (w_adapter_kref w)
           (w_padapters w) (w_devices w) (w_allocs w) (w_resources w)
           (w_next_ctx w) (w_htables w) (w_trace w ++ [EvAdapterLock; EvAdapterUnlock])).
Proof.
  intros Hs. unfold dxgadapter_stop. crunch. rewrite Hs. cbn.
  rewrite <- app_assoc. reflexivity.
Qed.

Lemma dxgadapter_stop_sets_stopping (w : world) :
  w_stopping_adapter (dxgadapter_stop w).2 = true.
Proof.
  destruct (w_stopping_adapter w) eqn:Hs.
  - rewrite dxgadapter_stop_when_stopping by exact Hs. cbn. exact Hs.
  - assert (Hk : keeps same_stopping
      (emit EvProcessAdapterLock ;;
       w ← get ;
       iter dxgprocess_adapter_stop (seq 0 (length (w_padapters w))) ;;
       emit EvProcessAdapterUnlock ;;
       acquired ← dxgadapter_acquire_lock_exclusive ;
       (if (acquired : bool) then dxgvmb_send_close_adapter ;; emit EvAdapterUnlock else skip) ;;
       emit EvChannelDestroy ;;
       set_adapter_state DXGADAPTER_STATE_STOPPED)).
    { keeps_by ltac:(reflexivity). }
    unfold dxgadapter_stop. unfold mbind at 1 2 3 4, M_bind at 1 2 3 4.
    cbn. rewrite Hs. cbn.
    match goal with |- w_stopping_adapter ((?m) ?w1).2 = true =>
      specialize (Hk w1); unfold same_stopping in Hk; cbn in Hk end.
    exact Hk.
Qed.

Lemma dxgdevice_destroy_not_active (d : nat) (w : world)
  (Hd : (d < length (w_devices w))%nat)
  (Hst : objstate_eqb (d_state (w_devices w !!! d)) DXGOBJECTSTATE_ACTIVE = false)
  (Ha : d_has_adapter (w_devices w !!! d) = true) :
  let x := w_devices w !!! d in
  let i := d_adapter_info x in
  let w' := (dxgdevice_destroy d w).2 in
  w_trace w' = w_trace w ++ [EvDevLock d; EvDeviceListLock i;
     EvDeviceListUnlock i; EvPutAdapter (ByDevice d);
     EvDevUnlock d; EvPutDevice d ByCaller] ++
     (if d_kref x - 1 =? 0 then [EvFreeDevice d] else []) /\
  w_adapter_kref w' = w_adapter_kref w - 1 /\
  d_kref (w_devices w' !!! d) = d_kref x - 1 /\
  w_padapters w' =
    <[i := {| pa_process := pa_process (w_padapters w !!! i);
              pa_devices := Channel.list_del d (pa_devices (w_padapters w !!! i)) |}]>
      (w_padapters w).
Proof.
  intros x i w'. subst x i w'.
  unfold dxgdevice_destroy; crunch. rewrite Hst. cbn. rewrite Ha. crunch.
  rewrite list_lookup_total_insert by lia. cbn. dec_tac.
  replace (d_kref (w_devices w !!! d) + -1) with (d_kref (w_devices w !!! d) - 1) by lia.
  destruct (d_kref (w_devices w !!! d) - 1 =? 0); cbn;
    rewrite ?list_lookup_total_insert by lia; cbn;
    repeat split; rewrite <- ?app_assoc; try reflexivity.
  all: dec_tac; lia.
Qed.

(** C5: a second [dxgadapter_stop] only takes and releases the adapter's
    core lock: no process-adapter stop, no close-adapter RPC and no channel
    destroy. [dxgdevice_destroy] of a device that is not ACTIVE skips the
    teardown (no device stop, no handle free, no host RPC) but still unlinks
    the device from its process-adapter binding, drops the device's
    reference on the adapter and drops the caller's reference on the device. *)
Theorem reentrant_stop_and_destroy (w : world) (d : nat)
  (Hd : (d < length (w_devices w))%nat)
  (Hst : d_state (w_devices w !!! d) <> DXGOBJECTSTATE_ACTIVE)
  (Ha : d_has_adapter (w_devices w !!! d) = true) :
  (let w1 := (dxgadapter_stop w).2 in
   dxgadapter_stop w1 =
     (tt, mk_world (w_adapter_state w1) (w_stopping_adapter w1) (w_adapter_kref w1)
            (w_padapters w1) (w_devices w1) (w_allocs w1) (w_resources w1)
            (w_next_ctx w1) (w_htables w1)
            (w_trace w1 ++ [EvAdapterLock; EvAdapterUnlock]))) /\
  (let x := w_devices w !!! d in
   let i := d_adapter_info x in
   let w' := (dxgdevice_destroy d w).2 in
   w_trace w' = w_trace w ++ [EvDevLock d; EvDeviceListLock i;
      EvDeviceListUnlock i; EvPutAdapter (ByDevice d);
      EvDevUnlock d; EvPutDevice d ByCaller] ++
      (if d_kref x - 1 =? 0 then [EvFreeDevice d] else []) /\
   w_adapter_kref w' = w_adapter_kref w - 1 /\
   d_kref (w_devices w' !!! d) = d_kref x - 1 /\
   w_padapters w' =
     <[i := {| pa_process := pa_process (w_padapters w !!! i);
               pa_devices := Channel.list_del d (pa_devices (w_padapters w !!! i)) |}]>
       (w_padapters w)).
Proof.
  split.
  - apply dxgadapter_stop_when_stopping, dxgadapter_stop_sets_stopping.
  - apply dxgdevice_destroy_not_active; [exact Hd | | exact Ha].
    destruct (d_state (w_devices w !!! d)); [reflexivity | congruence | reflexivity].
Qed.

Lemma reentrant_stop_and_destroy_witness :
  let w := example_world (example_device DXGOBJECTSTATE_DESTROYED true 7 []) in
  ((0 < length (w_devices w))%nat /\
   d_state (w_devices w !!! 0%nat) <> DXGOBJECTSTATE_ACTIVE /\
   d_has_adapter (w_devices w !!! 0%nat) = true) /\
  (let w1 := (dxgadapter_stop w).2 in
   dxgadapter_stop w1 =
     (tt, mk_world (w_adapter_state w1) (w_stopping_adapter w1) (w_adapter_kref w1)
            (w_padapters w1) (w_devices w1) (w_allocs w1) (w_resources w1)
            (w_next_ctx w1) (w_htables w1)
            (w_trace w1 ++ [EvAdapterLock; EvAdapterUnlock]))).
Proof.
  intros w.
  assert (H0 : (0 < length (w_devices w))%nat) by (vm_compute; lia).
  assert (H1 : d_state (w_devices w !!! 0%nat) <> DXGOBJECTSTATE_ACTIVE) by (vm_compute; discriminate).
  assert (H2 : d_has_adapter (w_devices w !!! 0%nat) = true) by reflexivity.
  split; [split; [exact H0 | split; [exact H1 | exact H2]] |].
  exact (proj1 (reentrant_stop_and_destroy w 0%nat H0 H1 H2)).
Defined.

(** C5, counterexample: destroying a device in state CREATED (created but
    not yet given a host handle) drops the adapter's reference count from
    2 to 1. *)
Lemma destroy_created_device_drops_adapter_ref :
  let w := example_world (example_device DXGOBJECTSTATE_CREATED false 0 []) in
  d_state (w_devices w !!! 0%nat) = DXGOBJECTSTATE_CREATED /\
  w_adapter_kref w = 2 /\
  w_adapter_kref (dxgdevice_destroy 0%nat w).2 = 1 /\
  w_trace (dxgdevice_destroy 0%nat w).2 =
    [EvDevLock 0; EvDeviceListLock 0; EvDeviceListUnlock 0;
     EvPutAdapter (ByDevice 0); EvDevUnlock 0; EvPutDevice 0 ByCaller;
     EvFreeDevice 0].
Proof. vm_compute. repeat split. Qed.

Global Instance before_handle_free_preorder : PreOrder before_handle_free.
Proof.
  split.
  - intros w. split; [exists []; split; [symmetry; apply app_nil_r | constructor] |].
    split; [reflexivity | intros e; split; reflexivity].
  - intros w1 w2 w3 [[tr1 [E1 F1]] [S1 H1]] [[tr2 [E2 F2]] [S2 H2]].
    split; [exists (tr1 ++ tr2); split; [rewrite E2, E1, app_assoc; reflexivity | apply Forall_app; split; assumption] |].
    split; [congruence | intros e; destruct (H1 e), (H2 e); split; congruence].
Qed.

Global Instance no_teardown_preorder : PreOrder no_teardown.
Proof.
  split.
  - intros w. exists []. split; [symmetry; apply app_nil_r | constructor].
  - intros w1 w2 w3 [tr1 [E1 F1]] [tr2 [E2 F2]].
    exists (tr1 ++ tr2); split; [rewrite E2, E1, app_assoc; reflexivity | apply Forall_app; split; assumption].
Qed.

Lemma lookup_total_insert_proj {A B} `{Inhabited A} (proj : A -> B) (g : A -> A)
    (l : list A) (i j : nat) :
  (forall y, proj (g y) = proj y) -> proj (<[i := g (l !!! i)]> l !!! j) = proj (l !!! j).
Proof.
  intros Hg. rewrite list_lookup_total_insert.
  case_decide as Hc; [destruct Hc as [-> _]; apply Hg | reflexivity].
Qed.

Ltac trace_step :=
  first [ exists []; split; [symmetry; apply app_nil_r | constructor]
        | eexists; split; [reflexivity | repeat constructor] ].

Ltac prim_before :=
  unfold before_handle_free; cbv beta; cbn [mk_world w_trace w_adapter_state w_devices];
  split; [trace_step |
  split; [reflexivity | intros ?; split;
    first [reflexivity | apply lookup_total_insert_proj; intros ?; reflexivity]]].

Ltac prim_after := unfold no_teardown; cbv beta; cbn [mk_world w_trace]; trace_step.

Lemma run_bind {A B} (m : M A) (f : A -> M B) (w : world) :
  mbind f m w = f (m w).1 (m w).2.
Proof. unfold mbind, M_bind. destruct (m w); reflexivity. Qed.

Lemma run_assoc {A B C} (m : M A) (f : A -> M B) (g : B -> M C) (w : world) :
  mbind g (mbind f m) w = mbind (fun x => mbind g (f x)) m w.
Proof. unfold mbind, M_bind. destruct (m w); reflexivity. Qed.

Ltac step_keep R prim Kacc :=
  rewrite ?run_assoc;
  match goal with |- context [mbind ?f ?m ?w] =>
    let K := fresh "K" in
    assert (K : keeps R m) by (keeps_by prim);
    specialize (K w);
    rewrite (run_bind m f w); cbv beta;
    let x := fresh "x" in let w' := fresh "w" in
    destruct (m w) as [x w']; cbn [fst snd] in K |- *;
    let Kn := fresh "K" in
    pose proof (transitivity Kacc K) as Kn; clear Kacc K; rename Kn into Kacc
  end.

Lemma run_modify {A} (g : world -> world) (f : unit -> M A) (w : world) :
  mbind f (modify g) w = f tt (g w).
Proof. reflexivity. Qed.

Lemma run_ret {A B} (x : A) (f : A -> M B) (w : world) : mbind f (mret x) w = f x w.
Proof. reflexivity. Qed.

Lemma run_get {A} (f : world -> M A) (w : world) : mbind f get w = f w w.
Proof. reflexivity. Qed.

Lemma run_dev {A} (d : nat) (f : device -> M A) (w : world) :
  mbind f (dev d) w = f (w_devices w !!! d) w.
Proof. reflexivity. Qed.

(** One step of a straight-line computation. *)
Ltac step_run :=
  rewrite ?run_assoc;
  first [ rewrite run_dev | rewrite run_get | rewrite run_ret | rewrite run_modify ];
  cbv beta;
  cbn [mk_world w_trace w_devices w_adapter_state w_stopping_adapter w_adapter_kref
       w_padapters w_allocs w_resources w_next_ctx w_htables].

Theorem device_handle_freed_before_destroy_rpc (d : nat) (w : world)
  (Hact : d_state (w_devices w !!! d) = DXGOBJECTSTATE_ACTIVE)
  (Hv : d_handle_valid (w_devices w !!! d) = true)
  (Hh : d_handle (w_devices w !!! d) <> 0) :
  let p := d_process (w_devices w !!! d) in
  let h := d_handle (w_devices w !!! d) in
  exists tr post,
    w_trace (dxgdevice_destroy d w).2 =
      w_trace w ++ [EvDevLock d] ++ tr ++
      [EvHtLock p; EvFreeHandle p HMGRENTRY_TYPE_DXGDEVICE h; EvHtUnlock p;
       EvDevUnlock d; EvAdapterLockShared] ++
      (if adapter_active (w_adapter_state w)
       then [EvRpcDestroyDevice h; EvAdapterUnlockShared]
       else [EvAdapterUnlockShared]) ++
      [EvDevLock d] ++ post /\
    Forall (fun e => device_teardown_event e || device_unlock_event e = false) tr /\
    Forall (fun e => device_teardown_event e = false) post.
Proof.
  intros p h. unfold dxgdevice_destroy, emit.
  step_run. step_run. step_run. rewrite Hact. cbn [objstate_eqb].
  match goal with |- context [mbind _ _ ?w0] =>
    assert (Kacc : before_handle_free w0 w0) by reflexivity end.
  do 14 step_keep before_handle_free prim_before Kacc.
  destruct Kacc as [[tr [Etr Ftr]] [Sad Hdev]]. destruct (Hdev d) as [Ehv Eh]. clear Hdev.
  cbn [mk_world w_devices w_trace w_adapter_state] in Etr, Sad, Ehv, Eh.
  step_run. step_run. rewrite Ehv, Hv.
  unfold hmgrtable_free_handle, upd_dev, map_devices, map_htables, emit,
    dxgadapter_acquire_lock_shared, dxgvmb_send_destroy_device.
  do 5 step_run.
  rewrite Eh, (proj2 (Z.eqb_neq _ _) Hh). cbn [negb]. unfold emit.
  do 3 step_run. rewrite Sad.
  destruct (adapter_active (w_adapter_state w)) eqn:Eact;
    unfold skip, emit; repeat step_run;
  (match goal with |- exists _ _, w_trace (?c ?W).2 = _ /\ _ =>
     assert (Kc : keeps no_teardown c) by keeps_by prim_after;
     destruct (Kc W) as [post [Ep Fp]] end);
  exists tr, post; (split; [| split; assumption]);
  rewrite Ep; cbn [mk_world w_trace]; rewrite Etr; rewrite <- ?app_assoc; reflexivity.
Qed.

Lemma device_handle_freed_before_destroy_rpc_witness :
  let w := example_world (example_device DXGOBJECTSTATE_ACTIVE true 7
             [{| ctx_id := 0; ctx_handle := 9; ctx_hwqueues := [] |}]) in
  (d_state (w_devices w !!! 0%nat) = DXGOBJECTSTATE_ACTIVE /\
   d_handle_valid (w_devices w !!! 0%nat) = true /\
   d_handle (w_devices w !!! 0%nat) <> 0) /\
  (let p := d_process (w_devices w !!! 0%nat) in
   let h := d_handle (w_devices w !!! 0%nat) in
   exists tr post,
     w_trace (dxgdevice_destroy 0%nat w).2 =
       w_trace w ++ [EvDevLock 0] ++ tr ++
       [EvHtLock p; EvFreeHandle p HMGRENTRY_TYPE_DXGDEVICE h; EvHtUnlock p;
        EvDevUnlock 0; EvAdapterLockShared] ++
       (if adapter_active (w_adapter_state w)
        then [EvRpcDestroyDevice h; EvAdapterUnlockShared]
        else [EvAdapterUnlockShared]) ++
       [EvDevLock 0] ++ post /\
     Forall (fun e => device_teardown_event e || device_unlock_event e = false) tr /\
     Forall (fun e => device_teardown_event e = false) post).
Proof.
  intros w.
  assert (H0 : d_state (w_devices w !!! 0%nat) = DXGOBJECTSTATE_ACTIVE) by reflexivity.
  assert (H1 : d_handle_valid (w_devices w !!! 0%nat) = true) by reflexivity.
  assert (H2 : d_handle (w_devices w !!! 0%nat) <> 0) by (vm_compute; discriminate).
  split; [split; [exact H0 | split; [exact H1 | exact H2]] |].
  exact (device_handle_freed_before_destroy_rpc 0%nat w H0 H1 H2).
Defined.

Global Instance ref_frame_preorder P : PreOrder (ref_frame P).
Proof.
  split.
  - intros w. split; [exists []; split; [symmetry; apply app_nil_r | constructor] |].
    split; [reflexivity | intros e; reflexivity].
  - intros w1 w2 w3 [[tr1 [E1 F1]] [K1 H1]] [[tr2 [E2 F2]] [K2 H2]].
    split; [exists (tr1 ++ tr2); split; [rewrite E2, E1, app_assoc; reflexivity | apply Forall_app; split; assumption] |].
    split; [congruence | intros e; rewrite H2; apply H1].
Qed.

Global Instance ref_frame_ctx_preorder P : PreOrder (ref_frame_ctx P).
Proof.
  split.
  - intros w. split; [reflexivity | intros e; reflexivity].
  - intros w1 w2 w3 [F1 C1] [F2 C2]. split; [etransitivity; eassumption | intros e; rewrite C2; apply C1].
Qed.

Ltac prim_ref :=
  unfold ref_frame; cbv beta; cbn [mk_world w_trace w_adapter_kref w_devices];
  split; [trace_step |
  split; [reflexivity | intros ?;
    first [reflexivity | apply lookup_total_insert_proj; intros ?; reflexivity]]].

Ltac prim_ref_ctx :=
  unfold ref_frame_ctx; split; [prim_ref | cbv beta; cbn [mk_world w_devices]; intros ?;
    first [reflexivity | apply lookup_total_insert_proj; intros ?; reflexivity]].

Lemma filter_Forall_false {A} (P : A -> bool) (l : list A) :
  Forall (fun e => P e = false) l -> List.filter P l = [].
Proof. induction 1 as [| x l Hx _ IH]; simpl; [reflexivity | rewrite Hx; exact IH]. Qed.

Lemma filter_app' {A} (P : A -> bool) (l1 l2 : list A) :
  List.filter P (l1 ++ l2) = List.filter P l1 ++ List.filter P l2.
Proof. induction l1 as [| x l1 IH]; simpl; [reflexivity | destruct (P x); simpl; rewrite IH; reflexivity]. Qed.

Lemma context_destroy_refs (p d : nat) (c : context) (w : world) :
  let w' := (dxgcontext_destroy p d c w).2 in
  (exists tr, w_trace w' = w_trace w ++ tr /\
     List.filter (parent_ref_event d) tr = [EvPutDevice d (ByContext (ctx_id c))]) /\
  w_adapter_kref w' = w_adapter_kref w /\
  (forall e, d_has_adapter (w_devices w' !!! e) = d_has_adapter (w_devices w !!! e)).
Proof.
  intros w'. subst w'. unfold dxgcontext_destroy, kref_put_device, emit.
  assert (Kacc : ref_frame (parent_ref_event d) w w) by reflexivity.
  do 2 step_keep (ref_frame (parent_ref_event d)) prim_ref Kacc.
  destruct Kacc as [[tr1 [E1 F1]] [K1 H1]].
  step_run.
  match goal with |- context [mbind _ _ ?w0] =>
    assert (Kacc : ref_frame (parent_ref_event d) w0 w0) by reflexivity end.
  do 4 step_keep (ref_frame (parent_ref_event d)) prim_ref Kacc.
  destruct Kacc as [[tr2 [E2 F2]] [K2 H2]].
  cbn [mk_world w_trace w_adapter_kref w_devices] in E2, K2, H2.
  unfold modify. cbn [fst snd mk_world w_trace w_adapter_kref w_devices].
  split; [| split; [congruence | intros e; rewrite H2; apply H1]].
  exists (tr1 ++ EvPutDevice d (ByContext (ctx_id c)) :: tr2 ++ [EvPutContext (ctx_id c)]).
  split; [rewrite E2, E1, <- !app_assoc; reflexivity |].
  rewrite filter_app', (filter_Forall_false _ _ F1). cbn.
  unfold parent_ref_event at 1. cbn. rewrite Nat.eqb_refl.
  rewrite filter_app'. fold (parent_ref_event d).
  rewrite (filter_Forall_false _ _ F2). reflexivity.
Qed.

Lemma iter_context_destroy_refs (p d : nat) (cs : list context) (w : world) :
  let w' := (iter (dxgcontext_destroy p d) cs w).2 in
  (exists tr, w_trace w' = w_trace w ++ tr /\
     List.filter (parent_ref_event d) tr =
       map (fun c => EvPutDevice d (ByContext (ctx_id c))) cs) /\
  w_adapter_kref w' = w_adapter_kref w /\
  (forall e, d_has_adapter (w_devices w' !!! e) = d_has_adapter (w_devices w !!! e)).
Proof.
  revert w. induction cs as [| c cs IH]; intros w w'; subst w'.
  - split; [exists []; split; [symmetry; apply app_nil_r | reflexivity] |].
    split; [reflexivity | intros e; reflexivity].
  - cbn [iter]. rewrite run_bind.
    destruct (context_destroy_refs p d c w) as [[tr1 [E1 F1]] [K1 H1]].
    destruct (dxgcontext_destroy p d c w) as [u w1]. cbn [fst snd] in *.
    destruct (IH w1) as [[tr2 [E2 F2]] [K2 H2]].
    split; [| split; [congruence | intros e; rewrite H2; apply H1]].
    exists (tr1 ++ tr2). split; [rewrite E2, E1, app_assoc; reflexivity |].
    rewrite filter_app', F1, F2. reflexivity.
Qed.

Theorem parent_reference_counts (p d : nat) (w wd : world)
  (Hd : (d < length (w_devices w))%nat)
  (Hact : d_state (w_devices wd !!! d) = DXGOBJECTSTATE_ACTIVE)
  (Ha : d_has_adapter (w_devices wd !!! d) = true) :
  (let w' := (dxgdevice_create p true w).2 in
   w_adapter_kref w' = w_adapter_kref w + 1 /\
   exists tr, w_trace w' = w_trace w ++ tr /\
     List.filter adapter_ref_event tr = [EvGetAdapter (ByDevice (length (w_devices w)))]) /\
  (let w' := (dxgcontext_create d true w).2 in
   d_kref (w_devices w' !!! d) = d_kref (w_devices w !!! d) + 1 /\
   exists tr, w_trace w' = w_trace w ++ tr /\
     List.filter (parent_ref_event d) tr = [EvGetDevice d (ByContext (w_next_ctx w))]) /\
  (let w' := (dxgdevice_destroy d wd).2 in
   w_adapter_kref w' = w_adapter_kref wd - 1 /\
   exists tr, w_trace w' = w_trace wd ++ tr /\
     List.filter (parent_ref_event d) tr =
       map (fun c => EvPutDevice d (ByContext (ctx_id c))) (d_contexts (w_devices wd !!! d)) ++
       [EvPutAdapter (ByDevice d)]).
Proof.
  split; [| split].
  - unfold dxgdevice_create, kref_get_adapter, emit, map_devices, add_adapter_kref. cbn [negb].
    do 4 step_run.
    match goal with |- w_adapter_kref (?c ?W).2 = _ /\ _ =>
      assert (Kc : keeps (ref_frame adapter_ref_event) c) by keeps_by prim_ref;
      destruct (Kc W) as [[tr [E F]] [K _]] end.
    cbn [mk_world w_trace w_adapter_kref] in E, K.
    split; [exact K |].
    exists (EvGetAdapter (ByDevice (length (w_devices w))) :: tr).
    split; [rewrite E, <- app_assoc; reflexivity |].
    cbn. rewrite (filter_Forall_false _ _ F). reflexivity.
  - intros w'. subst w'.
    unfold dxgcontext_create, kref_get_device, dxgdevice_add_context, emit, upd_dev,
      map_devices, set_next_ctx. cbn [negb].
    repeat step_run. unfold mret, M_ret. cbn [fst snd mk_world w_devices w_trace].
    split.
    + rewrite !list_lookup_total_insert. dec_tac. all: lia.
    + eexists. split; [rewrite <- !app_assoc; reflexivity |].
      cbn. unfold parent_ref_event. cbn. rewrite Nat.eqb_refl. reflexivity.
  - intros w'. subst w'.
    unfold dxgdevice_destroy, emit.
    step_run. step_run. step_run. rewrite Hact. cbn [objstate_eqb].
    match goal with |- context [mbind _ _ ?w0] =>
      assert (Kacc : ref_frame_ctx (parent_ref_event d) w0 w0) by reflexivity end.
    do 11 step_keep (ref_frame_ctx (parent_ref_event d)) prim_ref_ctx Kacc.
    step_run. rewrite ?run_assoc.
    match goal with |- context [mbind ?f (iter (dxgcontext_destroy ?p' ?d') ?cs) ?W] =>
      destruct (iter_context_destroy_refs p' d' cs W) as [[trc [Ec Fc]] [Kc Hc]];
      rewrite (run_bind (iter (dxgcontext_destroy p' d') cs) f W); cbv beta;
      destruct (iter (dxgcontext_destroy p' d') cs W) as [u wc]; cbn [fst snd] in *
    end.
    match goal with |- context [mbind _ _ ?w0] =>
      assert (Kacc2 : ref_frame (parent_ref_event d) w0 w0) by reflexivity end.
    do 6 step_keep (ref_frame (parent_ref_event d)) prim_ref Kacc2.
    step_run.
    destruct Kacc as [[[tr1 [E1 F1]] [K1 H1]] C1].
    destruct Kacc2 as [[tr2 [E2 F2]] [K2 H2]].
    cbn [mk_world w_trace w_adapter_kref w_devices] in E1, K1, H1, C1.
    rewrite H2, Hc, H1, Ha. rewrite C1 in Fc.
    match goal with |- context [mbind _ _ ?w0] =>
      assert (Kacc3 : ref_frame (parent_ref_event d) w0 w0) by reflexivity end.
    step_keep (ref_frame (parent_ref_event d)) prim_ref Kacc3.
    destruct Kacc3 as [[tr3 [E3 F3]] [K3 _]].
    unfold kref_put_adapter, add_adapter_kref, emit. step_run. step_run.
    match goal with |- w_adapter_kref (?c ?W).2 = _ /\ _ =>
      assert (Kf : keeps (ref_frame (parent_ref_event d)) c) by keeps_by prim_ref;
      destruct (Kf W) as [[tr4 [E4 F4]] [K4 _]] end.
    cbn [mk_world w_trace w_adapter_kref] in E4, K4.
    split; [lia |].
    exists ([EvDevLock d] ++ tr1 ++ trc ++ tr2 ++ tr3 ++ [EvPutAdapter (ByDevice d)] ++ tr4).
    split; [rewrite E4, E3, E2, Ec, E1, <- !app_assoc; reflexivity |].
    rewrite !filter_app', (filter_Forall_false _ _ F1), (filter_Forall_false _ _ F2),
      (filter_Forall_false _ _ F3), (filter_Forall_false _ _ F4), Fc.
    cbn. reflexivity.
Qed.

Lemma parent_reference_counts_witness :
  let w := example_world (example_device DXGOBJECTSTATE_ACTIVE true 7
             [{| ctx_id := 0; ctx_handle := 9; ctx_hwqueues := [] |}]) in
  ((0 < length (w_devices w))%nat /\
   d_state (w_devices w !!! 0%nat) = DXGOBJECTSTATE_ACTIVE /\
   d_has_adapter (w_devices w !!! 0%nat) = true) /\
  ((let w' := (dxgdevice_create 0%nat true w).2 in
    w_adapter_kref w' = w_adapter_kref w + 1 /\
    exists tr, w_trace w' = w_trace w ++ tr /\
      List.filter adapter_ref_event tr = [EvGetAdapter (ByDevice (length (w_devices w)))]) /\
   (let w' := (dxgcontext_create 0%nat true w).2 in
    d_kref (w_devices w' !!! 0%nat) = d_kref (w_devices w !!! 0%nat) + 1 /\
    exists tr, w_trace w' = w_trace w ++ tr /\
      List.filter (parent_ref_event 0%nat) tr = [EvGetDevice 0 (ByContext (w_next_ctx w))]) /\
   (let w' := (dxgdevice_destroy 0%nat w).2 in
    w_adapter_kref w' = w_adapter_kref w - 1 /\
    exists tr, w_trace w' = w_trace w ++ tr /\
      List.filter (parent_ref_event 0%nat) tr =
        map (fun c => EvPutDevice 0 (ByContext (ctx_id c))) (d_contexts (w_devices w !!! 0%nat)) ++
        [EvPutAdapter (ByDevice 0)])).
Proof.
  intros w.
  assert (H0 : (0 < length (w_devices w))%nat) by (vm_compute; lia).
  assert (H1 : d_state (w_devices w !!! 0%nat) = DXGOBJECTSTATE_ACTIVE) by reflexivity.
  assert (H2 : d_has_adapter (w_devices w !!! 0%nat) = true) by reflexivity.
  split; [split; [exact H0 | split; [exact H1 | exact H2]] |].
  exact (parent_reference_counts 0%nat 0%nat w w H0 H1 H2).
Defined.

Lemma assign_alloc_handles_all_ok (env : createalloc_env) (p : nat)
    (l : list (nat * Z)) (ret : Z) (w : world)
  (Hok : forall h, assign_ok env HMGRENTRY_TYPE_DXGALLOCATION h = true)
  (Hp : (p < length (w_htables w))%nat) :
  (assign_alloc_handles env p l ret w).1 = (match l with [] => ret | _ => 0 end) /\
  w_trace (assign_alloc_handles env p l ret w).2 =
    w_trace w ++ map (fun ah => EvAssignHandle p HMGRENTRY_TYPE_DXGALLOCATION ah.2) l /\
  w_htables (assign_alloc_handles env p l ret w).2 !!! p =
    w_htables w !!! p ++ map (fun ah => (HMGRENTRY_TYPE_DXGALLOCATION, ah.2)) l /\
  length (w_htables (assign_alloc_handles env p l ret w).2) = length (w_htables w).
Proof.
  revert ret w Hp. induction l as [| ah l IH]; intros ret w Hp.
  - cbn. rewrite !app_nil_r. repeat split.
  - destruct ah as [a h]. cbn [assign_alloc_handles]. unfold hmgrtable_assign_handle. rewrite Hok.
    unfold emit, map_htables, upd_alloc, map_allocs.
    do 3 step_run. cbn [Z.ltb Z.compare].
    do 2 step_run.
    match goal with |- context [assign_alloc_handles env p l 0 ?W] =>
      assert (HpW : (p < length (w_htables W))%nat) by (cbn; rewrite length_insert; exact Hp);
      destruct (IH 0 W HpW) as [R1 [R2 [R3 R4]]] end.
    rewrite R1, R2, R3, R4. cbn [mk_world w_trace w_htables].
    rewrite length_insert, list_lookup_total_insert. dec_tac.
    repeat split; [destruct l; reflexivity | rewrite <- app_assoc; reflexivity |
                   rewrite <- app_assoc; reflexivity].
Qed.

Lemma map_snd_combine {A B} (l1 : list A) (l2 : list B) :
  (length l1 <= length l2)%nat -> map snd (combine l1 l2) = take (length l1) l2.
Proof.
  revert l2. induction l1 as [| x l1 IH]; intros [| y l2] Hl; cbn in *; try lia; try reflexivity.
  rewrite IH by lia. reflexivity.
Qed.

(** C1: when the resource handle cannot be registered but every
    allocation handle can, [process_allocation_handles] overwrites the
    failure with the result of the last allocation registration:
    [create_local_allocations] returns 0, runs no cleanup (no destroy
    RPC, no handle freed) and leaves the allocation handles registered
    while the resource handle is not. *)
Theorem resource_handle_failure_skips_unwind (env : createalloc_env) (p d : nat)
    (args : createalloc_args) (result : createalloc_return) (r : nat)
    (dxgalloc : list nat) (w : world)
  (Hinit : init_message_ok env = true)
  (Hres : ca_create_resource args = true)
  (Hcopy : copy_resource_ok env = true)
  (Hsteps : first_failing_step (alloc_step env) 0 (length dxgalloc) = None)
  (Hrassign : assign_ok env HMGRENTRY_TYPE_DXGRESOURCE (cr_resource result) = false)
  (Haassign : forall h, assign_ok env HMGRENTRY_TYPE_DXGALLOCATION h = true)
  (Hshare : copy_global_share_ok env = true)
  (Hn : (0 < length dxgalloc <= length (cr_allocations result))%nat)
  (Hp : (p < length (w_htables w))%nat) :
  let handles := take (length dxgalloc) (cr_allocations result) in
  (create_local_allocations env p d args result (Some r) dxgalloc w).1 = 0 /\
  w_trace (create_local_allocations env p d args result (Some r) dxgalloc w).2 =
    w_trace w ++ [EvHtLock p] ++
    map (fun h => EvAssignHandle p HMGRENTRY_TYPE_DXGALLOCATION h) handles ++ [EvHtUnlock p] /\
  w_htables (create_local_allocations env p d args result (Some r) dxgalloc w).2 !!! p =
    w_htables w !!! p ++ map (fun h => (HMGRENTRY_TYPE_DXGALLOCATION, h)) handles.
Proof.
  intros handles.
  set (Q := fun rw : Z * world =>
    rw.1 = 0 /\
    w_trace rw.2 = w_trace w ++ [EvHtLock p] ++
      map (fun h => EvAssignHandle p HMGRENTRY_TYPE_DXGALLOCATION h) handles ++ [EvHtUnlock p] /\
    w_htables rw.2 !!! p =
      w_htables w !!! p ++ map (fun h => (HMGRENTRY_TYPE_DXGALLOCATION, h)) handles).
  change (Q (create_local_allocations env p d args result (Some r) dxgalloc w)).
  unfold create_local_allocations. rewrite Hinit, Hres, Hcopy, Hsteps. cbn [negb andb].
  unfold process_allocation_handles. rewrite Hres.
  unfold hmgrtable_assign_handle. rewrite Hrassign.
  unfold emit, skip.
  do 2 step_run.
  replace (- EINVAL <? 0) with true by reflexivity.
  do 2 step_run. rewrite ?run_assoc.
  match goal with |- context [mbind ?f (assign_alloc_handles env p ?l ?r0) ?W] =>
    destruct (assign_alloc_handles_all_ok env p l r0 W Haassign Hp) as [R1 [R2 [R3 _]]];
    rewrite (run_bind (assign_alloc_handles env p l r0) f W); cbv beta;
    rewrite R1; clear R1; cbn [w_trace w_htables mk_world] in R2, R3
  end.
  assert (Hc : length (combine dxgalloc (cr_allocations result)) = length dxgalloc)
    by (rewrite length_combine; lia).
  replace (match combine dxgalloc (cr_allocations result) with [] => - EINVAL | _ => 0 end)
    with 0 by (destruct (combine dxgalloc (cr_allocations result)); [cbn in Hc; lia | reflexivity]).
  step_run. cbn [Z.ltb Z.compare]. rewrite Hshare. step_run.
  unfold create_local_allocations_cleanup, mbind, M_bind, mret, M_ret.
  cbn [Z.ltb Z.compare].
  unfold Q; cbn [fst snd w_trace w_htables mk_world]. rewrite R2, R3.
  unfold handles. rewrite <- (map_snd_combine dxgalloc (cr_allocations result)) by lia.
  rewrite !map_map. rewrite <- !app_assoc. repeat split.
Qed.

Lemma resource_handle_failure_skips_unwind_witness :
  let env := {| init_message_ok := true; copy_resource_ok := true;
                alloc_step := fun _ => 0;
                assign_ok := fun t _ => negb (hmgrentry_type_eqb t HMGRENTRY_TYPE_DXGRESOURCE);
                copy_global_share_ok := true |} in
  let args := {| ca_create_resource := true; ca_device := 1; ca_resource := 2 |} in
  let result := {| cr_resource := 5; cr_allocations := [10; 11; 12] |} in
  let w := mk_world DXGADAPTER_STATE_ACTIVE false 1 [] [] [] [] 0 [[]] [] in
  (init_message_ok env = true /\ ca_create_resource args = true /\
   copy_resource_ok env = true /\
   first_failing_step (alloc_step env) 0 3 = None /\
   assign_ok env HMGRENTRY_TYPE_DXGRESOURCE (cr_resource result) = false /\
   (forall h, assign_ok env HMGRENTRY_TYPE_DXGALLOCATION h = true) /\
   copy_global_share_ok env = true) /\
  (create_local_allocations env 0 0 args result (Some 0%nat) [0; 1; 2]%nat w).1 = 0 /\
  w_trace (create_local_allocations env 0 0 args result (Some 0%nat) [0; 1; 2]%nat w).2 =
    [EvHtLock 0; EvAssignHandle 0 HMGRENTRY_TYPE_DXGALLOCATION 10;
     EvAssignHandle 0 HMGRENTRY_TYPE_DXGALLOCATION 11;
     EvAssignHandle 0 HMGRENTRY_TYPE_DXGALLOCATION 12; EvHtUnlock 0] /\
  w_htables (create_local_allocations env 0 0 args result (Some 0%nat) [0; 1; 2]%nat w).2 !!! 0%nat =
    [(HMGRENTRY_TYPE_DXGALLOCATION, 10); (HMGRENTRY_TYPE_DXGALLOCATION, 11);
     (HMGRENTRY_TYPE_DXGALLOCATION, 12)].
Proof.
  intros env args result w.
  assert (H0 : init_message_ok env = true) by reflexivity.
  assert (H1 : ca_create_resource args = true) by reflexivity.
  assert (H2 : copy_resource_ok env = true) by reflexivity.
  assert (H3 : first_failing_step (alloc_step env) 0 (length [0; 1; 2]%nat) = None)
    by reflexivity.
  assert (H4 : assign_ok env HMGRENTRY_TYPE_DXGRESOURCE (cr_resource result) = false)
    by reflexivity.
  assert (H5 : forall h, assign_ok env HMGRENTRY_TYPE_DXGALLOCATION h = true)
    by (intros; reflexivity).
  assert (H6 : copy_global_share_ok env = true) by reflexivity.
  assert (H7 : (0 < length [0; 1; 2]%nat <= length (cr_allocations result))%nat)
    by (cbn; lia).
  assert (H8 : (0 < length (w_htables w))%nat) by (cbn; lia).
  split; [repeat split; assumption |].
  exact (resource_handle_failure_skips_unwind env 0 0 args result 0 [0; 1; 2]%nat w
           H0 H1 H2 H3 H4 H5 H6 H7 H8).
Defined.

(** When the process has no binding to the adapter,
    [dxgprocess_adapter_add_device] fails and [dxgdevice_create] returns
    NULL. The caller's reference on the new device is dropped, which frees
    it, but the reference the device took on the adapter is never
    dropped: the adapter count stays one higher. *)
Theorem device_create_failure_keeps_adapter_ref (p : nat) (w : world)
  (Hnf : list_find (fun pa => pa_process pa = p) (w_padapters w) = None) :
  let n := length (w_devices w) in
  (dxgdevice_create p true w).1 = None /\
  w_adapter_kref (dxgdevice_create p true w).2 = w_adapter_kref w + 1 /\
  w_trace (dxgdevice_create p true w).2 =
    w_trace w ++ [EvGetAdapter (ByDevice n); EvProcessAdapterLock;
                  EvProcessAdapterUnlock; EvPutDevice n ByCaller; EvFreeDevice n].
Proof.
  intros n.
  set (Q := fun rw : option nat * world =>
    rw.1 = None /\ w_adapter_kref rw.2 = w_adapter_kref w + 1 /\
    w_trace rw.2 = w_trace w ++ [EvGetAdapter (ByDevice n); EvProcessAdapterLock;
                  EvProcessAdapterUnlock; EvPutDevice n ByCaller; EvFreeDevice n]).
  change (Q (dxgdevice_create p true w)).
  unfold dxgdevice_create, kref_get_adapter, dxgprocess_adapter_add_device,
    kref_put_device, emit, map_devices, add_adapter_kref, upd_dev, skip.
  cbn [negb].
  repeat step_run. rewrite Hnf.
  repeat step_run.
  replace (- EINVAL <? 0) with true by reflexivity.
  repeat step_run. unfold map_devices. repeat step_run. fold n.
  match goal with |- context [(w_devices w ++ [?x]) !!! n] =>
    assert (Hx : (w_devices w ++ [x]) !!! n = x)
      by (apply list_lookup_total_correct; rewrite lookup_app_r by (unfold n; lia);
          rewrite Nat.sub_diag; reflexivity);
    assert (Hl : (n < length (w_devices w ++ [x]))%nat)
      by (rewrite length_app; cbn; unfold n; lia)
  end.
  rewrite list_lookup_total_insert, decide_True by (split; [reflexivity | exact Hl]).
  rewrite Hx. cbn [dev_kref mk_device d_kref]. replace (1 + -1 =? 0) with true by reflexivity.
  unfold mbind, M_bind, mret, M_ret. cbn.
  unfold Q; cbn. rewrite <- !app_assoc. repeat split.
Qed.

Lemma device_create_failure_keeps_adapter_ref_witness :
  let w := mk_world DXGADAPTER_STATE_ACTIVE false 1 [] [] [] [] 0 [[]] [] in
  list_find (fun pa => pa_process pa = 3%nat) (w_padapters w) = None /\
  (dxgdevice_create 3 true w).1 = None /\
  w_adapter_kref (dxgdevice_create 3 true w).2 = 2 /\
  w_trace (dxgdevice_create 3 true w).2 =
    [EvGetAdapter (ByDevice 0); EvProcessAdapterLock; EvProcessAdapterUnlock;
     EvPutDevice 0 ByCaller; EvFreeDevice 0].
Proof.
  intros w.
  assert (H0 : list_find (fun pa => pa_process pa = 3%nat) (w_padapters w) = None)
    by reflexivity.
  split; [exact H0 |].
  exact (device_create_failure_keeps_adapter_ref 3 w H0).
Defined.

End GraphFacts.


(* ------------------------------------------------------------------ *)
(** ** Lock-order tracking *)

Module LockOrderFacts.
Import WStr LockOrder.

Lemma set_info_same p f s : (p < length (infos s))%nat ->
  infos (set_info p f s) !!! p = f (infos s !!! p).
Proof. intros H. unfold set_info; cbn. rewrite list_lookup_total_insert_eq; auto. Qed.

Lemma set_info_other p q f s : q <> p ->
  infos (set_info p f s) !!! q = infos s !!! q.
Proof. intros H. unfold set_info; cbn. rewrite list_lookup_total_insert_ne; auto. Qed.

Lemma infos_assert b s : infos (dxgkrnl_assert b s) = infos s.
Proof. destruct b; reflexivity. Qed.
Lemma list_assert b s : thread_info_list (dxgkrnl_assert b s) = thread_info_list s.
Proof. destruct b; reflexivity. Qed.
Lemma memory_assert b s : dxg_memory_threadinfo (dxgkrnl_assert b s) = dxg_memory_threadinfo s.
Proof. destruct b; reflexivity. Qed.
Lemma asserts_assert b s :
  asserts (dxgkrnl_assert b s) = if b then asserts s else S (asserts s).
Proof. destruct b; reflexivity. Qed.

Lemma set_info_assert p f b s :
  set_info p f (dxgkrnl_assert b s) = dxgkrnl_assert b (set_info p f s).
Proof. destruct b; reflexivity. Qed.

Lemma length_set_info p f s : length (infos (set_info p f s)) = length (infos s).
Proof. apply length_insert. Qed.

Ltac lenside := repeat (rewrite ?length_set_info, ?infos_assert); lia.

Lemma release_outcome cur kz order s p :
  find_thread (infos s) (thread_info_list s) cur = Some p ->
  (p < length (infos s))%nat ->
  1 <= refcount (infos s !!! p) ->
  let t := infos s !!! p in
  let index := current_lock_index t - 1 in
  let i := find_order (Z.to_nat (index + 1)) (lock_info t) order index in
  let li' := if 0 <=? i then memmove (lock_info t) i index (index - i) else lock_info t in
  dxglockorder_release cur kz order s =
  Some {| infos := <[p := {| thread := thread t; refcount := refcount t;
                             lock_held := lock_held t; current_lock_index := index;
                             lock_info := upd li' index 0; freed := freed t |}]> (infos s);
          thread_info_list := thread_info_list s;
          dxg_memory_threadinfo := dxg_memory_threadinfo s;
          asserts := bump (negb (i <? 0)) (bump (negb (index <? 0)) (asserts s)) |}.
Proof.
  intros Hf Hl Hr t index i li'.
  unfold dxglockorder_release, dxglockorder_get_thread. rewrite Hf.
  cbv zeta.
  set (s1 := set_info p _ s).
  assert (E1 : infos s1 !!! p = with_refcount (refcount t + 1) t)
    by (unfold s1; rewrite set_info_same by lia; reflexivity).
  rewrite E1.
  cbn [with_refcount with_index with_lock_info current_lock_index lock_info refcount thread lock_held freed].
  replace (current_lock_index t - 1 + 1) with (index + 1) by reflexivity.
  fold index i li'.
  set (s5 := set_info p (with_lock_info _) _).
  assert (E5 : infos s5 !!! p = with_lock_info (upd li' index 0)
                 (with_index index (with_refcount (refcount t + 1) t))).
  { unfold s5. rewrite set_info_same by (unfold s1; lenside). rewrite !infos_assert.
    rewrite set_info_same by (unfold s1; lenside). rewrite E1. reflexivity. }
  unfold dxglockorder_put_thread. rewrite E5.
  cbn [with_refcount with_index with_lock_info current_lock_index lock_info refcount thread lock_held freed].
  destruct (Z.leb_spec (refcount t + 1) 0); [unfold t in *; lia|].
  destruct (Z.eqb_spec (refcount t + 1 - 1) 0); [unfold t in *; lia|].
  f_equal. unfold set_info at 1. rewrite E5.
  unfold s5, set_info. rewrite !infos_assert, !list_assert, !memory_assert, !asserts_assert.
  cbn. rewrite !list_insert_insert_eq. unfold bump.
  f_equal. f_equal. unfold with_refcount, with_lock_info, with_index; cbn. f_equal. lia.
Qed.

Lemma acquire_outcome M cur kz order s p :
  find_thread (infos s) (thread_info_list s) cur = Some p ->
  (p < length (infos s))%nat ->
  1 <= refcount (infos s !!! p) ->
  let t := infos s !!! p in
  let index := current_lock_index t in
  let a := bump (negb (index =? M)) (asserts s) in
  dxglockorder_acquire M cur kz order s =
  Some {| infos := <[p := {| thread := thread t; refcount := refcount t;
                             lock_held := lock_held t; current_lock_index := index + 1;
                             lock_info := upd (lock_info t) index order;
                             freed := freed t |}]> (infos s);
          thread_info_list := thread_info_list s;
          dxg_memory_threadinfo := dxg_memory_threadinfo s;
          asserts := if negb (index =? 0)
                     then bump (negb (lock_info t (index - 1) <=? order)) a else a |}.
Proof.
  intros Hf Hl Hr t index a.
  unfold dxglockorder_acquire, dxglockorder_get_thread. rewrite Hf.
  cbv zeta.
  set (s1 := set_info p _ s).
  assert (E1 : infos s1 !!! p = with_refcount (refcount t + 1) t)
    by (unfold s1; rewrite set_info_same by lia; reflexivity).
  rewrite E1.
  cbn [with_refcount with_index with_lock_info current_lock_index lock_info refcount thread lock_held freed].
  fold index.
  set (s3 := if negb (index =? 0) then _ else _).
  assert (E3 : infos s3 = infos s1 /\ thread_info_list s3 = thread_info_list s /\
               dxg_memory_threadinfo s3 = dxg_memory_threadinfo s /\
               asserts s3 = if negb (index =? 0)
                            then bump (negb (lock_info t (index - 1) <=? order)) a else a).
  { unfold s3. destruct (negb (index =? 0));
      rewrite ?infos_assert, ?list_assert, ?memory_assert, ?asserts_assert; auto;
      unfold a, bump; destruct (negb (index =? M)), (negb (lock_info t (index - 1) <=? order));
      auto. }
  destruct E3 as (E3a & E3b & E3c & E3d).
  set (s4 := set_info p _ s3).
  assert (E4 : infos s4 !!! p = with_index (index + 1)
                 (with_lock_info (upd (lock_info t) index order)
                   (with_refcount (refcount t + 1) t))).
  { unfold s4. rewrite set_info_same by (rewrite E3a; unfold s1; lenside).
    rewrite E3a, E1. reflexivity. }
  unfold dxglockorder_put_thread. rewrite E4.
  cbn [with_refcount with_index with_lock_info current_lock_index lock_info refcount thread lock_held freed].
  destruct (Z.leb_spec (refcount t + 1) 0); [unfold t in *; lia|].
  destruct (Z.eqb_spec (refcount t + 1 - 1) 0); [unfold t in *; lia|].
  f_equal. unfold set_info at 1. rewrite E4.
  unfold s4, set_info. rewrite E3a, E3b, E3c, E3d.
  unfold s1, set_info; cbn. rewrite !list_insert_insert_eq.
  f_equal. f_equal. unfold with_refcount, with_lock_info, with_index; cbn. f_equal. lia.
Qed.

Lemma find_thread_insert is l cur p x :
  thread x = thread (is !!! p) ->
  find_thread (<[p := x]> is) l cur = find_thread is l cur.
Proof.
  intros Ht. induction l as [|q l IH]; cbn; auto.
  rewrite list_lookup_total_insert. destruct (decide _) as [[-> _]|_].
  - rewrite Ht, IH. reflexivity.
  - rewrite IH. reflexivity.
Qed.

Lemma find_order_hit fuel li order i :
  0 <= i -> li i = order -> find_order (S fuel) li order i = i.
Proof.
  intros H0 H. cbn. destruct (Z.ltb_spec i 0); [lia|].
  rewrite H, Z.eqb_refl. reflexivity.
Qed.

(** X3: for a thread whose info object is listed and referenced, acquiring
    a lock whose order is below the top of its stack (with the stack not
    full and its next slot clear) and then releasing the same order fires no assertion and leaves
    the thread-info list, the memory counter, the assertion count and every
    thread-info object as they were. *)
Lemma acquire_release_roundtrip M cur kz1 kz2 order s p :
  find_thread (infos s) (thread_info_list s) cur = Some p ->
  (p < length (infos s))%nat ->
  1 <= refcount (infos s !!! p) ->
  let t := infos s !!! p in
  0 <= current_lock_index t -> current_lock_index t <> M ->
  lock_info t (current_lock_index t) = 0 ->
  (current_lock_index t = 0 \/ order < lock_info t (current_lock_index t - 1)) ->
  exists s1 s2,
    dxglockorder_acquire M cur kz1 order s = Some s1 /\
    asserts s1 = asserts s /\
    dxglockorder_release cur kz2 order s1 = Some s2 /\
    thread_info_list s2 = thread_info_list s /\
    dxg_memory_threadinfo s2 = dxg_memory_threadinfo s /\
    asserts s2 = asserts s /\
    length (infos s2) = length (infos s) /\
    forall q, same_info (infos s2 !!! q) (infos s !!! q).
Proof.
  intros Hf Hl Hr t Hn HM Hz Ho.
  rewrite (acquire_outcome M cur kz1 order s p Hf Hl Hr).
  eexists _, _. split; [reflexivity|]. split.
  { cbn. fold t. destruct (Z.eqb_spec (current_lock_index t) M); [contradiction|].
    cbn. destruct (Z.eqb_spec (current_lock_index t) 0); cbn; [reflexivity|].
    destruct Ho as [Ho|Ho]; [contradiction|].
    destruct (Z.leb_spec (lock_info t (current_lock_index t - 1)) order); [lia|].
    reflexivity. }
  rewrite (release_outcome cur kz2 order _ p).
  - split; [reflexivity|]. cbn.
    rewrite !list_lookup_total_insert_eq by lia. cbn.
    fold t. set (n := current_lock_index t) in *.
    replace (n + 1 - 1) with n by lia.
    replace (Z.to_nat (n + 1)) with (S (Z.to_nat n)) by lia.
    rewrite find_order_hit by (auto; unfold upd; rewrite Z.eqb_refl; reflexivity).
    replace (0 <=? n) with true by (symmetry; apply Z.leb_le; lia).
    replace (n <? 0) with false by (symmetry; apply Z.ltb_ge; lia).
    cbn. split; [reflexivity|]. split; [reflexivity|]. split.
    { destruct (Z.eqb_spec n M); [contradiction|]. cbn.
      destruct (Z.eqb_spec n 0); cbn; [reflexivity|].
      destruct Ho as [Ho|Ho]; [contradiction|].
      destruct (Z.leb_spec (lock_info t (n - 1)) order); [lia|]. reflexivity. }
    rewrite list_insert_insert_eq. split; [apply length_insert|].
    intros q. rewrite list_lookup_total_insert.
    destruct (decide _) as [[<- _]|_].
    + fold t. repeat split; cbn; try reflexivity.
      intros j. unfold upd, memmove.
      destruct (Z.eqb_spec j n); [subst; symmetry; exact Hz|].
      replace (n <=? j) with (n <=? j) by reflexivity.
      destruct (Z.leb_spec n j), (Z.ltb_spec j (n + (n - n))); cbn; try lia;
        rewrite ?Z.eqb_refl; destruct (Z.eqb_spec j n); try lia; reflexivity.
    + repeat split; reflexivity.
  - cbn. rewrite find_thread_insert by reflexivity. exact Hf.
  - cbn. rewrite length_insert. exact Hl.
  - cbn. rewrite list_lookup_total_insert_eq by lia. cbn. exact Hr.
Qed.

Lemma map_seq_lookup (f : nat -> Z) s m k :
  map f (seq s m) !! k = if decide (k < m)%nat then Some (f (s + k)%nat) else None.
Proof.
  revert s k. induction m as [|m IH]; intros s k; cbn.
  - destruct (decide _); [lia|]. destruct k; reflexivity.
  - destruct k as [|k]; cbn.
    + destruct (decide _); [|lia]. rewrite Nat.add_0_r. reflexivity.
    + rewrite IH. destruct (decide _), (decide _); try lia; auto.
      do 2 f_equal. lia.
Qed.

Lemma held_lookup s p k :
  held s p !! k =
  if decide (k < Z.to_nat (current_lock_index (infos s !!! p)))%nat
  then Some (lock_info (infos s !!! p) (Z.of_nat k)) else None.
Proof. unfold held. rewrite map_seq_lookup. reflexivity. Qed.

Lemma length_held s p : length (held s p) = Z.to_nat (current_lock_index (infos s !!! p)).
Proof. unfold held. rewrite length_map, length_seq. reflexivity. Qed.

Lemma find_order_found fuel li order i k :
  0 <= i <= k -> (Z.to_nat (k - i) < fuel)%nat -> li i = order ->
  (forall j, i < j <= k -> li j <> order) ->
  find_order fuel li order k = i.
Proof.
  revert k. induction fuel as [|fuel IH]; intros k Hik Hf Hi Hj; [lia|].
  cbn. destruct (Z.ltb_spec k 0); [lia|].
  destruct (Z.eqb_spec (li k) order).
  - destruct (Z.eq_dec k i); [lia|]. exfalso. apply (Hj k); auto. lia.
  - destruct (Z.eq_dec k i); [subst; contradiction|].
    apply IH; try lia. intros j Hj'. apply Hj. lia.
Qed.

Lemma well_formed_in_of M s p :
  well_formed s p -> current_lock_index (infos s !!! p) <= M -> well_formed_in M s p.
Proof.
  intros (Hn & Hd & Hpos & Hz) HM. split; [lia|]. split; [exact Hd|].
  split; [exact Hpos|]. intros j Hj. apply Hz. lia.
Qed.

Lemma well_formed_decreasing M s p a b :
  well_formed_in M s p -> 0 <= a < b -> b < current_lock_index (infos s !!! p) ->
  lock_info (infos s !!! p) b < lock_info (infos s !!! p) a.
Proof.
  intros (_ & Hd & _ & _) Hab Hb.
  remember (Z.to_nat (b - a - 1)) as d eqn:Hd'.
  revert b Hab Hb Hd'. induction d as [|d IH]; intros b Hab Hb Hd'.
  - replace b with (a + 1) by lia. apply Hd; lia.
  - specialize (IH (b - 1)). specialize (Hd (b - 1)).
    replace (b - 1 + 1) with b in Hd by lia.
    assert (lock_info (infos s !!! p) (b - 1) < lock_info (infos s !!! p) a) by (apply IH; lia).
    assert (lock_info (infos s !!! p) b < lock_info (infos s !!! p) (b - 1)) by (apply Hd; lia).
    lia.
Qed.

(** Releasing the [i]-th order; the [memmove] reads
    [lock_info[index .. 2 * index - i)], [index] being the new top, which
    stays inside [lock_info[M]]. *)
Lemma release_held M s p cur kz (i : nat) :
  well_formed_in M s p ->
  (2 * length (held s p) - 2 - i <= Z.to_nat M)%nat ->
  find_thread (infos s) (thread_info_list s) cur = Some p ->
  (p < length (infos s))%nat ->
  1 <= refcount (infos s !!! p) ->
  (i < length (held s p))%nat ->
  exists s', dxglockorder_release cur kz (held s p !!! i) s = Some s' /\
    asserts s' = asserts s /\
    held s' p =
      (let l := held s p in
       if decide (i + 1 = length l)%nat then take i l
       else take i l ++ [l !!! (length l - 1)%nat] ++ replicate (length l - 2 - i) 0).
Proof.
  intros Hwf HM Hf Hl Hr Hi.
  assert (Hwf' := Hwf). destruct Hwf' as (Hn & Hd & Hpos & Hz).
  rewrite length_held in Hi, HM.
  set (t := infos s !!! p) in *. set (n := current_lock_index t) in *.
  set (li := lock_info t) in *.
  assert (Hli : forall k, (k < Z.to_nat n)%nat -> held s p !!! k = li (Z.of_nat k)).
  { intros k Hk. rewrite list_lookup_total_alt, held_lookup. fold t n li.
    destruct (decide _); [reflexivity|lia]. }
  rewrite Hli by lia.
  rewrite (release_outcome cur kz _ s p Hf Hl Hr). fold t n li.
  eexists; split; [reflexivity|].
  replace (n - 1 + 1) with n by lia.
  rewrite (find_order_found _ li (li (Z.of_nat i)) (Z.of_nat i) (n - 1)); try lia; auto.
  2:{ intros j Hj. enough (li j < li (Z.of_nat i)) by lia.
      apply (well_formed_decreasing M s p); auto; unfold li, n, t in *; lia. }
  replace (0 <=? Z.of_nat i) with true by (symmetry; apply Z.leb_le; lia).
  replace (Z.of_nat i <? 0) with false by (symmetry; apply Z.ltb_ge; lia).
  replace (n - 1 <? 0) with false by (symmetry; apply Z.ltb_ge; lia).
  split; [reflexivity|].
  cbv zeta. rewrite length_held. fold t n.
  apply list_eq. intros k. rewrite held_lookup. cbn.
  rewrite list_lookup_total_insert_eq by lia. cbn.
  unfold upd, memmove.
  destruct (decide (i + 1 = Z.to_nat n)%nat) as [Ei|Ei].
  - rewrite lookup_take. rewrite held_lookup. fold t n li.
    destruct (decide (k < Z.to_nat (n - 1))%nat), (decide (k < i)%nat), (decide (k < Z.to_nat n)%nat);
      try lia; try reflexivity.
    destruct (Z.eqb_spec (Z.of_nat k) (n - 1)); [lia|].
    destruct (Z.leb_spec (Z.of_nat i) (Z.of_nat k)); [lia|]. reflexivity.
  - rewrite lookup_app, lookup_take, held_lookup. fold t n li.
    rewrite length_take, length_held. fold t n.
    destruct (decide (k < i)%nat).
    + destruct (decide (k < Z.to_nat n)%nat), (decide (k < Z.to_nat (n - 1))%nat); try lia.
      destruct (Z.eqb_spec (Z.of_nat k) (n - 1)); [lia|].
      destruct (Z.leb_spec (Z.of_nat i) (Z.of_nat k)); [lia|]. reflexivity.
    + replace (min i (Z.to_nat n)) with i by lia.
      destruct (k - i)%nat as [|k'] eqn:Ek; simpl.
      * destruct (decide (k < Z.to_nat (n - 1))%nat); [|lia].
        destruct (Z.eqb_spec (Z.of_nat k) (n - 1)); [lia|].
        destruct (Z.leb_spec (Z.of_nat i) (Z.of_nat k)); [|lia].
        destruct (Z.ltb_spec (Z.of_nat k) (Z.of_nat i + (n - 1 - Z.of_nat i))); [|lia].
        cbn. rewrite Hli by lia. do 2 f_equal. lia.
      * destruct (decide (k < Z.to_nat (n - 1))%nat).
        -- rewrite lookup_replicate_2 by lia.
           destruct (Z.eqb_spec (Z.of_nat k) (n - 1)); [lia|].
           destruct (Z.leb_spec (Z.of_nat i) (Z.of_nat k)); [|lia].
           destruct (Z.ltb_spec (Z.of_nat k) (Z.of_nat i + (n - 1 - Z.of_nat i))); [|lia].
           cbn. f_equal. apply Hz. lia.
        -- symmetry. apply lookup_replicate_None. lia.
Qed.

(** X4: on a well-formed stack, releasing the order of one of the two top
    entries fires no assertion and removes exactly that entry. *)
Lemma release_top_two s p cur kz (i : nat) :
  well_formed s p ->
  find_thread (infos s) (thread_info_list s) cur = Some p ->
  (p < length (infos s))%nat ->
  1 <= refcount (infos s !!! p) ->
  (i < length (held s p) <= i + 2)%nat ->
  exists s', dxglockorder_release cur kz (held s p !!! i) s = Some s' /\
    asserts s' = asserts s /\
    held s' p = take i (held s p) ++ drop (S i) (held s p).
Proof.
  intros Hwf Hf Hl Hr Hi.
  assert (HL := length_held s p).
  set (M := current_lock_index (infos s !!! p)).
  assert (Hwf' : well_formed_in M s p) by (apply well_formed_in_of; [exact Hwf|lia]).
  assert (HM : (2 * length (held s p) - 2 - i <= Z.to_nat M)%nat) by (unfold M; lia).
  destruct (release_held M s p cur kz i Hwf' HM Hf Hl Hr ltac:(lia))
    as (s' & E & Ea & Eh).
  exists s'. split; [exact E|]. split; [exact Ea|]. rewrite Eh. cbv zeta.
  set (l := held s p) in *.
  destruct (decide (i + 1 = length l)%nat) as [Ei|Ei].
  - rewrite drop_ge by lia. rewrite app_nil_r. reflexivity.
  - f_equal. replace (length l - 2 - i)%nat with 0%nat by lia. cbn.
    apply list_eq. intros k. rewrite lookup_drop.
    destruct k as [|k]; cbn.
    + rewrite list_lookup_total_alt, Nat.add_0_r.
      replace (S i) with (length l - 1)%nat by lia.
      destruct (l !! (length l - 1)%nat) eqn:E1; [reflexivity|].
      apply lookup_ge_None in E1. lia.
    + symmetry. apply lookup_ge_None. lia.
Qed.

(** X5: on a stack well formed inside [lock_info[DXGK_MAX_LOCK_DEPTH]],
    releasing the order of an entry [i] with at least two entries above
    it, when the slots [memmove] reads ([lock_info[index .. 2 * index -
    i)], [index] the new top) lie inside the array, fires no assertion
    and shrinks the stack by one, but the entry just above the released
    one is no longer recorded: [memmove] copies from [lock_info[index]]
    instead of [lock_info[i + 1]]. *)
Lemma release_deep_loses_lock DXGK_MAX_LOCK_DEPTH s p cur kz (i : nat) :
  well_formed_in DXGK_MAX_LOCK_DEPTH s p ->
  (2 * length (held s p) - 2 - i <= Z.to_nat DXGK_MAX_LOCK_DEPTH)%nat ->
  find_thread (infos s) (thread_info_list s) cur = Some p ->
  (p < length (infos s))%nat ->
  1 <= refcount (infos s !!! p) ->
  (i + 3 <= length (held s p))%nat ->
  exists s', dxglockorder_release cur kz (held s p !!! i) s = Some s' /\
    asserts s' = asserts s /\
    length (held s' p) = (length (held s p) - 1)%nat /\
    held s p !!! S i ∉ held s' p.
Proof.
  intros Hwf HM Hf Hl Hr Hi.
  destruct (release_held DXGK_MAX_LOCK_DEPTH s p cur kz i Hwf HM Hf Hl Hr ltac:(lia))
    as (s' & E & Ea & Eh).
  exists s'. split; [exact E|]. split; [exact Ea|]. rewrite Eh. cbv zeta.
  assert (Hwf' := Hwf). destruct Hwf' as (Hn & Hd & Hpos & Hz).
  assert (Hli : forall k, (k < length (held s p))%nat ->
            held s p !!! k = lock_info (infos s !!! p) (Z.of_nat k)).
  { intros k Hk. rewrite length_held in Hk.
    rewrite list_lookup_total_alt, held_lookup. destruct (decide _); [reflexivity|lia]. }
  assert (Hlt : forall a b, (a < b < length (held s p))%nat -> held s p !!! b < held s p !!! a).
  { intros a b Hab. assert (Hab' := Hab). rewrite length_held in Hab'.
    rewrite !Hli by lia. apply (well_formed_decreasing DXGK_MAX_LOCK_DEPTH); auto; lia. }
  assert (HL := length_held s p).
  set (l := held s p) in *.
  destruct (decide (i + 1 = length l)%nat) as [Ei|Ei]; [lia|].
  split.
  { rewrite !length_app, length_take, length_replicate. cbn. lia. }
  rewrite !elem_of_app, list_elem_of_singleton, elem_of_replicate.
  intros [Hx|[Hx|[Hx _]]].
  - apply list_elem_of_lookup in Hx. destruct Hx as (k & Hk).
    rewrite lookup_take_Some in Hk. destruct Hk as [Hk Hki].
    assert (Hk' : l !!! k = l !!! S i) by (rewrite list_lookup_total_alt, Hk; reflexivity).
    assert (l !!! S i < l !!! k) by (apply Hlt; lia). lia.
  - assert (l !!! (length l - 1)%nat < l !!! S i) by (apply Hlt; lia). lia.
  - assert (l !!! (length l - 1)%nat < l !!! S i) by (apply Hlt; lia).
    assert (0 <= l !!! (length l - 1)%nat).
    { rewrite Hli by lia. apply Hpos. lia. }
    lia.
Qed.

Lemma ex_lstate_well_formed : well_formed ex_lstate 0.
Proof.
  unfold well_formed; cbn. split; [lia|]. split; [|split].
  - intros j Hj Hj'. assert (j = 0 \/ j = 1) as [-> | ->] by lia; reflexivity.
  - intros j Hj. unfold ex_lock_info.
    destruct (Z.eqb_spec j 0), (Z.eqb_spec j 1), (Z.eqb_spec j 2); lia.
  - intros j Hj. unfold ex_lock_info.
    destruct (Z.eqb_spec j 0), (Z.eqb_spec j 1), (Z.eqb_spec j 2); lia.
Qed.

Lemma acquire_release_roundtrip_witness :
  find_thread (infos ex_lstate) (thread_info_list ex_lstate) 7 = Some 0%nat /\
  exists s1 s2,
    dxglockorder_acquire 64 7 true 5 ex_lstate = Some s1 /\
    asserts s1 = asserts ex_lstate /\
    dxglockorder_release 7 true 5 s1 = Some s2 /\
    thread_info_list s2 = thread_info_list ex_lstate /\
    dxg_memory_threadinfo s2 = dxg_memory_threadinfo ex_lstate /\
    asserts s2 = asserts ex_lstate /\
    length (infos s2) = length (infos ex_lstate) /\
    forall q, same_info (infos s2 !!! q) (infos ex_lstate !!! q).
Proof.
  assert (Hf : find_thread (infos ex_lstate) (thread_info_list ex_lstate) 7 = Some 0%nat)
    by reflexivity.
  split; [exact Hf|].
  exact (acquire_release_roundtrip 64 7 true true 5 ex_lstate 0 Hf
           ltac:(cbn; lia) ltac:(vm_compute; discriminate)
           ltac:(vm_compute; discriminate) ltac:(vm_compute; discriminate)
           ltac:(reflexivity) ltac:(right; reflexivity)).
Defined.

Lemma release_top_two_witness :
  held ex_lstate 0%nat = [30; 20; 10] /\
  exists s', dxglockorder_release 7 true (held ex_lstate 0%nat !!! 1%nat) ex_lstate = Some s' /\
    asserts s' = asserts ex_lstate /\
    held s' 0%nat = take 1 (held ex_lstate 0%nat) ++ drop 2 (held ex_lstate 0%nat).
Proof.
  split; [reflexivity|].
  exact (release_top_two ex_lstate 0 7 true 1 ex_lstate_well_formed
           ltac:(reflexivity) ltac:(cbn; lia) ltac:(vm_compute; discriminate)
           ltac:(vm_compute; lia)).
Defined.

Lemma release_deep_loses_lock_witness :
  held ex_lstate 0%nat = [30; 20; 10] /\
  exists s', dxglockorder_release 7 true (held ex_lstate 0%nat !!! 0%nat) ex_lstate = Some s' /\
    asserts s' = asserts ex_lstate /\
    length (held s' 0%nat) = (length (held ex_lstate 0%nat) - 1)%nat /\
    held ex_lstate 0%nat !!! 1%nat ∉ held s' 0%nat.
Proof.
  split; [reflexivity|].
  exact (release_deep_loses_lock 64 ex_lstate 0 7 true 0
           (well_formed_in_of 64 ex_lstate 0 ex_lstate_well_formed ltac:(cbn; lia))
           ltac:(vm_compute; lia) ltac:(reflexivity) ltac:(cbn; lia) ltac:(vm_compute; discriminate)
           ltac:(vm_compute; lia)).
Defined.

End LockOrderFacts.

(* ------------------------------------------------------------------ *)
(** ** The private-data copy of a batch allocation create *)

Module CopyPrivateDataFacts.
Import Errno CreateAllocSize CopyPrivateData.

Lemma continue_cmd_size sca scai scr sair a vz cmd_size result_size :
  0 <= sca -> 0 <= scai ->
  0 <= private_runtime_data_size a -> 0 <= priv_drv_data_size a ->
  Forall (fun x => 0 <= x) (alloc_info a) ->
  aggregated_size sca scai a < 2 ^ 32 ->
  send_create_allocation_sizes sca scai scr sair a vz = CA_Continue cmd_size result_size ->
  cmd_size = aggregated_size sca scai a /\ cmd_size <= DXG_MAX_VM_BUS_PACKET_SIZE.
Proof.
  intros Hsca Hscai Hrt Hpr Hai Hwrap Hc.
  assert (Hmax : DXG_MAX_VM_BUS_PACKET_SIZE = 131072) by reflexivity.
  assert (Hcnt : 0 <= alloc_count a) by (unfold alloc_count; lia).
  assert (Hsum : 0 <= fold_right Z.add 0 (alloc_info a)).
  { clear -Hai. induction Hai; simpl; lia. }
  unfold send_create_allocation_sizes in Hc.
  destruct (_ || _) eqn:Hb; [discriminate|].
  apply orb_false_iff in Hb as [Hb1 Hb2]. apply Z.leb_gt in Hb1, Hb2.
  destruct (sum_priv (alloc_info a) 0) as [s|] eqn:Hs; [|discriminate].
  destruct (SizeFacts.sum_priv_some (alloc_info a) 0 s ltac:(lia) Hai Hs) as [Hs1 Hs2].
  destruct vz; [|discriminate]. cbn in Hc.
  rewrite (Z.mod_small (s + priv_drv_data_size a)) in Hc by lia.
  replace (sca + alloc_count a * scai + private_runtime_data_size a +
           (s + priv_drv_data_size a))
    with (aggregated_size sca scai a) in Hc by (unfold aggregated_size; lia).
  rewrite Z.mod_small in Hc by (unfold aggregated_size in *; lia).
  destruct (Z.ltb_spec DXG_MAX_VM_BUS_PACKET_SIZE (aggregated_size sca scai a));
    [discriminate|].
  injection Hc as <- _. split; [reflexivity|lia].
Qed.

Lemma copy_alloc_loop_spec sca scai cfu l i dest writes r d ws :
  Forall (fun x => 0 <= x) l -> 0 <= scai ->
  copy_alloc_loop sca scai cfu l i dest writes = (r, d, ws) ->
  exists nw, ws = writes ++ nw /\
    Forall (fun w => (exists j, i <= j < i + Z.of_nat (length l) /\
                                w = (sca + j * scai, scai)) \/
                     (dest <= w.1 /\ w.1 + w.2 <= dest + fold_right Z.add 0 l)) nw /\
    (r = 0 -> d = dest + fold_right Z.add 0 l /\
              (d = dest \/ exists w, w ∈ nw /\ w.1 + w.2 = d)) /\
    (r = 0 \/ r = - EINVAL).
Proof.
  revert i dest writes. induction l as [|s l IH]; intros i dest writes Hl Hscai E; cbn in E.
  - injection E as <- <- <-. exists []. rewrite app_nil_r. cbn.
    split; [reflexivity|]. split; [constructor|]. split; [|left; reflexivity].
    intros _. split; [lia|left; reflexivity].
  - apply Forall_cons in Hl as [Hs Hl].
    set (e := (sca + i * scai, scai)) in E.
    destruct (Z.eqb_spec s 0) as [Hs0|Hs0]; cbn in E.
    + destruct (IH (i + 1) dest (writes ++ [e]) Hl Hscai E) as (nw & -> & Hf & Hr & Hr').
      exists (e :: nw). rewrite <- app_assoc. split; [reflexivity|].
      split.
      * constructor.
        -- left. exists i. split; [cbn; lia|reflexivity].
        -- eapply Forall_impl; [exact Hf|]. intros w [(j & Hj & ->)|Hw].
           ++ left. exists j. split; [cbn; lia|reflexivity].
           ++ right. cbn. lia.
      * split; [|exact Hr']. intros H0. destruct (Hr H0) as [Hd [Hd'|(w & Hw & Hw')]].
        -- split; [cbn; lia|left; exact Hd'].
        -- split; [cbn; lia|right; exists w; split; [right; exact Hw|exact Hw']].
    + destruct (Z.eqb_spec (cfu dest s) 0) as [Hc|Hc]; cbn in E.
      * destruct (IH (i + 1) (dest + s) ((writes ++ [e]) ++ [(dest, s)]) Hl Hscai E)
          as (nw & -> & Hf & Hr & Hr').
        exists (e :: (dest, s) :: nw). rewrite <- !app_assoc. split; [reflexivity|].
        assert (Hsum : 0 <= fold_right Z.add 0 l) by (clear -Hl; induction Hl; cbn; lia).
        split.
        -- constructor; [left; exists i; split; [cbn; lia|reflexivity]|].
           constructor; [right; cbn; lia|].
           eapply Forall_impl; [exact Hf|]. intros w [(j & Hj & ->)|Hw].
           ++ left. exists j. split; [cbn; lia|reflexivity].
           ++ right. cbn. lia.
        -- split; [|exact Hr']. intros H0. destruct (Hr H0) as [Hd [Hd'|(w & Hw & Hw')]].
           ++ split; [cbn; lia|]. right. exists (dest, s).
              split; [right; left|cbn; lia].
           ++ split; [cbn; lia|]. right. exists w. split; [right; right; exact Hw|exact Hw'].
      * injection E as <- <- <-. exists [e; (dest, s)]. rewrite <- app_assoc.
        split; [reflexivity|].
        assert (Hsum : 0 <= fold_right Z.add 0 l) by (clear -Hl; induction Hl; cbn; lia).
        split.
        -- constructor; [left; exists i; split; [cbn; lia|reflexivity]|].
           constructor; [right; cbn; lia|constructor].
        -- split; [intros H0; unfold EINVAL in H0; lia|right; reflexivity].
Qed.

(** X7: when the size checks of [dxgvmb_send_create_allocation] let a
    non-standard create go on (sizes non-negative, aggregated size below
    2^32), the only header write of [copy_private_data] sets
    [flags.existing_sysmem], and only when [input_alloc_info[0].sysmem]
    is set; every byte range it copies into lies in the command after
    its header and before [cmd_size]; it leaves [priv_drv_data_size]
    unchanged, it returns 0 or -EINVAL, and on success the data it
    copied ends exactly at [cmd_size]. *)
Theorem copy_private_data_within_command sca scai sstd scr sair cfu a vz cmd_size result_size
    es s0 :
  0 <= sca -> 0 <= scai ->
  0 <= private_runtime_data_size a -> 0 <= priv_drv_data_size a ->
  Forall (fun x => 0 <= x) (alloc_info a) ->
  aggregated_size sca scai a < 2 ^ 32 ->
  send_create_allocation_sizes sca scai scr sair a vz = CA_Continue cmd_size result_size ->
  let r := copy_private_data sca scai sstd cfu a false es s0 in
  (cp_existing_sysmem r = es \/ (s0 = true /\ cp_existing_sysmem r = true)) /\
  Forall (fun w => sca <= w.1 /\ w.1 + w.2 <= cmd_size) (cp_writes r) /\
  cp_priv_drv_data_size r = priv_drv_data_size a /\
  (cp_ret r = 0 -> cp_dest r = cmd_size) /\
  (cp_ret r = 0 \/ cp_ret r = - EINVAL).
Proof.
  intros Hsca Hscai Hrt Hpr Hai Hwrap Hc r.
  split.
  { unfold r, copy_private_data. destruct s0; [|left];
      repeat (case_match; cbn; auto). }
  destruct (continue_cmd_size sca scai scr sair a vz cmd_size result_size
              Hsca Hscai Hrt Hpr Hai Hwrap Hc) as [-> _].
  assert (Hcnt : 0 <= alloc_count a) by (unfold alloc_count; lia).
  assert (Hsum : 0 <= fold_right Z.add 0 (alloc_info a)).
  { clear -Hai. induction Hai; simpl; lia. }
  assert (Hlen : Z.of_nat (length (alloc_info a)) = alloc_count a) by reflexivity.
  unfold r, copy_private_data, aggregated_size in *. clear r.
  change (- EINVAL) with (-22) in *.
  set (d0 := sca + alloc_count a * scai).
  assert (Hd0 : sca <= d0) by (unfold d0; nia).
  (* the header entries written by the loop *)
  assert (Hent : forall j, 0 <= j < 0 + Z.of_nat (length (alloc_info a)) ->
            sca <= sca + j * scai /\ sca + j * scai + scai <= d0) by (intros; unfold d0; nia).
  assert (Hloop : forall dest writes r d ws,
    copy_alloc_loop sca scai cfu (alloc_info a) 0 dest writes = (r, d, ws) ->
    Forall (fun w => sca <= w.1 /\ w.1 + w.2 <= dest) writes ->
    d0 <= dest ->
    Forall (fun w => sca <= w.1 /\ w.1 + w.2 <= dest + fold_right Z.add 0 (alloc_info a)) ws /\
    (r = 0 -> d = dest + fold_right Z.add 0 (alloc_info a)) /\ (r = 0 \/ r = - EINVAL)).
  { intros dest writes r' d ws E Hw Hd.
    destruct (copy_alloc_loop_spec sca scai cfu _ 0 dest writes r' d ws Hai Hscai E)
      as (nw & -> & Hf & Hr & Hr').
    split; [|split; [intros H0; apply (Hr H0)|exact Hr']].
    apply Forall_app. split.
    - eapply Forall_impl; [exact Hw|]. cbn. intros w Hw'. lia.
    - eapply Forall_impl; [exact Hf|]. intros w [(j & Hj & ->)|Hw'].
      + cbn. specialize (Hent j Hj). lia.
      + lia. }
  destruct (Z.eqb_spec (private_runtime_data_size a) 0) as [H0|H0]; cbn.
  - destruct (Z.eqb_spec (priv_drv_data_size a) 0) as [H1|H1]; cbn.
    + destruct (copy_alloc_loop sca scai cfu (alloc_info a) 0 d0 []) as [[r' d] ws] eqn:E.
      destruct (Hloop d0 [] r' d ws E (Forall_nil_2 _) ltac:(lia)) as (Hf & Hr & Hr').
      cbn. split; [eapply Forall_impl; [exact Hf|]; cbn; lia|].
      split; [reflexivity|]. split; [intros Hz; rewrite (Hr Hz); lia|exact Hr'].
    + destruct (Z.eqb_spec (cfu d0 (priv_drv_data_size a)) 0) as [H2|H2]; cbn.
      * destruct (copy_alloc_loop sca scai cfu (alloc_info a) 0 (d0 + priv_drv_data_size a)
                    [(d0, priv_drv_data_size a)]) as [[r' d] ws] eqn:E.
        destruct (Hloop _ _ r' d ws E ltac:(repeat constructor; cbn; lia) ltac:(lia))
          as (Hf & Hr & Hr').
        cbn. split; [eapply Forall_impl; [exact Hf|]; cbn; lia|].
        split; [reflexivity|]. split; [intros Hz; rewrite (Hr Hz); lia|exact Hr'].
      * split; [repeat constructor; cbn; lia|]. split; [reflexivity|].
        split; [unfold EINVAL; lia|right; reflexivity].
  - destruct (Z.eqb_spec (cfu d0 (private_runtime_data_size a)) 0) as [H2|H2]; cbn.
    + destruct (Z.eqb_spec (priv_drv_data_size a) 0) as [H1|H1]; cbn.
      * destruct (copy_alloc_loop sca scai cfu (alloc_info a) 0 (d0 + private_runtime_data_size a)
                    [(d0, private_runtime_data_size a)]) as [[r' d] ws] eqn:E.
        destruct (Hloop _ _ r' d ws E ltac:(repeat constructor; cbn; lia) ltac:(lia))
          as (Hf & Hr & Hr').
        cbn. split; [eapply Forall_impl; [exact Hf|]; cbn; lia|].
        split; [reflexivity|]. split; [intros Hz; rewrite (Hr Hz); lia|exact Hr'].
      * destruct (Z.eqb_spec (cfu (d0 + private_runtime_data_size a) (priv_drv_data_size a)) 0)
          as [H3|H3]; cbn.
        -- destruct (copy_alloc_loop sca scai cfu (alloc_info a) 0
                      (d0 + private_runtime_data_size a + priv_drv_data_size a)
                      [(d0, private_runtime_data_size a);
                       (d0 + private_runtime_data_size a, priv_drv_data_size a)])
             as [[r' d] ws] eqn:E.
           destruct (Hloop _ _ r' d ws E ltac:(repeat constructor; cbn; lia) ltac:(lia))
             as (Hf & Hr & Hr').
           cbn. split; [eapply Forall_impl; [exact Hf|]; cbn; lia|].
           split; [reflexivity|]. split; [intros Hz; rewrite (Hr Hz); lia|exact Hr'].
        -- split; [repeat constructor; cbn; lia|]. split; [reflexivity|].
           split; [unfold EINVAL; lia|right; reflexivity].
    + split; [repeat constructor; cbn; lia|]. split; [reflexivity|].
      split; [unfold EINVAL; lia|right; reflexivity].
Qed.

Lemma copy_alloc_loop_ok sca scai cfu l i dest writes :
  (forall o n, cfu o n = 0) ->
  (copy_alloc_loop sca scai cfu l i dest writes).1.1 = 0.
Proof.
  intros Hc. revert i dest writes. induction l as [|s l IH]; intros i dest writes; cbn; auto.
  destruct (Z.eqb_spec s 0); cbn; auto. rewrite Hc. cbn. auto.
Qed.

(** X8: for a standard allocation whose copies succeed, [copy_private_data]
    returns 0, sets [priv_drv_data_size] to the size of the standard
    allocation description and ends its writes at
    [cmd_size - priv_drv_data_size + sizeof(standard)]: past the command
    computed by the caller whenever the caller's [priv_drv_data_size] is
    smaller than that description. Sizes are non-negative and the
    aggregated size is below 2^32, so that [cmd_size] is the aggregated
    size. *)
Theorem copy_private_data_standard_overrun sca scai sstd scr sair cfu a vz cmd_size result_size
    es s0 :
  0 <= sca -> 0 <= scai ->
  0 <= private_runtime_data_size a -> 0 <= priv_drv_data_size a ->
  Forall (fun x => 0 <= x) (alloc_info a) ->
  aggregated_size sca scai a < 2 ^ 32 ->
  send_create_allocation_sizes sca scai scr sair a vz = CA_Continue cmd_size result_size ->
  (forall o n, cfu o n = 0) ->
  let r := copy_private_data sca scai sstd cfu a true es s0 in
  cp_ret r = 0 /\
  cp_priv_drv_data_size r = sstd /\
  cp_dest r = cmd_size - priv_drv_data_size a + sstd /\
  exists w, w ∈ cp_writes r /\ w.1 + w.2 = cp_dest r.
Proof.
  intros Hsca Hscai Hrt Hpr Hai Hwrap Hc Hok r.
  destruct (continue_cmd_size sca scai scr sair a vz cmd_size result_size
              Hsca Hscai Hrt Hpr Hai Hwrap Hc) as [-> _].
  unfold r, copy_private_data, aggregated_size in *. clear r.
  set (d0 := sca + alloc_count a * scai).
  assert (Hloop : forall dest writes w,
    w ∈ writes -> w.1 + w.2 = dest ->
    let '(r', d, ws) := copy_alloc_loop sca scai cfu (alloc_info a) 0 dest writes in
    r' = 0 /\ d = dest + fold_right Z.add 0 (alloc_info a) /\
    exists w', w' ∈ ws /\ w'.1 + w'.2 = d).
  { intros dest writes w Hw Hwe.
    destruct (copy_alloc_loop sca scai cfu (alloc_info a) 0 dest writes) as [[r' d] ws] eqn:E.
    assert (Hr0 : r' = 0)
      by (pose proof (copy_alloc_loop_ok sca scai cfu (alloc_info a) 0 dest writes Hok) as H;
          rewrite E in H; exact H).
    destruct (copy_alloc_loop_spec sca scai cfu _ 0 dest writes r' d ws Hai Hscai E)
      as (nw & -> & _ & Hr & _).
    destruct (Hr Hr0) as [Hd [Hd'|(w' & Hw' & Hw'e)]].
    - split; [exact Hr0|]. split; [exact Hd|]. exists w.
      split; [apply elem_of_app; left; exact Hw|lia].
    - split; [exact Hr0|]. split; [exact Hd|]. exists w'.
      split; [apply elem_of_app; right; exact Hw'|exact Hw'e]. }
  destruct (Z.eqb_spec (private_runtime_data_size a) 0) as [H0|H0]; cbn.
  - specialize (Hloop (d0 + sstd) [(d0, sstd)] (d0, sstd) ltac:(left) ltac:(reflexivity)).
    destruct (copy_alloc_loop sca scai cfu (alloc_info a) 0 (d0 + sstd) [(d0, sstd)])
      as [[r' d] ws].
    destruct Hloop as (-> & -> & Hw). cbn.
    split; [reflexivity|]. split; [reflexivity|]. split; [unfold d0; lia|exact Hw].
  - rewrite Hok. cbn.
    specialize (Hloop (d0 + private_runtime_data_size a + sstd)
                  [(d0, private_runtime_data_size a); (d0 + private_runtime_data_size a, sstd)]
                  (d0 + private_runtime_data_size a, sstd) ltac:(right; left) ltac:(reflexivity)).
    destruct (copy_alloc_loop sca scai cfu (alloc_info a) 0
                (d0 + private_runtime_data_size a + sstd)
                [(d0, private_runtime_data_size a); (d0 + private_runtime_data_size a, sstd)])
      as [[r' d] ws].
    destruct Hloop as (-> & -> & Hw). cbn.
    split; [reflexivity|]. split; [reflexivity|]. split; [unfold d0; lia|exact Hw].
Qed.

Lemma copy_private_data_within_command_witness :
  send_create_allocation_sizes 64 32 32 32 ex_args true = CA_Continue 2190 126 /\
  let r := copy_private_data 64 32 48 (fun _ _ => 0) ex_args false false true in
  (cp_existing_sysmem r = false \/ (true = true /\ cp_existing_sysmem r = true)) /\
  Forall (fun w => 64 <= w.1 /\ w.1 + w.2 <= 2190) (cp_writes r) /\
  cp_priv_drv_data_size r = priv_drv_data_size ex_args /\
  (cp_ret r = 0 -> cp_dest r = 2190) /\
  (cp_ret r = 0 \/ cp_ret r = - EINVAL).
Proof.
  assert (Hc : send_create_allocation_sizes 64 32 32 32 ex_args true = CA_Continue 2190 126)
    by (vm_compute; reflexivity).
  split; [exact Hc|].
  exact (copy_private_data_within_command 64 32 48 32 32 (fun _ _ => 0) ex_args true 2190 126
           false true ltac:(lia) ltac:(lia) ltac:(cbn; lia) ltac:(cbn; lia)
           ltac:(repeat constructor; lia) ltac:(vm_compute; reflexivity) Hc).
Defined.

Lemma copy_private_data_standard_overrun_witness :
  send_create_allocation_sizes 64 32 32 32 ex_args_nopriv true = CA_Continue 1190 126 /\
  let r := copy_private_data 64 32 48 (fun _ _ => 0) ex_args_nopriv true false false in
  cp_ret r = 0 /\
  cp_priv_drv_data_size r = 48 /\
  cp_dest r = 1190 - priv_drv_data_size ex_args_nopriv + 48 /\
  exists w, w ∈ cp_writes r /\ w.1 + w.2 = cp_dest r.
Proof.
  assert (Hc : send_create_allocation_sizes 64 32 32 32 ex_args_nopriv true = CA_Continue 1190 126)
    by (vm_compute; reflexivity).
  split; [exact Hc|].
  exact (copy_private_data_standard_overrun 64 32 48 32 32 (fun _ _ => 0) ex_args_nopriv true
           1190 126 false false ltac:(lia) ltac:(lia) ltac:(cbn; lia) ltac:(cbn; lia)
           ltac:(repeat constructor; lia) ltac:(vm_compute; reflexivity) Hc
           (fun _ _ => eq_refl)).
Defined.

End CopyPrivateDataFacts.


(* ------------------------------------------------------------------ *)
(** ** Message buffers and senders *)

Module MessagesFacts.
Import Errno Status Messages.

Lemma allocated_app l1 l2 : allocated (l1 ++ l2) = allocated l1 ++ allocated l2.
Proof. induction l1 as [|[] l1 IH]; cbn; rewrite ?IH; reflexivity. Qed.
Lemma freed_app l1 l2 : freed (l1 ++ l2) = freed l1 ++ freed l2.
Proof. induction l1 as [|[] l1 IH]; cbn; rewrite ?IH; reflexivity. Qed.
Lemma sent_app l1 l2 : sent (l1 ++ l2) = sent l1 ++ sent l2.
Proof. induction l1 as [|[] l1 IH]; cbn; rewrite ?IH; reflexivity. Qed.
Lemma copies_app l1 l2 : copies (l1 ++ l2) = copies l1 ++ copies l2.
Proof. induction l1 as [|[] l1 IH]; cbn; rewrite ?IH; reflexivity. Qed.

Ltac case_ifs := repeat match goal with
  | |- context [if ?b then _ else _] => destruct b eqn:?
  end.

(** X9: whatever the allocator, the user copies and the host answer,
    [dxgvmb_send_create_context] (with its compensating
    [dxgvmb_send_destroy_context]) frees every buffer it allocates, exactly
    once, and nothing else. *)
Theorem create_context_frees_all x ext asy vz scc sdc priv cfu sr hc ctu dr s :
  let r := dxgvmb_send_create_context x ext asy vz scc sdc priv cfu sr hc ctu dr s in
  exists tr, trace r.2 = trace s ++ tr /\
    Permutation (allocated tr) (freed tr) /\ NoDup (allocated tr).
Proof.
  cbv zeta.
  unfold dxgvmb_send_create_context, dxgvmb_send_destroy_context, init_message,
    vzalloc, free_message, emit.
  case_ifs; cbn; case_ifs; cbn; case_ifs; cbn.
  all: first [ exists []; split; [symmetry; apply app_nil_r|]
             | eexists; split; [rewrite <- ?app_assoc; reflexivity|] ].
  all: cbn; split; [first [reflexivity | apply Permutation_swap] | repeat constructor].
  all: first [apply not_elem_of_nil | rewrite list_elem_of_singleton; lia].
Qed.

(** X10: [dxgvmb_send_create_context] returns 0 without any allocation or
    send when the private data size exceeds the packet ceiling; a non-zero
    result is the host's context, after a successful send, with the create
    as the only command sent; and a destroy is only sent for the host's
    context, in which case 0 is returned. *)
Theorem create_context_result x ext asy vz scc sdc priv cfu sr hc ctu dr s :
  let r := dxgvmb_send_create_context x ext asy vz scc sdc priv cfu sr hc ctu dr s in
  exists tr, trace r.2 = trace s ++ tr /\
    (DXG_MAX_VM_BUS_PACKET_SIZE < priv -> r.1 = 0 /\ tr = []) /\
    (r.1 <> 0 -> r.1 = hc /\ 0 <= sr /\ sent tr = [CmdCreateContext]) /\
    (forall h, CmdDestroyContext h ∈ sent tr -> h = hc /\ r.1 = 0).
Proof.
  cbv zeta.
  unfold dxgvmb_send_create_context, dxgvmb_send_destroy_context, init_message,
    vzalloc, free_message, emit.
  case_ifs; cbn; case_ifs; cbn; case_ifs; cbn.
  all: first [ exists []; split; [symmetry; apply app_nil_r|]
             | eexists; split; [rewrite <- ?app_assoc; reflexivity|] ].
  all: cbn.
  all: repeat match goal with
         | H : (_ <? _) = true |- _ => apply Z.ltb_lt in H
         | H : (_ <? _) = false |- _ => apply Z.ltb_ge in H
         end.
  all: split; [intros ?; first [split; reflexivity | lia] |].
  all: split; [intros ?; first [congruence | split; [reflexivity | split; [lia | reflexivity]]] |].
  all: intros h Hh; apply list_elem_of_In in Hh; cbn in Hh.
  all: intuition congruence.
Qed.

Lemma land_round8 v : 0 <= v < 2 ^ 32 -> Z.land v (2 ^ 32 - 8) = v / 8 * 8.
Proof.
  intros Hv.
  replace (2 ^ 32 - 8) with (Z.ldiff (Z.ones 32) (Z.ones 3)) by reflexivity.
  assert (E : Z.land v (Z.ldiff (Z.ones 32) (Z.ones 3)) = Z.ldiff (Z.land v (Z.ones 32)) (Z.ones 3)).
  { apply Z.bits_inj'. intros n Hn.
    rewrite Z.land_spec, !Z.ldiff_spec, Z.land_spec. destruct (Z.testbit v n); reflexivity. }
  rewrite E, Z.land_ones, Z.mod_small by lia.
  rewrite Z.ldiff_ones_r by lia.
  rewrite Z.shiftl_mul_pow2, Z.shiftr_div_pow2 by lia. reflexivity.
Qed.

(** X11: without [u32] wrap-around, [init_message_res] on a zeroed message
    sizes the result area as [result_size] rounded up to a multiple of 8,
    places it right after the command (header included), allocates exactly
    the two together, and fails only with -ENOMEM, leaving [hdr] NULL. *)
Theorem init_message_res_layout x ext asy vz sz result_size s :
  0 <= sz -> 0 <= x -> 0 <= result_size -> sz + x + result_size + 7 < 2 ^ 32 ->
  let r := init_message_res x ext asy vz msgres_null sz result_size s in
  let m := r.1.2 in
  rsize m = sz + (if ext then x else 0) /\
  res_size m mod 8 = 0 /\ result_size <= res_size m < result_size + 8 /\
  ((r.1.1 = 0 /\ rhdr m = BufHeap (vzalloc_calls s) /\
    rmsg_offset m <= rsize m /\ res_offset m = rsize m /\
    trace r.2 = trace s ++ [EvVzalloc (vzalloc_calls s) (rsize m + res_size m)]) \/
   (r.1.1 = - ENOMEM /\ rhdr m = BufNull /\ trace r.2 = trace s)).
Proof.
  intros Hsz Hx Hr Hw. cbv zeta.
  assert (Hsz' : (if ext then (sz + x) mod 2 ^ 32 else sz) = sz + (if ext then x else 0)).
  { destruct ext; [apply Z.mod_small; lia | lia]. }
  assert (Hrs : (0 + Z.land ((result_size + 7) mod 2 ^ 32) (2 ^ 32 - 8)) mod 2 ^ 32
                = (result_size + 7) / 8 * 8).
  { rewrite (Z.mod_small (result_size + 7)) by lia.
    rewrite land_round8 by lia. rewrite Z.add_0_l.
    apply Z.mod_small. split; [apply Z.mul_nonneg_nonneg; [apply Z.div_pos|]; lia|].
    pose proof (Z.mul_div_le (result_size + 7) 8). lia. }
  assert (Hb : result_size <= (result_size + 7) / 8 * 8 < result_size + 8).
  { pose proof (Z.mod_pos_bound (result_size + 7) 8 ltac:(lia)).
    pose proof (Z.div_mod (result_size + 7) 8 ltac:(lia)). lia. }
  unfold init_message_res, vzalloc, emit. cbn [res_size msgres_null].
  rewrite Hsz', Hrs.
  assert (Hb2 : 0 <= sz + (if ext then x else 0) <= sz + x) by (destruct ext; lia).
  rewrite (Z.mod_small (_ + _ / 8 * 8)) by lia.
  destruct (vz (vzalloc_calls s)); cbn.
  - split; [reflexivity|]. split; [apply Z.mod_mul; lia|]. split; [exact Hb|].
    left. split; [reflexivity|]. split; [reflexivity|].
    split; [destruct ext; lia|]. split; reflexivity.
  - split; [reflexivity|]. split; [apply Z.mod_mul; lia|]. split; [exact Hb|].
    right. split; [reflexivity|]. split; reflexivity.
Qed.

(** X12: a [result_size] within 7 of 2^32 wraps in [(result_size + 7) & ~7]:
    [init_message_res] gives the result area 0 bytes and allocates the
    command alone. *)
Theorem init_message_res_result_wraps x ext asy vz sz result_size s :
  0 <= sz -> 0 <= x -> sz + x < 2 ^ 32 ->
  2 ^ 32 - 7 <= result_size < 2 ^ 32 ->
  let r := init_message_res x ext asy vz msgres_null sz result_size s in
  let m := r.1.2 in
  res_size m = 0 /\
  (r.1.1 = 0 -> res_offset m = rsize m /\
     trace r.2 = trace s ++ [EvVzalloc (vzalloc_calls s) (rsize m)]).
Proof.
  intros Hsz Hx Hw Hr. cbv zeta.
  assert (Hrs : (0 + Z.land ((result_size + 7) mod 2 ^ 32) (2 ^ 32 - 8)) mod 2 ^ 32 = 0).
  { rewrite land_round8 by (apply Z.mod_pos_bound; lia).
    replace ((result_size + 7) mod 2 ^ 32) with (result_size + 7 - 2 ^ 32).
    - rewrite Z.div_small by lia. reflexivity.
    - rewrite Z.mod_eq by lia.
      replace ((result_size + 7) / 2 ^ 32) with 1; [lia|].
      apply Z.div_unique with (r := result_size + 7 - 2 ^ 32); lia. }
  unfold init_message_res, vzalloc, emit. cbn [res_size msgres_null].
  rewrite Hrs, Z.add_0_r.
  assert (Hm : (if ext then (sz + x) mod 2 ^ 32 else sz) mod 2 ^ 32
               = (if ext then (sz + x) mod 2 ^ 32 else sz)).
  { destruct ext; [apply Z.mod_mod; lia | apply Z.mod_small; lia]. }
  rewrite Hm.
  destruct (vz (vzalloc_calls s)); cbn.
  - split; [reflexivity|]. intros _. split; reflexivity.
  - split; [reflexivity|]. intros H. discriminate H.
Qed.

Lemma ntstatus2int_nonneg v : 0 <= v -> ntstatus2int v = v.
Proof. intros H. unfold ntstatus2int, NT_SUCCESS. rewrite (proj2 (Z.leb_le 0 v) H). reflexivity. Qed.

(** X13: for an allocation type other than GDISURFACE,
    [dxgvmb_send_get_stdalloc_data] sends nothing, copies nothing, leaves
    both sizes unchanged and returns 0 (or -ENOMEM when the message
    allocation fails): the unsupported type is not reported as an error. *)
Theorem get_stdalloc_data_unsupported_type x ext asy vz sgs sgr pa pr a rsz sr st hp hr s :
  let r := dxgvmb_send_get_stdalloc_data x ext asy vz sgs sgr false pa pr a rsz sr st hp hr s in
  (r.1.1.1 = 0 \/ r.1.1.1 = - ENOMEM) /\
  (vz (vzalloc_calls s) = true -> r.1.1.1 = 0) /\
  r.1.1.2 = a /\ r.1.2 = rsz /\
  exists tr, trace r.2 = trace s ++ tr /\ sent tr = [] /\ copies tr = [].
Proof.
  cbv zeta. unfold dxgvmb_send_get_stdalloc_data, init_message_res, vzalloc,
    free_message_res, emit.
  destruct (vz (vzalloc_calls s)) eqn:Ev; cbn.
  - split; [left; reflexivity|]. split; [reflexivity|]. split; [reflexivity|].
    split; [reflexivity|]. eexists. split; [rewrite <- app_assoc; reflexivity|].
    split; reflexivity.
  - split; [right; reflexivity|]. split; [discriminate|]. split; [reflexivity|].
    split; [reflexivity|]. exists []. split; [symmetry; apply app_nil_r|].
    split; reflexivity.
Qed.

(** X14: when the host's data size differs from a non-zero size given by the
    caller, [dxgvmb_send_get_stdalloc_data] copies nothing and leaves the
    sizes unchanged, but returns the host's non-negative status: the
    mismatch is reported as success. *)
Theorem get_stdalloc_data_size_mismatch x ext asy vz sgs sgr pa pr a rsz sr st hp hr s :
  0 <= sr -> 0 <= st -> vz (vzalloc_calls s) = true ->
  (a <> 0 /\ hp <> a) \/ (rsz <> 0 /\ hr <> rsz) ->
  let r := dxgvmb_send_get_stdalloc_data x ext asy vz sgs sgr true pa pr a rsz sr st hp hr s in
  r.1.1.1 = st /\ r.1.1.2 = a /\ r.1.2 = rsz /\
  exists tr, trace r.2 = trace s ++ tr /\ sent tr = [CmdGetStdAllocData] /\ copies tr = [].
Proof.
  intros Hsr Hst Hv Hm. cbv zeta.
  unfold dxgvmb_send_get_stdalloc_data, init_message_res, vzalloc, free_message_res, emit.
  rewrite Hv. cbn.
  rewrite (proj2 (Z.ltb_ge sr 0) Hsr), ntstatus2int_nonneg by exact Hst.
  rewrite (proj2 (Z.ltb_ge st 0) Hst). cbn.
  destruct Hm as [[Ha Hp]|[Hr Hh]].
  - rewrite (proj2 (Z.eqb_neq a 0) Ha), (proj2 (Z.eqb_neq hp a) Hp). cbn.
    split; [reflexivity|]. split; [reflexivity|]. split; [reflexivity|].
    eexists. split; [rewrite <- !app_assoc; reflexivity|]. split; reflexivity.
  - rewrite (proj2 (Z.eqb_neq rsz 0) Hr), (proj2 (Z.eqb_neq hr rsz) Hh). cbn.
    destruct (negb (a =? 0) && negb (hp =? a)); cbn.
    all: split; [reflexivity|]; split; [reflexivity|]; split; [reflexivity|].
    all: eexists; split; [rewrite <- !app_assoc; reflexivity|]; split; reflexivity.
Qed.

(** X15: when the host's sizes pass the checks,
    [dxgvmb_send_get_stdalloc_data] returns the host's status, stores the
    host's sizes, and copies exactly the host's sizes into the buffers
    given; a zero size of the caller is not checked against the host's. *)
Theorem get_stdalloc_data_copies x ext asy vz sgs sgr pa pr a rsz sr st hp hr s :
  0 <= sr -> 0 <= st -> vz (vzalloc_calls s) = true ->
  (a = 0 \/ hp = a) -> (rsz = 0 \/ hr = rsz) ->
  let r := dxgvmb_send_get_stdalloc_data x ext asy vz sgs sgr true pa pr a rsz sr st hp hr s in
  r.1.1.1 = st /\ r.1.1.2 = hp /\ r.1.2 = hr /\
  exists tr, trace r.2 = trace s ++ tr /\ sent tr = [CmdGetStdAllocData] /\
    copies tr = (if pa then [(ToPrivAllocData, sgr, hp)] else []) ++
                (if pr then [(ToPrivResData, sgr + hp, hr)] else []).
Proof.
  intros Hsr Hst Hv Ha Hr. cbv zeta.
  unfold dxgvmb_send_get_stdalloc_data, init_message_res, vzalloc, free_message_res, emit.
  rewrite Hv. cbn.
  rewrite (proj2 (Z.ltb_ge sr 0) Hsr), ntstatus2int_nonneg by exact Hst.
  rewrite (proj2 (Z.ltb_ge st 0) Hst). cbn.
  replace (negb (a =? 0) && negb (hp =? a)) with false
    by (destruct Ha as [->| ->]; rewrite Z.eqb_refl; cbn; [reflexivity|symmetry; apply andb_false_r]).
  replace (negb (rsz =? 0) && negb (hr =? rsz)) with false
    by (destruct Hr as [->| ->]; rewrite Z.eqb_refl; cbn; [reflexivity|symmetry; apply andb_false_r]).
  destruct pa, pr; cbn.
  all: split; [reflexivity|]; split; [reflexivity|]; split; [reflexivity|].
  all: eexists; split; [rewrite <- !app_assoc; reflexivity|].
  all: rewrite ?sent_app, ?copies_app; split; reflexivity.
Qed.

Lemma round8_mod rs : 0 <= rs -> rs + 7 < 2 ^ 32 ->
  (0 + Z.land ((rs + 7) mod 2 ^ 32) (2 ^ 32 - 8)) mod 2 ^ 32 = (rs + 7) / 8 * 8 /\
  rs <= (rs + 7) / 8 * 8 < rs + 8.
Proof.
  intros H0 H1.
  rewrite (Z.mod_small (rs + 7)) by lia. rewrite land_round8 by lia.
  pose proof (Z.mod_pos_bound (rs + 7) 8 ltac:(lia)).
  pose proof (Z.div_mod (rs + 7) 8 ltac:(lia)).
  split; [|lia]. rewrite Z.add_0_l. apply Z.mod_small. lia.
Qed.

(** X16: with both buffers given with their sizes, and the host's sizes
    equal to them, every [memcpy] of [dxgvmb_send_get_stdalloc_data] reads
    inside the result area of the message. *)
Theorem get_stdalloc_data_reads_within_result x ext asy vz sgs sgr a rsz sr st s :
  0 <= sr -> 0 <= st -> vz (vzalloc_calls s) = true ->
  0 <= sgr -> 0 <= a -> 0 <= rsz -> sgr + a + rsz + 7 < 2 ^ 32 ->
  let r := dxgvmb_send_get_stdalloc_data x ext asy vz sgs sgr true true true a rsz sr st a rsz s in
  exists tr ms rs, trace r.2 = trace s ++ tr /\
    EvSend CmdGetStdAllocData ms rs ∈ tr /\
    copies tr = [(ToPrivAllocData, sgr, a); (ToPrivResData, sgr + a, rsz)] /\
    sgr + a + rsz <= rs.
Proof.
  intros Hsr Hst Hv Hg Ha Hr Hw. cbv zeta.
  unfold dxgvmb_send_get_stdalloc_data, init_message_res, vzalloc, free_message_res, emit.
  rewrite Hv. cbn.
  rewrite (proj2 (Z.ltb_ge sr 0) Hsr), ntstatus2int_nonneg by exact Hst.
  rewrite (proj2 (Z.ltb_ge st 0) Hst), !Z.eqb_refl. cbn.
  rewrite !andb_false_r.
  rewrite (Z.mod_small (sgr + a)) by lia. rewrite (Z.mod_small (sgr + a + rsz)) by lia.
  destruct (round8_mod (sgr + a + rsz) ltac:(lia) Hw) as [-> Hb].
  eexists _, _, _. split; [rewrite <- !app_assoc; reflexivity|].
  split; [apply list_elem_of_In; cbn; auto|].
  split; [reflexivity|lia].
Qed.

(** X17: for a GDI surface request with [priv_alloc_data] given,
    [*alloc_priv_driver_size] zero and [priv_res_data] NULL, the result
    area is the size of the return structure rounded up to 8 bytes; once the send and
    the host status succeed, [dxgvmb_send_get_stdalloc_data] copies the
    host's size unchecked, and a host size of 8 bytes or more makes the
    copy read past the result area. *)
Theorem get_stdalloc_data_unchecked_host_size x ext asy vz sgs sgr rsz sr st hp s :
  0 <= sr -> 0 <= st -> vz (vzalloc_calls s) = true ->
  0 <= sgr -> 8 <= hp -> sgr + 7 < 2 ^ 32 ->
  let r := dxgvmb_send_get_stdalloc_data x ext asy vz sgs sgr true true false 0 rsz sr st hp rsz s in
  r.1.1.2 = hp /\
  exists tr ms rs, trace r.2 = trace s ++ tr /\
    EvSend CmdGetStdAllocData ms rs ∈ tr /\
    copies tr = [(ToPrivAllocData, sgr, hp)] /\
    rs < sgr + hp.
Proof.
  intros Hsr Hst Hv Hg Hh Hw. cbv zeta.
  unfold dxgvmb_send_get_stdalloc_data, init_message_res, vzalloc, free_message_res, emit.
  rewrite Hv. cbn.
  rewrite (proj2 (Z.ltb_ge sr 0) Hsr), ntstatus2int_nonneg by exact Hst.
  rewrite (proj2 (Z.ltb_ge st 0) Hst), !Z.eqb_refl. cbn.
  rewrite !andb_false_r. rewrite Z.add_0_r, (Z.mod_small sgr) by lia.
  destruct (round8_mod sgr ltac:(lia) Hw) as [-> Hb].
  split; [reflexivity|].
  eexists _, _, _. split; [rewrite <- !app_assoc; reflexivity|].
  split; [apply list_elem_of_In; cbn; auto|].
  split; [reflexivity|lia].
Qed.

Lemma init_message_res_layout_witness :
  (0 <= 40 /\ 0 <= 16 /\ 0 <= 13 /\ 40 + 16 + 13 + 7 < 2 ^ 32) /\
  let r := init_message_res 16 true false vzalloc_always msgres_null 40 13 ex_mstate in
  let m := r.1.2 in
  rsize m = 40 + (if true then 16 else 0) /\
  res_size m mod 8 = 0 /\ 13 <= res_size m < 13 + 8 /\
  ((r.1.1 = 0 /\ rhdr m = BufHeap (vzalloc_calls ex_mstate) /\
    rmsg_offset m <= rsize m /\ res_offset m = rsize m /\
    trace r.2 = trace ex_mstate ++ [EvVzalloc (vzalloc_calls ex_mstate) (rsize m + res_size m)]) \/
   (r.1.1 = - ENOMEM /\ rhdr m = BufNull /\ trace r.2 = trace ex_mstate)).
Proof.
  split; [lia|].
  exact (init_message_res_layout 16 true false vzalloc_always 40 13 ex_mstate
           ltac:(lia) ltac:(lia) ltac:(lia) ltac:(lia)).
Defined.

Lemma init_message_res_result_wraps_witness :
  (0 <= 40 /\ 0 <= 16 /\ 40 + 16 < 2 ^ 32 /\ 2 ^ 32 - 7 <= 2 ^ 32 - 3 < 2 ^ 32) /\
  let r := init_message_res 16 true false vzalloc_always msgres_null 40 (2 ^ 32 - 3) ex_mstate in
  let m := r.1.2 in
  res_size m = 0 /\
  (r.1.1 = 0 -> res_offset m = rsize m /\
     trace r.2 = trace ex_mstate ++ [EvVzalloc (vzalloc_calls ex_mstate) (rsize m)]).
Proof.
  split; [lia|].
  exact (init_message_res_result_wraps 16 true false vzalloc_always 40 (2 ^ 32 - 3) ex_mstate
           ltac:(lia) ltac:(lia) ltac:(lia) ltac:(lia)).
Defined.

Lemma get_stdalloc_data_size_mismatch_witness :
  vzalloc_always (vzalloc_calls ex_mstate) = true /\
  let r := dxgvmb_send_get_stdalloc_data 16 true false vzalloc_always 40 24 true true true
             100 0 0 0 96 0 ex_mstate in
  r.1.1.1 = 0 /\ r.1.1.2 = 100 /\ r.1.2 = 0 /\
  exists tr, trace r.2 = trace ex_mstate ++ tr /\ sent tr = [CmdGetStdAllocData] /\ copies tr = [].
Proof.
  split; [reflexivity|].
  exact (get_stdalloc_data_size_mismatch 16 true false vzalloc_always 40 24 true true
           100 0 0 0 96 0 ex_mstate ltac:(lia) ltac:(lia) eq_refl
           ltac:(left; split; discriminate)).
Defined.

Lemma get_stdalloc_data_copies_witness :
  vzalloc_always (vzalloc_calls ex_mstate) = true /\
  let r := dxgvmb_send_get_stdalloc_data 16 true false vzalloc_always 40 24 true true false
             0 0 0 0 96 0 ex_mstate in
  r.1.1.1 = 0 /\ r.1.1.2 = 96 /\ r.1.2 = 0 /\
  exists tr, trace r.2 = trace ex_mstate ++ tr /\ sent tr = [CmdGetStdAllocData] /\
    copies tr = (if true then [(ToPrivAllocData, 24, 96)] else []) ++
                (if false then [(ToPrivResData, 24 + 96, 0)] else []).
Proof.
  split; [reflexivity|].
  exact (get_stdalloc_data_copies 16 true false vzalloc_always 40 24 true false
           0 0 0 0 96 0 ex_mstate ltac:(lia) ltac:(lia) eq_refl
           ltac:(left; reflexivity) ltac:(left; reflexivity)).
Defined.

Lemma get_stdalloc_data_reads_within_result_witness :
  vzalloc_always (vzalloc_calls ex_mstate) = true /\
  let r := dxgvmb_send_get_stdalloc_data 16 true false vzalloc_always 40 24 true true true
             100 60 0 0 100 60 ex_mstate in
  exists tr ms rs, trace r.2 = trace ex_mstate ++ tr /\
    EvSend CmdGetStdAllocData ms rs ∈ tr /\
    copies tr = [(ToPrivAllocData, 24, 100); (ToPrivResData, 24 + 100, 60)] /\
    24 + 100 + 60 <= rs.
Proof.
  split; [reflexivity|].
  exact (get_stdalloc_data_reads_within_result 16 true false vzalloc_always 40 24 100 60 0 0
           ex_mstate ltac:(lia) ltac:(lia) eq_refl ltac:(lia) ltac:(lia) ltac:(lia) ltac:(lia)).
Defined.

Lemma get_stdalloc_data_unchecked_host_size_witness :
  vzalloc_always (vzalloc_calls ex_mstate) = true /\
  let r := dxgvmb_send_get_stdalloc_data 16 true false vzalloc_always 40 24 true true false
             0 0 0 0 4096 0 ex_mstate in
  r.1.1.2 = 4096 /\
  exists tr ms rs, trace r.2 = trace ex_mstate ++ tr /\
    EvSend CmdGetStdAllocData ms rs ∈ tr /\
    copies tr = [(ToPrivAllocData, 24, 4096)] /\
    rs < 24 + 4096.
Proof.
  split; [reflexivity|].
  exact (get_stdalloc_data_unchecked_host_size 16 true false vzalloc_always 40 24 0 0 0 4096
           ex_mstate ltac:(lia) ltac:(lia) eq_refl ltac:(lia) ltac:(lia) ltac:(lia)).
Defined.

End MessagesFacts.
